(** * trychange.py: sending a try job to the try server

    A shallow embedding of [trychange.py] (depot_tools) and the properties
    of its change-submission pipeline: payload assembly, the two transports
    (HTTP and Subversion), version-control detection, the git diff
    post-processing and the exit behaviour of [TryChange].

    Python values keep their Python truthiness; dictionaries are [gmap]s;
    everything the script does to the outside world (sub-processes, the
    network, the file system, the shared repository, standard output) goes
    through one state-and-exception monad whose state records a trace of
    the effects. *)

From Stdlib Require Import ZArith Ascii String DecimalString.
From stdpp Require Import gmap strings list fin_maps.

Local Open Scope Z_scope.

(** ** Python values and truthiness *)

(** The values stored in the payload dictionary: a string, an integer, or
    [None] (the job name before it is resolved). *)
Inductive PyVal :=
| PyNone
| PyStr (s : string)
| PyInt (z : Z).

Global Instance PyVal_eq_dec : EqDecision PyVal.
Proof. solve_decision. Defined.

(** [if x:] in Python. *)
Class Truthy (A : Type) := truthy : A → bool.
Global Hint Mode Truthy ! : typeclass_instances.

Global Instance string_truthy : Truthy string :=
  λ s, match s with EmptyString => false | String _ _ => true end.
Global Instance Z_truthy : Truthy Z := λ z, negb (z =? 0).
Global Instance bool_truthy : Truthy bool := λ b, b.
Global Instance list_truthy {A} : Truthy (list A) :=
  λ l, match l with [] => false | _ :: _ => true end.
Global Instance option_truthy `{Truthy A} : Truthy (option A) :=
  λ o, match o with None => false | Some a => truthy a end.
Global Instance PyVal_truthy : Truthy PyVal :=
  λ v, match v with PyNone => false | PyStr s => truthy s | PyInt z => truthy z end.

(** The Python object behind a typed option value. *)
Class ToPy (A : Type) := to_py : A → PyVal.
Global Hint Mode ToPy ! : typeclass_instances.

Global Instance string_to_py : ToPy string := PyStr.
Global Instance Z_to_py : ToPy Z := PyInt.
Global Instance option_to_py `{ToPy A} : ToPy (option A) :=
  λ o, match o with None => PyNone | Some a => to_py a end.

(** ** Strings *)

Definition str_of_Z (z : Z) : string := NilZero.string_of_int (Z.to_int z).

(** [str(v)], as the [%s] conversion applies it. *)
Definition py_str (v : PyVal) : string :=
  match v with
  | PyNone => "None"
  | PyStr s => s
  | PyInt z => str_of_Z z
  end.

(** [sep.join(l)] *)
Definition join (sep : string) (l : list string) : string := String.concat sep l.

(** [s.startswith(p)] *)
Definition startswith (s p : string) : bool := String.prefix p s.

(** [s[n:]] for [n >= 0] *)
Fixpoint slice_from (n : nat) (s : string) : string :=
  match n, s with
  | O, _ => s
  | S _, EmptyString => EmptyString
  | S n, String _ s => slice_from n s
  end.

(** [s.replace(a, b)] for one-character [a] and [b] *)
Fixpoint replace (a b : ascii) (s : string) : string :=
  match s with
  | EmptyString => EmptyString
  | String c s => String (if Ascii.eqb c a then b else c) (replace a b s)
  end.

(** [c in s] *)
Fixpoint contains (c : ascii) (s : string) : bool :=
  match s with
  | EmptyString => false
  | String d s => Ascii.eqb d c || contains c s
  end.

(** ** The options object *)

Inductive Transport := SendChangeHTTP | SendChangeSVN.

(** A function object is true. *)
Global Instance Transport_truthy : Truthy Transport := λ _, true.

Inductive ScmKind := KindSVN | KindGIT.

(** An instance of [SVN] or [GIT]; [self.options] is the shared options
    object, which lives in the state of the run. *)
Record SCM := { scm_kind : ScmKind; checkout_root : string }.

(** The object [optparse] returns, one field per [dest]. An option that
    was never given and has no default is [None]. *)
Record Options := {
  user : string;
  email : option string;
  name : option string;
  issue : option Z;
  patchset : option Z;
  bot : option (list string);
  revision : option string;
  clobber : option bool;
  target : option string;
  project : option string;
  tests : option (list string);
  files : option (list string);
  diff : option string;
  url : option string;
  root : option string;
  patchlevel : Z;
  send_patch : option Transport;
  host : option string;
  port : option string;
  proxy : option string;
  svn_repo : option string;
  scm : option SCM;
}.

(** ** Payload assembly *)

(** [if c: values[k] = v] *)
Definition setitem_if (c : bool) (k : string) (v : PyVal)
    (values : gmap string PyVal) : gmap string PyVal :=
  if c then <[k := v]> values else values.

Definition _ParseSendChangeOptions (options : Options) : gmap string PyVal :=
  let values := ∅ in
  let values := setitem_if (truthy options.(email)) "email" (to_py options.(email)) values in
  let values := <["user" := PyStr options.(user)]> values in
  let values := <["name" := to_py options.(name)]> values in
  let values := setitem_if (truthy options.(bot)) "bot"
                  (PyStr (join "," (default [] options.(bot)))) values in
  let values := setitem_if (truthy options.(revision)) "revision" (to_py options.(revision)) values in
  let values := setitem_if (truthy options.(clobber)) "clobber" (PyStr "true") values in
  let values := setitem_if (truthy options.(tests)) "tests"
                  (PyStr (join "," (default [] options.(tests)))) values in
  let values := setitem_if (truthy options.(root)) "root" (to_py options.(root)) values in
  let values := setitem_if (truthy options.(patchlevel)) "patchlevel" (to_py options.(patchlevel)) values in
  let values := setitem_if (truthy options.(issue)) "issue" (to_py options.(issue)) values in
  let values := setitem_if (truthy options.(patchset)) "patchset" (to_py options.(patchset)) values in
  let values := setitem_if (truthy options.(target)) "target" (to_py options.(target)) values in
  let values := setitem_if (truthy options.(project)) "project" (to_py options.(project)) values in
  values.

(** ** Exceptions and results *)

Inductive exn :=
| InvalidScript (msg : string)
| NoTryServerAccess (msg : string)
| CheckCallError (command : list string) (retcode : Z) (stdout : string)
| IOError (args : list PyVal)
| OSError (args : list PyVal)
| InvalidURL (msg : string)
| IndexError
| AttributeError
| TypeError
| ValueError
| SystemExit (code : Z).

Inductive Res (A : Type) :=
| Ok (a : A)
| Raise (e : exn).
Arguments Ok {A} a.
Arguments Raise {A} e.

Global Instance Res_ret : MRet Res := @Ok.
Global Instance Res_bind : MBind Res :=
  λ A B f m, match m with Ok a => f a | Raise e => Raise e end.
Global Instance Res_fmap : FMap Res :=
  λ A B f m, match m with Ok a => Ok (f a) | Raise e => Raise e end.

(** ** Lines of text *)

Definition LF : ascii := "010"%char.
Definition CR : ascii := "013"%char.

(** [s.splitlines(True)] on a byte string: lines end at LF, CR or CR LF and
    keep their line ending. [cur] is the current line, reversed. *)
Fixpoint splitlines_go (cur : string) (s : string) : list string :=
  match s with
  | EmptyString =>
      match cur with EmptyString => [] | _ => [String.rev cur] end
  | String c s' =>
      if Ascii.eqb c LF then String.rev (String c cur) :: splitlines_go "" s'
      else if Ascii.eqb c CR then
        match s' with
        | String c' s'' =>
            if Ascii.eqb c' LF
            then String.rev (String c' (String c cur)) :: splitlines_go "" s''
            else String.rev (String c cur) :: splitlines_go "" s'
        | EmptyString => String.rev (String c cur) :: splitlines_go "" s'
        end
      else splitlines_go (String c cur) s'
  end.
Definition splitlines (s : string) : list string := splitlines_go "" s.

(** [s.strip()] *)
Fixpoint lstrip (s : string) : string :=
  match s with
  | String c s' => if Ascii.is_space c then lstrip s' else s
  | EmptyString => EmptyString
  end.
Definition strip (s : string) : string :=
  String.rev (lstrip (String.rev (lstrip s))).

(** ** GIT._GenerateDiff: the rewriting of added-file headers *)

Definition DEV_NULL : string := "--- /dev/null".

(** One iteration of the loop body at index [i]: [diff[i+1]] is read with
    no guard, so it raises [IndexError] past the end of the list. *)
Definition GIT_GenerateDiff_body (i : nat) (diff : list string) : Res (list string) :=
  match diff !! i with
  | None => Raise IndexError
  | Some line =>
      if startswith line DEV_NULL then
        match diff !! (i + 1)%nat with
        | None => Raise IndexError
        | Some next => Ok (<[i := "--- " +:+ slice_from 4 next]> diff)
        end
      else Ok diff
  end.

(** [for i in indices: diff = body(i, diff)] *)
Fixpoint for_in {S : Type} (indices : list nat) (body : nat → S → Res S) (s : S) : Res S :=
  match indices with
  | [] => Ok s
  | i :: indices => s' ← body i s; for_in indices body s'
  end.

(** [for i in range(len(diff)): ...], the list being updated in place. *)
Definition GIT_GenerateDiff_loop (diff : list string) : Res (list string) :=
  for_in (seq 0 (length diff)) GIT_GenerateDiff_body diff.

(** The same rewriting by recursion on the lines, each line looking at
    the one that follows it. *)
Fixpoint rewrite_lines (diff : list string) : Res (list string) :=
  match diff with
  | [] => Ok []
  | line :: rest =>
      if startswith line DEV_NULL then
        match rest with
        | [] => Raise IndexError
        | next :: _ => cons ("--- " +:+ slice_from 4 next) <$> rewrite_lines rest
        end
      else cons line <$> rewrite_lines rest
  end.

(** Every line that starts with the null-device header has a successor. *)
Definition dev_null_followed (diff : list string) : Prop :=
  ∀ i line, diff !! i = Some line → startswith line DEV_NULL = true →
            (i + 1 < length diff)%nat.

(** The line the rewriting leaves at an index holding [line], followed by
    [next] (if any). *)
Definition rewritten (line : string) (next : option string) : string :=
  if startswith line DEV_NULL then "--- " +:+ slice_from 4 (default "" next)
  else line.

(** ** The state of a run and the world outside the script *)

Inductive FsNode := File (content : string) | Dir.

(** What the script does to the outside world, in the order it does it. *)
Inductive Event :=
| EvCall (command : list string)
| EvUrlopen (url : string) (data : option string) (proxies : option (gmap string string))
| EvWrite (path : string) (data : string)
| EvPrint (text : string)
| EvError (text : string).

(** The options object is shared by the run and the [SCM] instance, so it
    lives in the state. The local file system maps a path to a file or a
    directory; [wcs] maps a checked-out directory to the repository URL it
    is a working copy of; [repo] is the content of the shared Subversion
    repository, by URL, and [revlog] its commit messages. *)
Record State := {
  the_options : Options;
  trace : list Event;
  cwd : string;
  fs : gmap string FsNode;
  wcs : gmap string string;
  repo : gmap string string;
  revlog : list (string * string);
}.

Definition set_options (o : Options) (st : State) : State :=
  {| the_options := o; trace := st.(trace); cwd := st.(cwd); fs := st.(fs);
     wcs := st.(wcs); repo := st.(repo); revlog := st.(revlog) |}.
Definition set_trace (t : list Event) (st : State) : State :=
  {| the_options := st.(the_options); trace := t; cwd := st.(cwd); fs := st.(fs);
     wcs := st.(wcs); repo := st.(repo); revlog := st.(revlog) |}.
Definition set_cwd (d : string) (st : State) : State :=
  {| the_options := st.(the_options); trace := st.(trace); cwd := d; fs := st.(fs);
     wcs := st.(wcs); repo := st.(repo); revlog := st.(revlog) |}.
Definition set_fs (f : gmap string FsNode) (st : State) : State :=
  {| the_options := st.(the_options); trace := st.(trace); cwd := st.(cwd); fs := f;
     wcs := st.(wcs); repo := st.(repo); revlog := st.(revlog) |}.
Definition set_wcs (m : gmap string string) (st : State) : State :=
  {| the_options := st.(the_options); trace := st.(trace); cwd := st.(cwd); fs := st.(fs);
     wcs := m; repo := st.(repo); revlog := st.(revlog) |}.
Definition set_repo (m : gmap string string) (l : list (string * string)) (st : State) : State :=
  {| the_options := st.(the_options); trace := st.(trace); cwd := st.(cwd); fs := st.(fs);
     wcs := st.(wcs); repo := m; revlog := l |}.

(** [str(datetime.datetime.now())] needs the fields of the clock reading. *)
Record datetime := {
  year : nat; month : nat; day : nat;
  hour : nat; minute : nat; second : nat; microsecond : nat;
}.

Inductive cmd_result :=
| Done (stdout : string)
| Failed (retcode : Z) (stdout : string).

(** What [urllib.urlopen] does: it raises an [IOError] with its arguments
    (a socket error comes out as one), it raises another exception
    ([httplib.InvalidURL] for a port that is no number), or it returns a
    connection object: [UrlOpened None] stands for an object that is false,
    [UrlOpened (Some body)] for one whose [read()] returns [body], and
    [UrlReadRaises e] for one whose [read()] raises [e]. *)
Inductive UrlResult :=
| UrlIOError (args : list PyVal)
| UrlRaises (e : exn)
| UrlOpened (connection : option string)
| UrlReadRaises (e : exn).

(** A connection object is known by what its [read()] does. *)
Definition Connection : Type := Res string.

(** How [tempfile.mkdtemp] and [tempfile.NamedTemporaryFile] fail: with an
    [IOError] when no usable directory or name is found, with an [OSError]
    when [mkdir] or [open] fails. *)
Inductive TempFault :=
| TempIOError (args : list PyVal)
| TempOSError (args : list PyVal).

Definition temp_exn (f : TempFault) : exn :=
  match f with
  | TempIOError args => IOError args
  | TempOSError args => OSError args
  end.

(** Everything the script asks of its environment and of the modules it
    imports ([gcl], [scm], [gclient_utils], [presubmit_support], [urllib],
    [socket], [tempfile], [datetime], [getpass], [os]). [run] is the
    outcome of a sub-process other than [svn]; [svn_fault] makes a [svn]
    command fail for a reason of its own (network, locks, credentials);
    [mkdtemp_fault] and [NamedTemporaryFile_fault] make the creation of a
    temporary fail. *)
Record World := {
  GetCodeReviewSetting : string → option string;
  GetCachedFile : string → option string;
  getaddrinfo : string → option (list string);
  getuser : string;
  environ : string → option string;
  now : datetime;
  mkdtemp_name : string;
  mkdtemp_fault : option TempFault;
  NamedTemporaryFile_name : string;
  NamedTemporaryFile_fault : option TempFault;
  run : list string → cmd_result;
  svn_fault : list string → option (Z * string);
  open_fault : string → option (list PyVal);
  urlencode : gmap string PyVal → string;
  urlopen_result : string → option string → option (gmap string string) → UrlResult;
  FileRead : string → Res string;
  abspath : string → string → string;
  SVN_GetCheckoutRoot : string → Res string;
  SVN_CaptureStatus : string → Res (list (string * string));
  SVN_DiffItem : string → string → Res (option string);
  SVN_GetEmail : string → Res (option string);
  GIT_GetEmail : string → Res (option string);
  DoGetTrySlaves : list string → string → option string → Res (list string);
  print_help_text : string;
}.

(** ** The monad of the script: state and exceptions *)

Definition Py (A : Type) : Type := State → Res A * State.

Global Instance Py_ret : MRet Py := λ A a st, (Ok a, st).
Global Instance Py_bind : MBind Py :=
  λ A B f m st, match m st with
                | (Ok a, st') => f a st'
                | (Raise e, st') => (Raise e, st')
                end.
Global Instance Py_fmap : FMap Py :=
  λ A B f m st, match m st with
                | (Ok a, st') => (Ok (f a), st')
                | (Raise e, st') => (Raise e, st')
                end.

Definition raise {A} (e : exn) : Py A := λ st, (Raise e, st).
Definition lift {A} (r : Res A) : Py A := λ st, (r, st).
Definition get_state : Py State := λ st, (Ok st, st).
Definition modify (f : State → State) : Py unit := λ st, (Ok tt, f st).
Definition emit (e : Event) : Py unit := modify (λ st, set_trace (st.(trace) ++ [e]) st).
Definition get_options : Py Options := λ st, (Ok st.(the_options), st).
Definition modify_options (f : Options → Options) : Py unit :=
  modify (λ st, set_options (f st.(the_options)) st).

(** [try: m except ...: handler]; a handler that answers [None] does not
    match the exception, which goes on. *)
Definition try_except {A} (m : Py A) (handler : exn → option (Py A)) : Py A :=
  λ st, match m st with
        | (Ok a, st') => (Ok a, st')
        | (Raise e, st') =>
            match handler e with
            | Some h => h st'
            | None => (Raise e, st')
            end
        end.

(** [try: m finally: fin] *)
Definition try_finally {A} (m : Py A) (fin : Py unit) : Py A :=
  λ st, match m st with
        | (r, st') =>
            match fin st' with
            | (Ok _, st'') => (r, st'')
            | (Raise e, st'') => (Raise e, st'')
            end
        end.

(** [print text] *)
Definition print (text : string) : Py unit := emit (EvPrint text).

(** ** Paths and the local file system *)

Definition SEP : ascii := "/"%char.

(** The path ends with a separator. *)
Fixpoint ends_with_sep (a : string) : bool :=
  match a with
  | EmptyString => false
  | String c EmptyString => Ascii.eqb c SEP
  | String _ a' => ends_with_sep a'
  end.

(** [os.path.join(a, b)]: an absolute [b] replaces [a]; otherwise [b] is
    appended, after a separator unless [a] is empty or ends with one. *)
Definition os_path_join (a b : string) : string :=
  if startswith b (String SEP "") then b
  else if String.eqb a "" || ends_with_sep a then a +:+ b
  else a +:+ String SEP b.

(** [os.path.split]: the directory and the last component of a path that
    has a separator. *)
Fixpoint os_path_split (p : string) : option (string * string) :=
  match p with
  | EmptyString => None
  | String c p' =>
      match os_path_split p' with
      | Some (d, b) => Some (String c d, b)
      | None => if Ascii.eqb c SEP then Some (EmptyString, p') else None
      end
  end.

(** The path [p] is [d] or lies below it. *)
Definition under (d p : string) : bool :=
  String.eqb p d || startswith p (d +:+ String SEP "").

(** [tempfile.mkdtemp()]: it fails and creates nothing, or it creates the
    directory. *)
Definition mkdtemp (w : World) : Py string :=
  match w.(mkdtemp_fault) with
  | Some fault => raise (temp_exn fault)
  | None =>
      _ ← modify (λ st, set_fs (<[w.(mkdtemp_name) := Dir]> st.(fs)) st);
      mret w.(mkdtemp_name)
  end.

(** [tempfile.NamedTemporaryFile()]; the object is known by its name. *)
Definition NamedTemporaryFile (w : World) : Py string :=
  match w.(NamedTemporaryFile_fault) with
  | Some fault => raise (temp_exn fault)
  | None =>
      _ ← modify (λ st, set_fs (<[w.(NamedTemporaryFile_name) := File ""]> st.(fs)) st);
      mret w.(NamedTemporaryFile_name)
  end.

(** [temp_file.close()] deletes the file. *)
Definition temp_file_close (temp_file : string) : Py unit :=
  modify (λ st, set_fs (delete temp_file st.(fs)) st).

(** [shutil.rmtree(d, True)]: the directory and all below it go, the
    working-copy administration included. *)
Definition rmtree (d : string) : Py unit :=
  modify (λ st,
    set_wcs (filter (λ kv, under d kv.1 = false) st.(wcs))
      (set_fs (filter (λ kv, under d kv.1 = false) st.(fs)) st)).

(** [open(path, 'wb')]: the directory of the file must exist; the file is
    created or truncated. *)
Definition open_wb (w : World) (path : string) : Py string :=
  st ← get_state;
  match w.(open_fault) path with
  | Some args => raise (IOError args)
  | None =>
      match os_path_split path with
      | Some (d, _) =>
          match st.(fs) !! d with
          | Some Dir =>
              _ ← modify (λ st, set_fs (<[path := File ""]> st.(fs)) st);
              mret path
          | _ => raise (IOError [PyInt 2; PyStr "No such file or directory"])
          end
      | None =>
          _ ← modify (λ st, set_fs (<[path := File ""]> st.(fs)) st);
          mret path
      end
  end.

(** [f.write(data)] on an open file *)
Definition file_write (f : string) (data : string) : Py unit :=
  st ← get_state;
  let old := match st.(fs) !! f with Some (File c) => c | _ => "" end in
  _ ← modify (λ st, set_fs (<[f := File (old +:+ data)]> st.(fs)) st);
  emit (EvWrite f data).

(** ** Sub-processes: gclient_utils.CheckCall *)

(** The URL of a path inside a working copy. *)
Definition wc_url (st : State) (path : string) : option string :=
  match os_path_split path with
  | Some (d, b) => (λ u, u +:+ String SEP b) <$> st.(wcs) !! d
  | None => None
  end.

(** What a [svn] command that does not fail for a reason of its own does
    to the working copy and to the repository. *)
Definition svn_run (command : list string) (st : State) : cmd_result * State :=
  match command with
  | _ :: sub :: args =>
      if String.eqb sub "checkout" then
        match args with
        | _ :: _ :: _ :: repo_url :: dir :: _ =>
            (Done "", set_wcs (<[dir := repo_url]> st.(wcs)) st)
        | _ => (Failed 1 "", st)
        end
      else if String.eqb sub "ls" then
        match args with
        | [file_url] =>
            match st.(repo) !! file_url with
            | Some _ => (Done file_url, st)
            | None => (Failed 1 "", st)
            end
        | _ => (Failed 1 "", st)
        end
      else if String.eqb sub "update" then
        match args with
        | [path] =>
            match wc_url st path with
            | Some file_url =>
                match st.(repo) !! file_url with
                | Some content => (Done "", set_fs (<[path := File content]> st.(fs)) st)
                | None => (Done "", st)
                end
            | None => (Failed 1 "", st)
            end
        | _ => (Failed 1 "", st)
        end
      else if String.eqb sub "add" then
        match args with
        | [path] =>
            match wc_url st path, st.(fs) !! path with
            | Some _, Some (File _) => (Done "", st)
            | _, _ => (Failed 1 "", st)
            end
        | _ => (Failed 1 "", st)
        end
      else if String.eqb sub "commit" then
        match args with
        | [path; _; message_file] =>
            match wc_url st path, st.(fs) !! path, st.(fs) !! message_file with
            | Some file_url, Some (File content), Some (File message) =>
                if decide (st.(repo) !! file_url = Some content)
                then (Done "", st)
                else (Done "", set_repo (<[file_url := content]> st.(repo))
                                 (st.(revlog) ++ [(file_url, message)]) st)
            | _, _, _ => (Failed 1 "", st)
            end
        | _ => (Failed 1 "", st)
        end
      else (Failed 1 "", st)
  | _ => (Failed 1 "", st)
  end.

(** [gclient_utils.CheckCall(command)]: the output of the command, or
    [CheckCallError] with the command, the return code and the output. *)
Definition CheckCall (w : World) (command : list string) : Py string :=
  _ ← emit (EvCall command);
  st ← get_state;
  match command with
  | prog :: _ =>
      if String.eqb prog "svn" then
        match w.(svn_fault) command with
        | Some (retcode, out) => raise (CheckCallError command retcode out)
        | None =>
            match svn_run command st with
            | (Done out, st') => _ ← modify (λ _, st'); mret out
            | (Failed retcode out, _) => raise (CheckCallError command retcode out)
            end
        end
      else
        match w.(run) command with
        | Done out => mret out
        | Failed retcode out => raise (CheckCallError command retcode out)
        end
  | [] => raise (CheckCallError command 2 "")
  end.

(** [urllib.urlopen(url, data, proxies)] *)
Definition urlopen (w : World) (url : string) (data : option string)
    (proxies : option (gmap string string)) : Py (option Connection) :=
  _ ← emit (EvUrlopen url data proxies);
  match w.(urlopen_result) url data proxies with
  | UrlIOError args => raise (IOError args)
  | UrlRaises e => raise e
  | UrlOpened connection => mret (Ok <$> connection)
  | UrlReadRaises e => mret (Some (Raise e))
  end.

(** [connection.read()] *)
Definition read (connection : Connection) : Py string := lift connection.

(** ** Direct delivery: _SendChangeHTTP *)

(** [s.lower()] *)
Definition lower_ascii (c : ascii) : ascii :=
  let n := nat_of_ascii c in
  if (65 <=? n)%nat && (n <=? 90)%nat then ascii_of_nat (n + 32) else c.
Fixpoint lower (s : string) : string :=
  match s with
  | EmptyString => EmptyString
  | String c s => String (lower_ascii c) (lower s)
  end.

(** [repr(v)] and [str(args)] of a tuple; quotes inside a string are not
    escaped. *)
Definition py_repr (v : PyVal) : string :=
  match v with
  | PyStr s => "'" +:+ s +:+ "'"
  | _ => py_str v
  end.
Definition str_tuple (args : list PyVal) : string :=
  match args with
  | [v] => "(" +:+ py_repr v +:+ ",)"
  | _ => "(" +:+ join ", " (py_repr <$> args) +:+ ")"
  end.

Definition _SendChangeHTTP (w : World) (options : Options) : Py unit :=
  if negb (truthy options.(host)) then
    raise (NoTryServerAccess
      "Please use the --host option to specify the try server host to connect to.")
  else if negb (truthy options.(port)) then
    raise (NoTryServerAccess
      "Please use the --port option to specify the try server port to connect to.")
  else
    let values := _ParseSendChangeOptions options in
    let values := <["patch" := to_py options.(diff)]> values in
    let url := "http://" +:+ py_str (to_py options.(host)) +:+ ":" +:+
               py_str (to_py options.(port)) +:+ "/send_try_patch" in
    let proxies : option (gmap string string) := None in
    let proxies :=
      if truthy options.(proxy) then
        if String.eqb (lower (default "" options.(proxy))) "none" then Some ∅
        else Some (<["http" := default "" options.(proxy)]>
                     (<["https" := default "" options.(proxy)]> ∅))
      else proxies in
    connection ← try_except
      (urlopen w url (Some (w.(urlencode) values)) proxies)
      (λ e, match e with
            | IOError args =>
                Some (if truthy (values !! "bot") && (2 <? length args)%nat &&
                         bool_decide (args !! 2%nat = Some (PyStr "got a bad status line"))
                      then raise (NoTryServerAccess
                                    (url +:+ " is unaccessible. Bad --bot argument?"))
                      else raise (NoTryServerAccess
                                    (url +:+ " is unaccessible. Reason: " +:+ str_tuple args)))
            | _ => None
            end);
    match connection with
    | None => raise (NoTryServerAccess (url +:+ " is unaccessible."))
    | Some connection =>
        body ← read connection;
        if negb (String.eqb body "OK")
        then raise (NoTryServerAccess (url +:+ " is unaccessible."))
        else mret tt
    end.

(** ** Mediated delivery: _SendChangeSVN *)

Definition EscapeDot (name : string) : string := replace "."%char "-"%char name.

Definition str_of_nat (n : nat) : string := NilZero.string_of_uint (Nat.to_uint n).

(** ["%0<width>d" % n] *)
Fixpoint zeros (n : nat) : string :=
  match n with O => EmptyString | S n => String "0"%char (zeros n) end.
Definition zfill (width n : nat) : string :=
  zeros (width - String.length (str_of_nat n)) +:+ str_of_nat n.

(** [str(dt)] is [dt.isoformat(' ')]: the microseconds are printed unless
    they are zero. *)
Definition datetime_str (dt : datetime) : string :=
  zfill 4 dt.(year) +:+ "-" +:+ zfill 2 dt.(month) +:+ "-" +:+ zfill 2 dt.(day) +:+ " " +:+
  zfill 2 dt.(hour) +:+ ":" +:+ zfill 2 dt.(minute) +:+ ":" +:+ zfill 2 dt.(second) +:+
  (if (dt.(microsecond) =? 0)%nat then "" else "." +:+ zfill 6 dt.(microsecond)).

(** One ["%s=%s\n" % (k, v)] line. *)
Definition description_line (kv : string * PyVal) : string :=
  kv.1 +:+ "=" +:+ py_str kv.2 +:+ String LF "".

(** [for (k, v) in values.iteritems(): description += ...]; the order of
    the items of a dictionary is the order of [map_to_list]. *)
Definition description_of (values : gmap string PyVal) : string :=
  foldl (λ description kv, description +:+ description_line kv) "" (map_to_list values).

(** The name of the file a submission is stored in. *)
Definition submission_file_name (user name : string) (dt : datetime) : string :=
  let current_time := replace ":"%char "."%char (datetime_str dt) in
  EscapeDot user +:+ "." +:+ EscapeDot name +:+ ("." +:+ current_time +:+ ".diff").

(** [f = open(path, 'wb'); f.write(data); f.close()] *)
Definition write_file (w : World) (path : string) (data : option string) : Py unit :=
  f ← open_wb w path;
  match data with
  | Some data => file_write f data
  | None => raise TypeError
  end.

(** The body of the inner [try] statement of [_SendChangeSVN]. *)
Definition _SendChangeSVN_try (w : World) (options : Options)
    (description temp_dir temp_file : string) : Py unit :=
  let command := ["svn"; "checkout"; "--depth"; "empty"; "-q";
                  default "" options.(svn_repo); temp_dir] in
  let command := if truthy options.(email)
                 then command ++ ["--username"; default "" options.(email)]
                 else command in
  _ ← CheckCall w command;
  (* TODO(maruel): Use a subdirectory per user? *)
  name ← match options.(name) with
         | Some name => mret name
         | None => raise AttributeError
         end;
  let file_name := submission_file_name options.(user) name w.(now) in
  let full_path := os_path_join temp_dir file_name in
  let full_url := default "" options.(svn_repo) +:+ "/" +:+ file_name in
  file_found ← try_except
    (_ ← CheckCall w ["svn"; "ls"; full_url]; mret true)
    (λ e, match e with
          | CheckCallError _ _ _ => Some (mret false)
          | _ => None
          end);
  _ ← (if file_found : bool then
         (* The file already exists in the repo. *)
         _ ← CheckCall w ["svn"; "update"; full_path];
         write_file w full_path options.(diff)
       else
         (* Add the file to the repo *)
         _ ← write_file w full_path options.(diff);
         _ ← CheckCall w ["svn"; "add"; full_path];
         mret tt);
  _ ← file_write temp_file description;
  _ ← CheckCall w ["svn"; "commit"; full_path; "--file"; temp_file];
  mret tt.

(** [except gclient_utils.CheckCallError, e: raise NoTryServerAccess(...)] *)
Definition _SendChangeSVN_except (e : exn) : option (Py unit) :=
  match e with
  | CheckCallError command _ stdout =>
      Some (raise (NoTryServerAccess
        (join " " command +:+ String LF "Ouput:" +:+ String LF stdout)))
  | _ => None
  end.

(** [finally: temp_file.close(); shutil.rmtree(temp_dir, True)] *)
Definition _SendChangeSVN_finally (temp_dir temp_file : string) : Py unit :=
  _ ← temp_file_close temp_file; rmtree temp_dir.

Definition _SendChangeSVN (w : World) (options : Options) : Py unit :=
  if negb (truthy options.(svn_repo)) then
    raise (NoTryServerAccess
      "Please use the --svn_repo option to specify the try server svn repository to connect to.")
  else
    let values := _ParseSendChangeOptions options in
    let description := description_of values in
    (* Do an empty checkout. *)
    temp_dir ← mkdtemp w;
    temp_file ← NamedTemporaryFile w;
    try_finally
      (try_except (_SendChangeSVN_try w options description temp_dir temp_file)
                  _SendChangeSVN_except)
      (_SendChangeSVN_finally temp_dir temp_file).

(** ** Assignments to the options object *)

(** [options.files = v] *)
Definition set_files (v : option (list string)) (o : Options) : Options :=
  {| user := o.(user); email := o.(email); name := o.(name); issue := o.(issue);
  patchset := o.(patchset); bot := o.(bot); revision := o.(revision); clobber :=
  o.(clobber); target := o.(target); project := o.(project); tests := o.(tests); files
  := v; diff := o.(diff); url := o.(url); root := o.(root); patchlevel :=
  o.(patchlevel); send_patch := o.(send_patch); host := o.(host); port := o.(port);
  proxy := o.(proxy); svn_repo := o.(svn_repo); scm := o.(scm) |}.

(** [options.diff = v] *)
Definition set_diff (v : option string) (o : Options) : Options :=
  {| user := o.(user); email := o.(email); name := o.(name); issue := o.(issue);
  patchset := o.(patchset); bot := o.(bot); revision := o.(revision); clobber :=
  o.(clobber); target := o.(target); project := o.(project); tests := o.(tests); files
  := o.(files); diff := v; url := o.(url); root := o.(root); patchlevel :=
  o.(patchlevel); send_patch := o.(send_patch); host := o.(host); port := o.(port);
  proxy := o.(proxy); svn_repo := o.(svn_repo); scm := o.(scm) |}.

(** [options.email = v] *)
Definition set_email (v : option string) (o : Options) : Options :=
  {| user := o.(user); email := v; name := o.(name); issue := o.(issue); patchset :=
  o.(patchset); bot := o.(bot); revision := o.(revision); clobber := o.(clobber); target
  := o.(target); project := o.(project); tests := o.(tests); files := o.(files); diff :=
  o.(diff); url := o.(url); root := o.(root); patchlevel := o.(patchlevel); send_patch
  := o.(send_patch); host := o.(host); port := o.(port); proxy := o.(proxy); svn_repo :=
  o.(svn_repo); scm := o.(scm) |}.

(** [options.name = v] *)
Definition set_name (v : option string) (o : Options) : Options :=
  {| user := o.(user); email := o.(email); name := v; issue := o.(issue); patchset :=
  o.(patchset); bot := o.(bot); revision := o.(revision); clobber := o.(clobber); target
  := o.(target); project := o.(project); tests := o.(tests); files := o.(files); diff :=
  o.(diff); url := o.(url); root := o.(root); patchlevel := o.(patchlevel); send_patch
  := o.(send_patch); host := o.(host); port := o.(port); proxy := o.(proxy); svn_repo :=
  o.(svn_repo); scm := o.(scm) |}.

(** [options.bot = v] *)
Definition set_bot (v : option (list string)) (o : Options) : Options :=
  {| user := o.(user); email := o.(email); name := o.(name); issue := o.(issue);
  patchset := o.(patchset); bot := v; revision := o.(revision); clobber := o.(clobber);
  target := o.(target); project := o.(project); tests := o.(tests); files := o.(files);
  diff := o.(diff); url := o.(url); root := o.(root); patchlevel := o.(patchlevel);
  send_patch := o.(send_patch); host := o.(host); port := o.(port); proxy := o.(proxy);
  svn_repo := o.(svn_repo); scm := o.(scm) |}.

(** [options.scm = v] *)
Definition set_scm (v : option SCM) (o : Options) : Options :=
  {| user := o.(user); email := o.(email); name := o.(name); issue := o.(issue);
  patchset := o.(patchset); bot := o.(bot); revision := o.(revision); clobber :=
  o.(clobber); target := o.(target); project := o.(project); tests := o.(tests); files
  := o.(files); diff := o.(diff); url := o.(url); root := o.(root); patchlevel :=
  o.(patchlevel); send_patch := o.(send_patch); host := o.(host); port := o.(port);
  proxy := o.(proxy); svn_repo := o.(svn_repo); scm := v |}.

(** [options.send_patch = v] *)
Definition set_send_patch (v : option Transport) (o : Options) : Options :=
  {| user := o.(user); email := o.(email); name := o.(name); issue := o.(issue);
  patchset := o.(patchset); bot := o.(bot); revision := o.(revision); clobber :=
  o.(clobber); target := o.(target); project := o.(project); tests := o.(tests); files
  := o.(files); diff := o.(diff); url := o.(url); root := o.(root); patchlevel :=
  o.(patchlevel); send_patch := v; host := o.(host); port := o.(port); proxy :=
  o.(proxy); svn_repo := o.(svn_repo); scm := o.(scm) |}.

(** [options.port = v] *)
Definition set_port (v : option string) (o : Options) : Options :=
  {| user := o.(user); email := o.(email); name := o.(name); issue := o.(issue);
  patchset := o.(patchset); bot := o.(bot); revision := o.(revision); clobber :=
  o.(clobber); target := o.(target); project := o.(project); tests := o.(tests); files
  := o.(files); diff := o.(diff); url := o.(url); root := o.(root); patchlevel :=
  o.(patchlevel); send_patch := o.(send_patch); host := o.(host); port := v;
  proxy := o.(proxy); svn_repo := o.(svn_repo); scm := o.(scm) |}.

(** [options.user = v] *)
Definition set_user (v : string) (o : Options) : Options :=
  {| user := v; email := o.(email); name := o.(name); issue := o.(issue);
  patchset := o.(patchset); bot := o.(bot); revision := o.(revision); clobber :=
  o.(clobber); target := o.(target); project := o.(project); tests := o.(tests); files
  := o.(files); diff := o.(diff); url := o.(url); root := o.(root); patchlevel :=
  o.(patchlevel); send_patch := o.(send_patch); host := o.(host); port := o.(port);
  proxy := o.(proxy); svn_repo := o.(svn_repo); scm := o.(scm) |}.

(** ** The version-control classes *)

(** [os.chdir(d)] *)
Definition chdir (d : string) : Py unit := modify (set_cwd d).

(** [[f(x) for x in l]] *)
Fixpoint for_each {A B : Type} (f : A → Py B) (l : list A) : Py (list B) :=
  match l with
  | [] => mret []
  | x :: l => y ← f x; ys ← for_each f l; mret (y :: ys)
  end.

(** [filter(None, l)]: the items that are true. *)
Definition filter_None (l : list (option string)) : list string :=
  omap (λ o, match o with Some (String c s) => Some (String c s) | _ => None end) l.

(** [SCM.GetFileNames]: the list of files in the diff. *)
Definition GetFileNames (self : SCM) : Py (option (list string)) :=
  options ← get_options; mret options.(files).

(** [GetLocalRoot], the same in both classes. *)
Definition GetLocalRoot (self : SCM) : string := self.(checkout_root).

Definition SVN__GenerateDiff (w : World) (self : SCM) : Py string :=
  st ← get_state;
  let previous_cwd := st.(cwd) in
  _ ← chdir self.(checkout_root);
  options ← get_options;
  _ ← (if negb (truthy options.(files)) then
         status ← lift (w.(SVN_CaptureStatus) self.(checkout_root));
         modify_options (set_files (Some (snd <$> status)))
       else mret tt);
  options ← get_options;
  (* Directories will return None so filter them out. *)
  items ← for_each (λ f, lift (w.(SVN_DiffItem) self.(checkout_root) f))
             (default [] options.(files));
  let diff := filter_None items in
  _ ← chdir previous_cwd;
  mret (join "" diff).

(** [SVN(options)] *)
Definition SVN (w : World) : Py SCM :=
  st ← get_state;
  root_dir ← lift (w.(SVN_GetCheckoutRoot) st.(cwd));
  let self := {| scm_kind := KindSVN; checkout_root := root_dir |} in
  options ← get_options;
  _ ← (if negb (truthy options.(diff)) then
         (* Generate the diff from the scm. *)
         d ← SVN__GenerateDiff w self;
         modify_options (set_diff (Some d))
       else mret tt);
  options ← get_options;
  _ ← (if negb (truthy options.(email)) then
         (* Assumes the svn credential is an email address. *)
         e ← lift (w.(SVN_GetEmail) self.(checkout_root));
         modify_options (set_email e)
       else mret tt);
  mret self.

Definition GIT__GenerateDiff (w : World) : Py string :=
  branch ← strip <$> CheckCall w ["git"; "cl"; "upstream"];
  out ← CheckCall w ["git"; "diff-tree"; "-p"; "--no-prefix"; branch; "HEAD"];
  let diff := splitlines out in
  diff ← lift (GIT_GenerateDiff_loop diff);
  mret (join "" diff).

Definition GIT__GetPatchName (w : World) : Py string :=
  branch ← strip <$> CheckCall w ["git"; "symbolic-ref"; "HEAD"];
  if negb (startswith branch "refs/heads/") then
    raise (NoTryServerAccess "Couldn't figure out branch name")
  else
    let branch := slice_from (String.length "refs/heads/") branch in
    mret branch.

(** [GIT(options)] *)
Definition GIT (w : World) : Py SCM :=
  out ← CheckCall w ["git"; "rev-parse"; "--show-cdup"];
  st ← get_state;
  let self := {| scm_kind := KindGIT;
                 checkout_root := w.(abspath) st.(cwd) (strip out) |} in
  options ← get_options;
  _ ← (if negb (truthy options.(diff)) then
         d ← GIT__GenerateDiff w;
         modify_options (set_diff (Some d))
       else mret tt);
  options ← get_options;
  _ ← (if negb (truthy options.(name)) then
         n ← GIT__GetPatchName w;
         modify_options (set_name (Some n))
       else mret tt);
  options ← get_options;
  _ ← (if negb (truthy options.(email)) then
         e ← lift (w.(GIT_GetEmail) ".");
         modify_options (set_email e)
       else mret tt);
  mret self.

(** ** Detection of the version-control system: GuessVCS *)

(** [os.path.isdir(p)] for a path relative to the current directory *)
Definition isdir (st : State) (p : string) : bool :=
  match st.(fs) !! os_path_join st.(cwd) p with
  | Some Dir => true
  | _ => false
  end.

Definition GIT_PROBE : list string := ["git"; "rev-parse"; "--is-inside-work-tree"].

Definition GuessVCS (w : World) : Py SCM :=
  st ← get_state;
  (* Subversion has a .svn in all working directories. *)
  if isdir st ".svn" then SVN w
  else
    (* Git has a command to test if you're in a git tree.
       Try running it, but don't die if we don't have git installed. *)
    guessed ← try_except
      (_ ← CheckCall w GIT_PROBE; Some <$> GIT w)
      (λ e, match e with
            | CheckCallError _ retcode _ =>
                Some (if negb (retcode =? 2) then raise e else mret None)
            | _ => None
            end);
    match guessed with
    | Some self => mret self
    | None =>
        raise (NoTryServerAccess
          "Could not guess version control system. Are you in a working copy directory?")
    end.

(** ** The settings of the repository: GetTryServerSettings *)

Record Settings := {
  s_http_port : option string;
  s_http_host : option string;
  s_svn_repo : option string;
  default_project : option string;
  default_root : option string;
  default_patchlevel : Z;
  default_transport : option string;
}.

(** [int(s)] for a string: white space around the number is skipped, a
    sign [+] or [-] may come first (and white space after it), and the
    rest is one or more decimal digits. *)
Definition int (s : string) : Res Z :=
  let digits (s : string) : option Z := Z.of_uint <$> NilZero.uint_of_string s in
  let s := strip s in
  let number :=
    match s with
    | String c rest =>
        if Ascii.eqb c "+" then digits (lstrip rest)
        else if Ascii.eqb c "-" then Z.opp <$> digits (lstrip rest)
        else digits s
    | EmptyString => digits s
    end in
  match number with
  | Some n => Ok n
  | None => Raise ValueError
  end.

Definition _SafeResolve (w : World) (host : string) : option (list string) :=
  w.(getaddrinfo) host.

Definition GetTryServerSettings (w : World) : Res Settings :=
  let http_port := w.(GetCodeReviewSetting) "TRYSERVER_HTTP_PORT" in
  let http_host := w.(GetCodeReviewSetting) "TRYSERVER_HTTP_HOST" in
  let svn_repo := w.(GetCodeReviewSetting) "TRYSERVER_SVN_URL" in
  let project := w.(GetCodeReviewSetting) "TRYSERVER_PROJECT" in
  let root := w.(GetCodeReviewSetting) "TRYSERVER_ROOT" in
  (* Pick a patchlevel, default to 0. *)
  let patchlevel := w.(GetCodeReviewSetting) "TRYSERVER_PATCHLEVEL" in
  patchlevel ← (if truthy patchlevel then int (default "" patchlevel) else Ok 0);
  (* Use http is the http_host name resolve, fallback to svn otherwise. *)
  let transport :=
    if truthy http_port && truthy http_host &&
       truthy (_SafeResolve w (default "" http_host))
    then Some "http"
    else if truthy svn_repo then Some "svn"
    else None in
  mret {| s_http_port := http_port; s_http_host := http_host; s_svn_repo := svn_repo;
          default_project := project; default_root := root;
          default_patchlevel := patchlevel; default_transport := transport |}.

(** [transport_functions.get(key)] *)
Definition transport_functions (key : option string) : option Transport :=
  match key with
  | Some k => if String.eqb k "http" then Some SendChangeHTTP
              else if String.eqb k "svn" then Some SendChangeSVN
              else None
  | None => None
  end.

(** ** The command line *)

(** What [optparse] found on the command line: an option that was not
    given is [None]; [cli_send_patch] is the last of [--use_http] and
    [--use_svn]; [cli_args] are the positional arguments. *)
Record Cli := {
  cli_user : option string;
  cli_email : option string;
  cli_name : option string;
  cli_issue : option Z;
  cli_patchset : option Z;
  cli_bot : option (list string);
  cli_revision : option string;
  cli_clobber : option bool;
  cli_target : option string;
  cli_project : option string;
  cli_tests : option (list string);
  cli_files : option (list string);
  cli_diff : option string;
  cli_url : option string;
  cli_root : option string;
  cli_patchlevel : option Z;
  cli_send_patch : option Transport;
  cli_host : option string;
  cli_port : option string;
  cli_proxy : option string;
  cli_svn_repo : option string;
  cli_args : list string;
}.

(** The value of an option: the one given, or else the default. *)
Definition or_default {A} (given default : option A) : option A :=
  match given with Some v => Some v | None => default end.

(** [parser.parse_args(argv)] with the defaults of the [add_option] calls;
    [--file] appends to its default. *)
Definition parse_args (w : World) (default_settings : Settings)
    (default_transport : option Transport) (file_list : option (list string))
    (argv : Cli) : Options :=
  {| user := default w.(getuser) argv.(cli_user);
     email := or_default argv.(cli_email)
                (or_default (w.(environ) "TRYBOT_RESULTS_EMAIL_ADDRESS")
                            (w.(environ) "EMAIL_ADDRESS"));
     name := argv.(cli_name);
     issue := argv.(cli_issue);
     patchset := argv.(cli_patchset);
     bot := argv.(cli_bot);
     revision := argv.(cli_revision);
     clobber := argv.(cli_clobber);
     target := argv.(cli_target);
     project := or_default argv.(cli_project) default_settings.(default_project);
     tests := argv.(cli_tests);
     files := match argv.(cli_files) with
              | Some given => Some (default [] file_list ++ given)
              | None => file_list
              end;
     diff := argv.(cli_diff);
     url := argv.(cli_url);
     root := or_default argv.(cli_root) default_settings.(default_root);
     patchlevel := default default_settings.(default_patchlevel) argv.(cli_patchlevel);
     send_patch := or_default argv.(cli_send_patch) default_transport;
     host := or_default argv.(cli_host) default_settings.(s_http_host);
     port := or_default argv.(cli_port) default_settings.(s_http_port);
     proxy := argv.(cli_proxy);
     svn_repo := or_default argv.(cli_svn_repo) default_settings.(s_svn_repo);
     scm := None |}.

(** [parser.error(msg)]: the message goes to standard error and the
    script exits with status 2. *)
Definition parser_error {A} (msg : string) : Py A :=
  _ ← emit (EvError msg); raise (SystemExit 2).

(** ** TryChange *)

Definition HELP_STRING : string := "Sorry, Tryserver is not available.".

(** [str(e)] for [InvalidScript] and [NoTryServerAccess] *)
Definition exn_str (msg : string) : string := msg +:+ String LF HELP_STRING.

(** [options.send_patch(options)] *)
Definition call_send_patch (w : World) (options : Options) : Py unit :=
  match options.(send_patch) with
  | Some SendChangeHTTP => _SendChangeHTTP w options
  | Some SendChangeSVN => _SendChangeSVN w options
  | None => raise TypeError
  end.

(** From the settings to the resolved transport: the options after
    [parse_args] and the switch of the default [send_patch]. *)
Definition TryChange_options (w : World) (argv : Cli)
    (file_list : option (list string)) : Py Options :=
  default_settings ← lift (GetTryServerSettings w);
  let default_transport :=
    transport_functions default_settings.(default_transport) in
  let options := parse_args w default_settings default_transport file_list argv in
  (* Switch the default accordingly if there was no default send_patch. *)
  if negb (truthy options.(send_patch)) then
    if truthy options.(port) && truthy options.(host) then
      mret (set_send_patch (Some SendChangeHTTP) options)
    else if truthy options.(svn_repo) then
      mret (set_send_patch (Some SendChangeSVN) options)
    else parser_error "Please specify an access method."
  else mret options.

(** The body of the [try] statement; it works on the options object of
    the state. *)
Definition TryChange_try (w : World) : Py unit :=
  (* Convert options.diff into the content of the diff. *)
  options ← get_options;
  _ ← (if truthy options.(url) then
         connection ← urlopen w (default "" options.(url)) None None;
         match connection with
         | Some connection =>
             body ← read connection; modify_options (set_diff (Some body))
         | None => raise AttributeError
         end
       else if truthy options.(diff) then
         content ← lift (w.(FileRead) (default "" options.(diff)));
         modify_options (set_diff (Some content))
       else mret tt);
  (* Process the VCS in any case at least to retrieve the email address. *)
  _ ← try_except
        (self ← GuessVCS w; modify_options (set_scm (Some self)))
        (λ e, match e with
              | NoTryServerAccess _ =>
                  Some (options ← get_options;
                        (* If we got the diff, we don't care. *)
                        if negb (truthy options.(diff)) then raise e else mret tt)
              | _ => None
              end);
  (* Get try slaves from PRESUBMIT.py files if not specified. *)
  options ← get_options;
  _ ← (if negb (truthy options.(bot)) then
         _ ← (if truthy options.(url)
              then parser_error "You need to specify which bots to use."
              else mret tt);
         let root_presubmit := w.(GetCachedFile) "PRESUBMIT.py" in
         match options.(scm) with
         | None => raise AttributeError
         | Some self =>
             file_names ← GetFileNames self;
             slaves ← lift (w.(DoGetTrySlaves) (default [] file_names)
                              (GetLocalRoot self) root_presubmit);
             modify_options (set_bot (Some slaves))
         end
       else mret tt);
  options ← get_options;
  _ ← (match options.(name) with
       | None =>
           if truthy options.(issue) then
             modify_options (set_name (Some ("Issue " +:+ py_str (to_py options.(issue)))))
           else
             _ ← modify_options (set_name (Some "Unnamed"));
             print "Note: use --name NAME to change the try job name."
       | Some _ => mret tt
       end);
  options ← get_options;
  _ ← (if negb (truthy options.(email)) then
         print ("Warning: TRYBOT_RESULTS_EMAIL_ADDRESS is not set. Try server results might"
                +:+ String LF ("go to: " +:+ options.(user) +:+ "@google.com." +:+ String LF ""))
       else print ("Results will be emailed to: " +:+ default "" options.(email)));
  (* Send the patch. *)
  options ← get_options;
  _ ← call_send_patch w options;
  print ("Patch '" +:+ py_str (to_py options.(name)) +:+ "' sent to try server: "
         +:+ join ", " (default [] options.(bot))).

(** Everything before the [try] statement. *)
Definition TryChange_setup (w : World) (argv : Cli)
    (file_list : option (list string)) : Py unit :=
  options ← TryChange_options w argv file_list;
  _ ← modify_options (λ _, options);
  _ ← (if bool_decide (argv.(cli_args) = ["help"])
       then print w.(print_help_text) else mret tt);
  if negb (truthy options.(files)) &&
     (negb (truthy options.(issue)) && truthy options.(patchset)) &&
     negb (truthy options.(diff)) && negb (truthy options.(url))
  then parser_error "Nothing to try, changelist is empty."
  else mret tt.

(** [TryChange(argv, file_list, swallow_exception)]: the return value. *)
Definition TryChange (w : World) (argv : Cli) (file_list : option (list string))
    (swallow_exception : bool) : Py Z :=
  _ ← TryChange_setup w argv file_list;
  try_except
    (_ ← TryChange_try w; mret 0)
    (λ e, match e with
          | InvalidScript msg | NoTryServerAccess msg =>
              Some (if swallow_exception then mret 1
                    else _ ← print (exn_str msg); mret 1)
          | _ => None
          end).

(** ** A concrete world, for running the script *)

Definition demo_now : datetime :=
  {| year := 2009; month := 10; day := 5;
     hour := 14; minute := 23; second := 11; microsecond := 0 |}.

(** A world given by its repository settings, its name resolution, its
    clock, its HTTP server and its sub-processes; everything else is fixed. *)
Definition demo_world (settings : string → option string)
    (resolve : string → option (list string)) (clock : datetime)
    (http : UrlResult) (process : list string → cmd_result) : World :=
  {| GetCodeReviewSetting := settings;
     GetCachedFile := λ _, None;
     getaddrinfo := resolve;
     getuser := "joe";
     environ := λ _, None;
     now := clock;
     mkdtemp_name := "/tmp/tmpXk2";
     mkdtemp_fault := None;
     NamedTemporaryFile_name := "/tmp/tmpQ7f";
     NamedTemporaryFile_fault := None;
     run := process;
     svn_fault := λ _, None;
     open_fault := λ _, None;
     urlencode := λ values, description_of values;
     urlopen_result := λ _ _ _, http;
     FileRead := λ _, Ok "Index: a.cc";
     abspath := λ _ p, p;
     SVN_GetCheckoutRoot := λ d, Ok d;
     SVN_CaptureStatus := λ _, Ok [("M", "a.cc")];
     SVN_DiffItem := λ _ f, Ok (Some ("Index: " +:+ f));
     SVN_GetEmail := λ _, Ok (Some "joe@example.com");
     GIT_GetEmail := λ _, Ok (Some "joe@example.com");
     DoGetTrySlaves := λ _ _ _, Ok ["win"; "mac"];
     print_help_text := "usage" |}.

Definition no_settings : string → option string := λ _, None.
Definition no_git : list string → cmd_result := λ _, Failed 2 "".

Definition demo_options : Options :=
  {| user := "joe.smith"; email := Some "joe@example.com"; name := Some "fix.1";
     issue := None; patchset := None; bot := Some ["win"]; revision := None;
     clobber := None; target := None; project := None; tests := None;
     files := None; diff := Some "Index: a.cc"; url := None; root := None;
     patchlevel := 0; send_patch := None; host := Some "tryserver";
     port := Some "8018"; proxy := None;
     svn_repo := Some "svn://svn/try"; scm := None |}.

Definition no_cli : Cli :=
  {| cli_user := None; cli_email := None; cli_name := None; cli_issue := None;
     cli_patchset := None; cli_bot := None; cli_revision := None;
     cli_clobber := None; cli_target := None; cli_project := None;
     cli_tests := None; cli_files := None; cli_diff := None; cli_url := None;
     cli_root := None; cli_patchlevel := None; cli_send_patch := None;
     cli_host := None; cli_port := None; cli_proxy := None;
     cli_svn_repo := None; cli_args := [] |}.

(** The state at the start of a run, in directory [dir] of a file system. *)
Definition start_state (dir : string) (files : gmap string FsNode)
    (store : gmap string string) : State :=
  {| the_options := demo_options; trace := []; cwd := dir; fs := files;
     wcs := ∅; repo := store; revlog := [] |}.

(** Settings that name an HTTP try server and no repository. *)
Definition http_settings : string → option string :=
  λ k, if String.eqb k "TRYSERVER_HTTP_HOST" then Some "tryserver"
       else if String.eqb k "TRYSERVER_HTTP_PORT" then Some "8018"
       else None.

(** Settings that name a shared repository and no HTTP server. *)
Definition svn_settings : string → option string :=
  λ k, if String.eqb k "TRYSERVER_SVN_URL" then Some "svn://svn/try" else None.

(** A Subversion checkout in [/src]. *)
Definition svn_checkout : gmap string FsNode :=
  <["/src/.svn" := Dir]> (<["/src" := Dir]> (<["/tmp" := Dir]> ∅)).

(** Two readings of the clock within the same second. *)
Definition clock_a : datetime :=
  {| year := 2009; month := 10; day := 5;
     hour := 14; minute := 23; second := 11; microsecond := 1 |}.
Definition clock_b : datetime :=
  {| year := 2009; month := 10; day := 5;
     hour := 14; minute := 23; second := 11; microsecond := 2 |}.

(** The [git diff-tree] output for a change that adds [dir/new.cc]. *)
Definition added_file_diff : string :=
  "diff --git dir/new.cc dir/new.cc" +:+ String LF
  ("--- /dev/null" +:+ String LF
  ("+++ dir/new.cc" +:+ String LF
  ("@@ -0,0 +1 @@" +:+ String LF
  ("+int x;" +:+ String LF "")))).

(** A git whose upstream branch is [origin/master] and whose diff is
    [added_file_diff]. *)
Definition git_adds_file : list string → cmd_result :=
  λ command, if bool_decide (command = ["git"; "cl"; "upstream"])
             then Done ("origin/master" +:+ String LF "")
             else Done added_file_diff.

(** The world [w] with a [NamedTemporaryFile] that fails: too many open
    files. *)
Definition no_temporary_file (w : World) : World :=
  {| GetCodeReviewSetting := w.(GetCodeReviewSetting);
     GetCachedFile := w.(GetCachedFile);
     getaddrinfo := w.(getaddrinfo);
     getuser := w.(getuser);
     environ := w.(environ);
     now := w.(now);
     mkdtemp_name := w.(mkdtemp_name);
     mkdtemp_fault := w.(mkdtemp_fault);
     NamedTemporaryFile_name := w.(NamedTemporaryFile_name);
     NamedTemporaryFile_fault := Some (TempOSError [PyInt 24; PyStr "Too many open files"]);
     run := w.(run);
     svn_fault := w.(svn_fault);
     open_fault := w.(open_fault);
     urlencode := w.(urlencode);
     urlopen_result := w.(urlopen_result);
     FileRead := w.(FileRead);
     abspath := w.(abspath);
     SVN_GetCheckoutRoot := w.(SVN_GetCheckoutRoot);
     SVN_CaptureStatus := w.(SVN_CaptureStatus);
     SVN_DiffItem := w.(SVN_DiffItem);
     SVN_GetEmail := w.(SVN_GetEmail);
     GIT_GetEmail := w.(GIT_GetEmail);
     DoGetTrySlaves := w.(DoGetTrySlaves);
     print_help_text := w.(print_help_text) |}.

(** The commit message of a delivery of [demo_options]: the fields of the
    payload, in the order of the dictionary. *)
Definition demo_message : string :=
  Eval vm_compute in description_of (_ParseSendChangeOptions demo_options).

(** ** Vocabulary of the properties *)

(** The transport the settings make the default. *)
Definition settings_transport (w : World) : option Transport :=
  let http_port := w.(GetCodeReviewSetting) "TRYSERVER_HTTP_PORT" in
  let http_host := w.(GetCodeReviewSetting) "TRYSERVER_HTTP_HOST" in
  if truthy http_port && truthy http_host && truthy (w.(getaddrinfo) (default "" http_host))
  then Some SendChangeHTTP
  else if truthy (w.(GetCodeReviewSetting) "TRYSERVER_SVN_URL") then Some SendChangeSVN
  else None.

(** A directory name as [tempfile.mkdtemp] returns it, an absolute and
    normalised path: it is not empty and does not end with a separator. *)
Definition dir_name (d : string) : bool :=
  negb (String.eqb d "") && negb (ends_with_sep d).

(** A relative path: [os.path.join] keeps the directory in front of it. *)
Definition relative (p : string) : bool := negb (startswith p (String SEP "")).

(** The contract of [tempfile]: the name of the directory is one
    [mkdtemp] returns; the directory [mkdtemp] creates and the file
    [NamedTemporaryFile] creates are new; nothing exists at or below the
    directory, no working copy is registered there, and the file is not
    inside the directory. *)
Definition fresh_temp (w : World) (st : State) : Prop :=
  dir_name w.(mkdtemp_name) = true ∧
  (∀ p, under w.(mkdtemp_name) p = true →
        st.(fs) !! p = None ∧ st.(wcs) !! p = None) ∧
  st.(fs) !! w.(NamedTemporaryFile_name) = None ∧
  under w.(mkdtemp_name) w.(NamedTemporaryFile_name) = false.

(** The commands of a mediated delivery. *)
Definition checkout_command (options : Options) (temp_dir : string) : list string :=
  ["svn"; "checkout"; "--depth"; "empty"; "-q"; default "" options.(svn_repo); temp_dir]
  ++ (if truthy options.(email) then ["--username"; default "" options.(email)] else []).

(** The pre-write existence check of a mediated delivery finds the file. *)
Definition file_found (w : World) (st : State) (full_url : string) : bool :=
  match w.(svn_fault) ["svn"; "ls"; full_url], st.(repo) !! full_url with
  | None, Some _ => true
  | _, _ => false
  end.

(** A computation keeps an invariant of the state, however it ends. *)
Definition preserves {A : Type} (I : State → Prop) (m : Py A) : Prop :=
  ∀ st r st', m st = (r, st') → I st → I st'.

(** Outside the temporary directory [d] and the temporary file [t], the
    local file system and the working copies are those of the start. *)
Definition outside_kept (d t : string) (fs0 : gmap string FsNode)
    (wcs0 : gmap string string) (st : State) : Prop :=
  ∀ p, under d p = false →
       (p ≠ t → st.(fs) !! p = fs0 !! p) ∧ st.(wcs) !! p = wcs0 !! p.

(** What a mediated delivery of [diff_] under the job name [name_] does
    once the checkout is made: the events after the existence check. *)
Definition delivery_events (w : World) (options : Options) (st : State)
    (name_ diff_ : string) : list Event :=
  let d := w.(mkdtemp_name) in
  let t := w.(NamedTemporaryFile_name) in
  let file_name := submission_file_name options.(user) name_ w.(now) in
  let full_path := os_path_join d file_name in
  let full_url := default "" options.(svn_repo) +:+ "/" +:+ file_name in
  [EvCall (checkout_command options d); EvCall ["svn"; "ls"; full_url]]
  ++ (if file_found w st full_url
      then [EvCall ["svn"; "update"; full_path]; EvWrite full_path diff_]
      else [EvWrite full_path diff_; EvCall ["svn"; "add"; full_path]])
  ++ [EvWrite t (description_of (_ParseSendChangeOptions options));
      EvCall ["svn"; "commit"; full_path; "--file"; t]].

(** An event that is not an [svn add]. *)
Definition not_add (ev : Event) : Prop := ∀ p, ev ≠ EvCall ["svn"; "add"; p].

(** Since the trace was [tr0], events were added of which [P] holds. *)
Definition added (tr0 : list Event) (P : list Event → Prop) (st : State) : Prop :=
  ∃ new, st.(trace) = tr0 ++ new ∧ P new.

(** No [svn add] among the events. *)
Definition no_add (new : list Event) : Prop := ∀ p, EvCall ["svn"; "add"; p] ∉ new.

(** What has been printed, in order. *)
Definition printed (st : State) : list string :=
  omap (λ ev, match ev with EvPrint text => Some text | _ => None end) st.(trace).

(** A computation raises no exception but those of [P]. *)
Definition raises_only {A : Type} (P : exn → Prop) (m : Py A) : Prop :=
  ∀ st e st', m st = (Raise e, st') → P e.

(** The proxies [_SendChangeHTTP] hands to [urllib.urlopen]. *)
Definition http_proxies (options : Options) : option (gmap string string) :=
  match options.(proxy) with
  | None | Some EmptyString => None
  | Some p =>
      if String.eqb (lower p) "none" then Some ∅
      else Some (<["http" := p]> (<["https" := p]> ∅))
  end.

(** The URL [_SendChangeHTTP] posts to. *)
Definition send_try_patch_url (options : Options) : string :=
  "http://" +:+ default "" options.(host) +:+ ":" +:+
  default "" options.(port) +:+ "/send_try_patch".

(** The exceptions a mediated delivery can end in, besides
    [NoTryServerAccess]: an [IOError] from [open] or from [tempfile], an
    [AttributeError] for a job name that is [None], a [TypeError] for a
    diff that is [None], an [OSError] from [tempfile]. *)
Definition svn_delivery_error (options : Options) (e : exn) : Prop :=
  (∃ msg, e = NoTryServerAccess msg) ∨
  (∃ args, e = IOError args) ∨
  (e = AttributeError ∧ options.(name) = None) ∨
  (e = TypeError ∧ options.(diff) = None) ∨
  (∃ args, e = OSError args).

(** The options object and the current directory are those of [st0]. *)
Definition same_options (st0 st : State) : Prop :=
  st.(the_options) = st0.(the_options) ∧ st.(cwd) = st0.(cwd).

(** The two exceptions the [except] clause of [TryChange] catches. *)
Definition classified (e : exn) : Prop :=
  (∃ msg, e = InvalidScript msg) ∨ (∃ msg, e = NoTryServerAccess msg).

(** The paths [SVN._GenerateDiff] asks the diff of: the files given, or
    else the second component of every status entry. *)
Definition svn_diff_paths (w : World) (self : SCM) (o : Options) : Res (list string) :=
  if truthy o.(files) then Ok (default [] o.(files))
  else match w.(SVN_CaptureStatus) self.(checkout_root) with
       | Ok status => Ok (snd <$> status)
       | Raise e => Raise e
       end.

(** The [try] body of [TryChange] up to the delivery: the diff is read,
    the version-control system is asked, the bots, the job name and the
    email address are settled. *)
Definition TryChange_prepare (w : World) : Py unit :=
  (* Convert options.diff into the content of the diff. *)
  options ← get_options;
  _ ← (if truthy options.(url) then
         connection ← urlopen w (default "" options.(url)) None None;
         match connection with
         | Some connection =>
             body ← read connection; modify_options (set_diff (Some body))
         | None => raise AttributeError
         end
       else if truthy options.(diff) then
         content ← lift (w.(FileRead) (default "" options.(diff)));
         modify_options (set_diff (Some content))
       else mret tt);
  (* Process the VCS in any case at least to retrieve the email address. *)
  _ ← try_except
        (self ← GuessVCS w; modify_options (set_scm (Some self)))
        (λ e, match e with
              | NoTryServerAccess _ =>
                  Some (options ← get_options;
                        (* If we got the diff, we don't care. *)
                        if negb (truthy options.(diff)) then raise e else mret tt)
              | _ => None
              end);
  (* Get try slaves from PRESUBMIT.py files if not specified. *)
  options ← get_options;
  _ ← (if negb (truthy options.(bot)) then
         _ ← (if truthy options.(url)
              then parser_error "You need to specify which bots to use."
              else mret tt);
         let root_presubmit := w.(GetCachedFile) "PRESUBMIT.py" in
         match options.(scm) with
         | None => raise AttributeError
         | Some self =>
             file_names ← GetFileNames self;
             slaves ← lift (w.(DoGetTrySlaves) (default [] file_names)
                              (GetLocalRoot self) root_presubmit);
             modify_options (set_bot (Some slaves))
         end
       else mret tt);
  options ← get_options;
  _ ← (match options.(name) with
       | None =>
           if truthy options.(issue) then
             modify_options (set_name (Some ("Issue " +:+ py_str (to_py options.(issue)))))
           else
             _ ← modify_options (set_name (Some "Unnamed"));
             print "Note: use --name NAME to change the try job name."
       | Some _ => mret tt
       end);
  options ← get_options;
  if negb (truthy options.(email)) then
    print ("Warning: TRYBOT_RESULTS_EMAIL_ADDRESS is not set. Try server results might"
           +:+ String LF ("go to: " +:+ options.(user) +:+ "@google.com." +:+ String LF ""))
  else print ("Results will be emailed to: " +:+ default "" options.(email)).

(** The end of the [try] body of [TryChange]: the delivery and its report. *)
Definition TryChange_send (w : World) : Py unit :=
  (* Send the patch. *)
  options ← get_options;
  _ ← call_send_patch w options;
  print ("Patch '" +:+ py_str (to_py options.(name)) +:+ "' sent to try server: "
         +:+ join ", " (default [] options.(bot))).

(** The options carry a diff. *)
Definition has_diff (o : Options) : Prop := o.(diff) ≠ None.

(** The exceptions a direct delivery can end in: [NoTryServerAccess], or
    what [urllib.urlopen] raised that is no [IOError], or what [read]
    raised. *)
Definition http_delivery_error (w : World) (e : exn) : Prop :=
  (∃ msg, e = NoTryServerAccess msg) ∨
  ∃ url data proxies,
    (w.(urlopen_result) url data proxies = UrlRaises e ∧ ∀ args, e ≠ IOError args) ∨
    w.(urlopen_result) url data proxies = UrlReadRaises e.

(** The exceptions a mediated delivery started by [TryChange] can end
    in. *)
Definition delivery_error (e : exn) : Prop :=
  (∃ msg, e = NoTryServerAccess msg) ∨ (∃ args, e = IOError args) ∨
  (∃ args, e = OSError args).

(** ** Strings *)

Lemma append_cons (c : ascii) (a b : string) : String c a +:+ b = String c (a +:+ b).
Proof. reflexivity. Qed.

Lemma append_nil_l (b : string) : "" +:+ b = b.
Proof. reflexivity. Qed.

Lemma append_assoc (a b c : string) : (a +:+ b) +:+ c = a +:+ (b +:+ c).
Proof. induction a as [|x a IH]; [done|]. by rewrite !append_cons, IH. Qed.

Lemma append_nil_r (a : string) : a +:+ "" = a.
Proof. induction a as [|x a IH]; [done|]. by rewrite append_cons, IH. Qed.

Lemma rev_app_spec (s1 s2 : string) :
  String.rev_app s1 s2 = String.rev s1 +:+ s2.
Proof.
  revert s2. induction s1 as [|a s1 IH]; intros s2; [done|].
  unfold String.rev. simpl. rewrite (IH (String a s2)), (IH (String a "")).
  by rewrite append_assoc.
Qed.

Lemma rev_cons (a : ascii) (s : string) :
  String.rev (String a s) = String.rev s +:+ String a "".
Proof. unfold String.rev at 1. simpl. apply rev_app_spec. Qed.

Lemma join_empty (l : list string) : join "" l = foldr String.append "" l.
Proof.
  unfold join. induction l as [|x l IH]; [done|].
  destruct l as [|y l].
  - simpl. by rewrite append_nil_r.
  - change (String.concat "" (x :: y :: l))
      with (x +:+ "" +:+ String.concat "" (y :: l)).
    by rewrite append_nil_l, IH.
Qed.

Lemma splitlines_go_join (s cur : string) :
  foldr String.append "" (splitlines_go cur s) = String.rev cur +:+ s.
Proof.
  revert cur. induction s as [|c s IH]; intros cur.
  - simpl. destruct cur; [done|]. simpl. by rewrite !append_nil_r.
  - assert (Hlf : ∀ cur', foldr String.append ""
                (String.rev (String c cur') :: splitlines_go "" s)
              = String.rev cur' +:+ String c s).
    { intros cur'. simpl. rewrite (IH ""), rev_cons, append_assoc. done. }
    cbn [splitlines_go]. destruct (Ascii.eqb c LF) eqn:Hc; [apply Hlf|].
    destruct (Ascii.eqb c CR) eqn:Hcr.
    + destruct s as [|c' s']; [apply Hlf|].
      destruct (Ascii.eqb c' LF) eqn:Hc'; [|apply Hlf].
      pose proof (IH "") as IH0. cbn [splitlines_go] in IH0. rewrite Hc' in IH0.
      simpl in IH0. rewrite rev_cons in IH0.
      change (String.rev "") with "" in IH0. rewrite !append_nil_l in IH0.
      rewrite append_cons, append_nil_l in IH0. injection IH0 as IH0.
      simpl. rewrite IH0, !rev_cons, !append_assoc. done.
    + rewrite IH, rev_cons, append_assoc. done.
Qed.

(** Splitting a text into lines that keep their line ends and joining
    the lines gives the text back: [''.join(s.splitlines(True)) == s]. *)
Lemma splitlines_join (s : string) : join "" (splitlines s) = s.
Proof.
  unfold splitlines. rewrite join_empty, splitlines_go_join. done.
Qed.

(** ** Lookups in the assembled payload *)

Lemma lookup_setitem_if_eq c k v (values : gmap string PyVal) :
  setitem_if c k v values !! k = if c then Some v else values !! k.
Proof. destruct c; simpl; [apply lookup_insert_eq | done]. Qed.

Lemma lookup_setitem_if_ne c k k' v (values : gmap string PyVal) :
  k ≠ k' → setitem_if c k v values !! k' = values !! k'.
Proof. intros. destruct c; simpl; [by apply lookup_insert_ne | done]. Qed.

Ltac payload_lookup :=
  unfold _ParseSendChangeOptions; cbv zeta;
  repeat first
    [ rewrite lookup_setitem_if_eq
    | rewrite lookup_insert_eq
    | rewrite lookup_setitem_if_ne by discriminate
    | rewrite lookup_insert_ne by discriminate
    | rewrite lookup_empty ];
  try reflexivity.

Section payload.
Variable options : Options.
Local Abbreviation values := (_ParseSendChangeOptions options).

Lemma payload_user : values !! "user" = Some (PyStr options.(user)).
Proof. payload_lookup. Qed.
Lemma payload_name : values !! "name" = Some (to_py options.(name)).
Proof. payload_lookup. Qed.
Lemma payload_email :
  values !! "email" = if truthy options.(email) then Some (to_py options.(email)) else None.
Proof. payload_lookup. Qed.
Lemma payload_bot :
  values !! "bot" = if truthy options.(bot)
    then Some (PyStr (join "," (default [] options.(bot)))) else None.
Proof. payload_lookup. Qed.
Lemma payload_revision :
  values !! "revision" = if truthy options.(revision) then Some (to_py options.(revision)) else None.
Proof. payload_lookup. Qed.
Lemma payload_clobber :
  values !! "clobber" = if truthy options.(clobber) then Some (PyStr "true") else None.
Proof. payload_lookup. Qed.
Lemma payload_tests :
  values !! "tests" = if truthy options.(tests)
    then Some (PyStr (join "," (default [] options.(tests)))) else None.
Proof. payload_lookup. Qed.
Lemma payload_root :
  values !! "root" = if truthy options.(root) then Some (to_py options.(root)) else None.
Proof. payload_lookup. Qed.
Lemma payload_patchlevel :
  values !! "patchlevel" = if truthy options.(patchlevel) then Some (PyInt options.(patchlevel)) else None.
Proof. payload_lookup. Qed.
Lemma payload_issue :
  values !! "issue" = if truthy options.(issue) then Some (to_py options.(issue)) else None.
Proof. payload_lookup. Qed.
Lemma payload_patchset :
  values !! "patchset" = if truthy options.(patchset) then Some (to_py options.(patchset)) else None.
Proof. payload_lookup. Qed.
Lemma payload_target :
  values !! "target" = if truthy options.(target) then Some (to_py options.(target)) else None.
Proof. payload_lookup. Qed.
Lemma payload_project :
  values !! "project" = if truthy options.(project) then Some (to_py options.(project)) else None.
Proof. payload_lookup. Qed.
End payload.

(** C1. The payload always binds "user" and "name"; it binds each optional
    key exactly when the corresponding option is truthy (a non-empty
    string or list, a non-zero integer, a set flag), so an option that is
    absent is not bound at all, and the optional string fields are never
    bound to the empty string. *)
Theorem C1_payload_keys (options : Options) :
  let values := _ParseSendChangeOptions options in
  values !! "user" = Some (PyStr options.(user)) ∧
  values !! "name" = Some (to_py options.(name)) ∧
  (is_Some (values !! "email") ↔ truthy options.(email) = true) ∧
  (is_Some (values !! "bot") ↔ truthy options.(bot) = true) ∧
  (is_Some (values !! "revision") ↔ truthy options.(revision) = true) ∧
  (is_Some (values !! "clobber") ↔ truthy options.(clobber) = true) ∧
  (is_Some (values !! "tests") ↔ truthy options.(tests) = true) ∧
  (is_Some (values !! "root") ↔ truthy options.(root) = true) ∧
  (is_Some (values !! "patchlevel") ↔ truthy options.(patchlevel) = true) ∧
  (is_Some (values !! "issue") ↔ truthy options.(issue) = true) ∧
  (is_Some (values !! "patchset") ↔ truthy options.(patchset) = true) ∧
  (is_Some (values !! "target") ↔ truthy options.(target) = true) ∧
  (is_Some (values !! "project") ↔ truthy options.(project) = true) ∧
  (∀ k, k ∈ ["email"; "revision"; "clobber"; "root"; "patchlevel"; "issue";
             "patchset"; "target"; "project"] →
        values !! k ≠ Some (PyStr "")) ∧
  (∀ k, is_Some (values !! k) →
        k ∈ ["email"; "user"; "name"; "bot"; "revision"; "clobber"; "tests";
             "root"; "patchlevel"; "issue"; "patchset"; "target"; "project"]).
Proof.
  assert (Hiff : ∀ (c : bool) (v : PyVal),
             is_Some (if c then Some v else None) ↔ c = true).
  { intros [] v; split; intros H; try done; by inversion H. }
  cbv zeta.
  rewrite payload_user, payload_name, payload_email, payload_bot,
    payload_revision, payload_clobber, payload_tests, payload_root,
    payload_patchlevel, payload_issue, payload_patchset, payload_target,
    payload_project.
  repeat split; try apply Hiff; try (apply Hiff; done).
  - intros k Hk.
    repeat (apply elem_of_cons in Hk as [-> | Hk]);
      [ rewrite payload_email; destruct (email options) as [[|]|]
      | rewrite payload_revision; destruct (revision options) as [[|]|]
      | rewrite payload_clobber; destruct (clobber options) as [[|]|]
      | rewrite payload_root; destruct (root options) as [[|]|]
      | rewrite payload_patchlevel; destruct (truthy (patchlevel options))
      | rewrite payload_issue; destruct (issue options) as [[| |]|]
      | rewrite payload_patchset; destruct (patchset options) as [[| |]|]
      | rewrite payload_target; destruct (target options) as [[|]|]
      | rewrite payload_project; destruct (project options) as [[|]|]
      | by apply elem_of_nil in Hk ]; cbv; congruence.
  - clear Hiff. intros k [v Hv].
    unfold _ParseSendChangeOptions in Hv; cbv zeta in Hv.
    repeat match type of Hv with
    | setitem_if ?c ?k' _ _ !! _ = _ =>
        destruct (decide (k' = k)) as [<- | ?];
          [ by repeat constructor | rewrite lookup_setitem_if_ne in Hv by done ]
    | <[?k' := _]> _ !! _ = _ =>
        destruct (decide (k' = k)) as [<- | ?];
          [ by repeat constructor | rewrite lookup_insert_ne in Hv by done ]
    end.
    by rewrite lookup_empty in Hv.
Qed.

Lemma C1_payload_keys_witness :
  _ParseSendChangeOptions demo_options !! "bot" = Some (PyStr "win") ∧
  _ParseSendChangeOptions demo_options !! "revision" = None.
Proof.
  destruct (C1_payload_keys demo_options)
    as (_ & _ & _ & Hbot & Hrev & _).
  split.
  - destruct Hbot as [_ Hbot]. destruct (Hbot eq_refl) as [v Hv].
    rewrite Hv. rewrite payload_bot in Hv. by injection Hv as <-.
  - destruct (_ParseSendChangeOptions demo_options !! "revision") as [v|] eqn:E;
      [|done].
    destruct Hrev as [Hrev _]. by specialize (Hrev (mk_is_Some _ _ eq_refl)).
Defined.

(** ** The loop of GIT._GenerateDiff *)

Lemma GIT_GenerateDiff_body_middle (done rest : list string) line :
  GIT_GenerateDiff_body (length done) (done ++ line :: rest)
  = if startswith line DEV_NULL then
      match rest with
      | [] => Raise IndexError
      | next :: _ => Ok (done ++ ("--- " +:+ slice_from 4 next) :: rest)
      end
    else Ok (done ++ line :: rest).
Proof.
  unfold GIT_GenerateDiff_body.
  rewrite list_lookup_middle by done.
  destruct (startswith line DEV_NULL); [|done].
  rewrite lookup_app_r by lia.
  replace (length done + 1 - length done)%nat with 1%nat by lia.
  destruct rest as [|next rest']; [done|]. simpl.
  rewrite insert_app_r_alt, Nat.sub_diag by done. done.
Qed.

Lemma for_in_loop_app (done todo : list string) :
  for_in (seq (length done) (length todo)) GIT_GenerateDiff_body (done ++ todo)
  = app done <$> rewrite_lines todo.
Proof.
  revert done. induction todo as [|line rest IH]; intros done.
  - simpl. by rewrite app_nil_r.
  - cbn [length seq for_in rewrite_lines].
    rewrite GIT_GenerateDiff_body_middle.
    assert (Hnext : ∀ l : string,
      for_in (seq (S (length done)) (length rest)) GIT_GenerateDiff_body
        (done ++ l :: rest) = app done <$> (cons l <$> rewrite_lines rest)).
    { intros l. specialize (IH (done ++ [l])).
      rewrite length_app, Nat.add_1_r, <- app_assoc in IH. cbn [app] in IH.
      rewrite IH. destruct (rewrite_lines rest); simpl; [|done].
      by rewrite <- app_assoc. }
    destruct (startswith line DEV_NULL).
    + destruct rest as [|next rest']; [done|]. simpl. apply Hnext.
    + simpl. apply Hnext.
Qed.

(** The in-place loop of the source computes [rewrite_lines]. *)
Lemma GIT_GenerateDiff_loop_rewrite_lines diff :
  GIT_GenerateDiff_loop diff = rewrite_lines diff.
Proof.
  unfold GIT_GenerateDiff_loop.
  pose proof (for_in_loop_app [] diff) as H. simpl in H.
  rewrite H. by destruct (rewrite_lines diff).
Qed.

Lemma rewrite_lines_ok diff :
  dev_null_followed diff →
  ∃ out, rewrite_lines diff = Ok out ∧ length out = length diff ∧
    ∀ i line, diff !! i = Some line →
      out !! i = Some (rewritten line (diff !! (i + 1)%nat)).
Proof.
  induction diff as [|line rest IH]; intros Hf.
  - exists []. by split_and!.
  - destruct IH as (out & Hout & Hlen & Hnth).
    { intros i l Hi Hl. specialize (Hf (S i) l Hi Hl). simpl in Hf. lia. }
    cbn [rewrite_lines]. rewrite Hout.
    exists (rewritten line (rest !! 0%nat) :: out). split_and!.
    + unfold rewritten. destruct (startswith line DEV_NULL) eqn:Hl; [|done].
      destruct rest as [|next rest']; [|done].
      specialize (Hf 0%nat line eq_refl Hl). simpl in Hf. lia.
    + simpl. by rewrite Hlen.
    + intros [|i] l Hi; simpl in *; [by simplify_eq | by apply Hnth].
Qed.

Lemma rewrite_lines_inv diff out :
  rewrite_lines diff = Ok out → dev_null_followed diff.
Proof.
  revert out. induction diff as [|line rest IH]; intros out Hout.
  - by intros i l Hi.
  - cbn [rewrite_lines] in Hout.
    assert (∃ out', rewrite_lines rest = Ok out') as [out' Hrest].
    { destruct (startswith line DEV_NULL); [destruct rest; [done|]|];
        destruct (rewrite_lines _); by eauto. }
    intros [|i] l Hi Hl; simpl in *.
    + simplify_eq. rewrite Hl in Hout. destruct rest; [done | simpl; lia].
    + specialize (IH _ Hrest i l Hi Hl). lia.
Qed.

Lemma rewrite_lines_exn diff e :
  rewrite_lines diff = Raise e → e = IndexError.
Proof.
  induction diff as [|line rest IH]; intros He; [done|].
  cbn [rewrite_lines] in He.
  destruct (startswith line DEV_NULL); [destruct rest; [by simplify_eq|]|];
    destruct (rewrite_lines _); simplify_eq/=; by apply IH.
Qed.

(** The whole of [GIT._GenerateDiff]: the output of [git diff-tree], split
    into lines, goes through the loop and is joined again. *)
Lemma GIT__GenerateDiff_run (w : World) (st : State) (branch out : string) :
  w.(run) ["git"; "cl"; "upstream"] = Done branch →
  w.(run) ["git"; "diff-tree"; "-p"; "--no-prefix"; strip branch; "HEAD"] = Done out →
  GIT__GenerateDiff w st
  = (join "" <$> GIT_GenerateDiff_loop (splitlines out),
     set_trace (st.(trace) ++
                [EvCall ["git"; "cl"; "upstream"];
                 EvCall ["git"; "diff-tree"; "-p"; "--no-prefix"; strip branch; "HEAD"]])
       st).
Proof.
  intros Hbranch Hout. unfold GIT__GenerateDiff, CheckCall.
  unfold mbind, Py_bind, fmap, Py_fmap, emit, modify, get_state, mret, Py_ret, lift.
  cbn [String.eqb Ascii.eqb Bool.eqb]. rewrite Hbranch.
  cbn [String.eqb Ascii.eqb Bool.eqb]. rewrite Hout.
  destruct (GIT_GenerateDiff_loop (splitlines out)); cbn; by rewrite <- app_assoc.
Qed.

(** C8. [GIT._GenerateDiff] splits the output of [git diff-tree] into
    its lines, rewrites them, and returns them joined again. Whenever
    every null-device header of that output has a following line, the
    diff returned has a line for each line of the output: a line that
    starts with [--- /dev/null] and is followed by [+++ path] has become
    [--- path], the path taken verbatim (in general it has become ["--- "]
    followed by the next line from its fifth character on), wherever the
    hunk stands in the diff; every other line is unchanged. *)
Theorem C8_added_file_header (w : World) (st : State) (branch out : string) :
  w.(run) ["git"; "cl"; "upstream"] = Done branch →
  w.(run) ["git"; "diff-tree"; "-p"; "--no-prefix"; strip branch; "HEAD"] = Done out →
  let diff := splitlines out in
  dev_null_followed diff →
  ∃ result st',
    GIT__GenerateDiff w st = (Ok (join "" result), st') ∧
    join "" diff = out ∧
    length result = length diff ∧
    ∀ i line, diff !! i = Some line →
      (startswith line DEV_NULL = true →
         (∀ next, diff !! (i + 1)%nat = Some next →
                  result !! i = Some ("--- " +:+ slice_from 4 next)) ∧
         (∀ path, diff !! (i + 1)%nat = Some ("+++ " +:+ path) →
                  result !! i = Some ("--- " +:+ path))) ∧
      (startswith line DEV_NULL = false → result !! i = Some line).
Proof.
  intros Hbranch Hout diff Hf.
  rewrite (GIT__GenerateDiff_run w st branch out Hbranch Hout).
  fold diff. rewrite GIT_GenerateDiff_loop_rewrite_lines.
  destruct (rewrite_lines_ok diff Hf) as (result & Hres & Hlen & Hnth).
  rewrite Hres. exists result. eexists. split_and!; [reflexivity | | done |].
  { apply splitlines_join. }
  intros i line Hi. specialize (Hnth i line Hi). unfold rewritten in Hnth.
  split; intros Hl; rewrite Hl in Hnth; [|done].
  split; [intros next Hn | intros path Hn]; by rewrite Hnth, Hn.
Qed.

Lemma C8_added_file_header_witness :
  ∃ result st',
    GIT__GenerateDiff
      (demo_world no_settings (λ _, None) demo_now (UrlOpened None) git_adds_file)
      (start_state "/src" ∅ ∅)
    = (Ok (join "" result), st') ∧
    result !! 1%nat = Some ("--- dir/new.cc" +:+ String LF "").
Proof.
  destruct (C8_added_file_header
              (demo_world no_settings (λ _, None) demo_now (UrlOpened None) git_adds_file)
              (start_state "/src" ∅ ∅)
              ("origin/master" +:+ String LF "") added_file_diff eq_refl eq_refl)
    as (result & st' & Hrun & _ & _ & Hnth).
  - intros [|[|[|[|[|i]]]]] line Hi Hl; vm_compute in Hi; simplify_eq;
      vm_compute; try lia; vm_compute in Hl; discriminate.
  - exists result, st'. split; [done|].
    destruct (Hnth 1%nat ("--- /dev/null" +:+ String LF "") eq_refl) as [Hdev _].
    destruct (Hdev eq_refl) as [_ Hpath].
    apply (Hpath ("dir/new.cc" +:+ String LF "")). reflexivity.
Defined.

(** C10. The loop of [GIT._GenerateDiff] returns a diff exactly when every
    line that starts with [--- /dev/null] has a following line; when such
    a line is the last one, the unguarded read of [diff[i+1]] raises
    [IndexError], and no other exception can come out of the loop. *)
Theorem C10_rewrite_total_iff_followed (diff : list string) :
  (dev_null_followed diff ↔ ∃ out, GIT_GenerateDiff_loop diff = Ok out) ∧
  (¬ dev_null_followed diff ↔ GIT_GenerateDiff_loop diff = Raise IndexError) ∧
  (∀ line, last diff = Some line → startswith line DEV_NULL = true →
           GIT_GenerateDiff_loop diff = Raise IndexError).
Proof.
  rewrite GIT_GenerateDiff_loop_rewrite_lines.
  assert (Hiff : dev_null_followed diff ↔ ∃ out, rewrite_lines diff = Ok out).
  { split.
    - intros Hf. destruct (rewrite_lines_ok diff Hf) as (out & Hout & _). eauto.
    - intros [out Hout]. by eapply rewrite_lines_inv. }
  assert (Hneg : ¬ dev_null_followed diff ↔ rewrite_lines diff = Raise IndexError).
  { rewrite Hiff. split.
    - intros Hno. destruct (rewrite_lines diff) as [out|e] eqn:E.
      + exfalso. eauto.
      + by rewrite (rewrite_lines_exn _ _ E).
    - intros -> [out ?]. done. }
  split_and!; [done..|].
  intros line Hlast Hl. apply Hneg. intros Hf.
  rewrite last_lookup in Hlast. specialize (Hf _ _ Hlast Hl).
  destruct diff; simpl in *; lia.
Qed.

Lemma C10_rewrite_total_iff_followed_witness :
  GIT_GenerateDiff_loop ["+++ a.cc" +:+ String LF ""; "--- /dev/null" +:+ String LF ""]
  = Raise IndexError.
Proof.
  destruct (C10_rewrite_total_iff_followed
              ["+++ a.cc" +:+ String LF ""; "--- /dev/null" +:+ String LF ""])
    as (_ & _ & Hlast).
  apply (Hlast ("--- /dev/null" +:+ String LF "")); reflexivity.
Defined.
(** ** Direct delivery *)

(** [_SendChangeHTTP] with a host and a port: the one request and what
    each of its outcomes leads to. *)
Lemma http_request (w : World) (options : Options) (st : State) :
  truthy options.(host) = true →
  truthy options.(port) = true →
  _SendChangeHTTP w options st
  = let url := send_try_patch_url options in
    let values := <["patch" := to_py options.(diff)]> (_ParseSendChangeOptions options) in
    let st1 := set_trace (st.(trace) ++
                 [EvUrlopen url (Some (w.(urlencode) values)) (http_proxies options)]) st in
    let io_error (args : list PyVal) : Res unit * State :=
      (Raise (NoTryServerAccess
         (if truthy (values !! "bot") && (2 <? length args)%nat &&
             bool_decide (args !! 2%nat = Some (PyStr "got a bad status line"))
          then url +:+ " is unaccessible. Bad --bot argument?"
          else url +:+ " is unaccessible. Reason: " +:+ str_tuple args)), st1) in
    match w.(urlopen_result) url (Some (w.(urlencode) values)) (http_proxies options) with
    | UrlIOError args => io_error args
    | UrlRaises e =>
        match e with
        | IOError args => io_error args
        | _ => (Raise e, st1)
        end
    | UrlOpened None => (Raise (NoTryServerAccess (url +:+ " is unaccessible.")), st1)
    | UrlOpened (Some body) =>
        if String.eqb body "OK" then (Ok tt, st1)
        else (Raise (NoTryServerAccess (url +:+ " is unaccessible.")), st1)
    | UrlReadRaises e => (Raise e, st1)
    end.
Proof.
  intros Hhost Hport. unfold _SendChangeHTTP. rewrite Hhost, Hport.
  cbn [negb]. cbv zeta.
  assert (py_str (to_py (host options)) = default "" (host options)) as ->
    by (by destruct (host options)).
  assert (py_str (to_py (port options)) = default "" (port options)) as ->
    by (by destruct (port options)).
  fold (send_try_patch_url options).
  assert ((if truthy (proxy options)
           then if String.eqb (lower (default "" (proxy options))) "none"
                then Some ∅
                else Some (<["http" := default "" (proxy options)]>
                             (<["https" := default "" (proxy options)]> ∅))
           else None) = http_proxies options) as ->.
  { unfold http_proxies. by destruct (proxy options) as [[|c p]|]. }
  unfold urlopen, read, try_except, mbind, Py_bind, emit, modify, mret, Py_ret,
    raise, lift.
  destruct (urlopen_result w _ _ _) as [args | e | [body|] | e]; cbn; [| | |done|done].
  - by destruct (_ && _).
  - destruct e; try done. by destruct (_ && _).
  - by destruct (String.eqb body "OK").
Qed.

Ltac http_case :=
  repeat split; intros;
  repeat match goal with H : _ ∨ _ |- _ => destruct H end;
  simplify_eq; eauto; try done;
  try (exfalso; match goal with H : ∀ a, IOError _ ≠ IOError a |- _ =>
                  by eapply H end).

(** C2, as the code has it. With host and port set, [_SendChangeHTTP]
    does one thing to the world, a single [urlopen] of
    [http://host:port/send_try_patch] with the encoded payload as POST
    data, whatever the outcome. It returns exactly when the connection is
    opened and the body read is the two characters [OK]. An [IOError] of
    [urlopen], a connection object that is false and any other body raise
    [NoTryServerAccess]. Any other exception of [urlopen] and any
    exception of [read()], which is called outside the [try] statement,
    reach the caller as they are. *)
Theorem C2_http_delivery (w : World) (options : Options) (st : State) :
  truthy options.(host) = true →
  truthy options.(port) = true →
  let url := "http://" +:+ default "" options.(host) +:+ ":" +:+
             default "" options.(port) +:+ "/send_try_patch" in
  let data := w.(urlencode) (<["patch" := to_py options.(diff)]>
                               (_ParseSendChangeOptions options)) in
  ∃ proxies,
    let outcome := w.(urlopen_result) url (Some data) proxies in
    let r := (_SendChangeHTTP w options st).1 in
    (_SendChangeHTTP w options st).2
      = set_trace (st.(trace) ++ [EvUrlopen url (Some data) proxies]) st ∧
    (r = Ok tt ↔ outcome = UrlOpened (Some "OK")) ∧
    (∀ args, outcome = UrlIOError args ∨ outcome = UrlRaises (IOError args) →
             ∃ msg, r = Raise (NoTryServerAccess msg)) ∧
    (outcome = UrlOpened None → ∃ msg, r = Raise (NoTryServerAccess msg)) ∧
    (∀ body, outcome = UrlOpened (Some body) → body ≠ "OK" →
             ∃ msg, r = Raise (NoTryServerAccess msg)) ∧
    (∀ e, outcome = UrlRaises e → (∀ args, e ≠ IOError args) → r = Raise e) ∧
    (∀ e, outcome = UrlReadRaises e → r = Raise e).
Proof.
  intros Hhost Hport url data. exists (http_proxies options). cbv zeta.
  rewrite (http_request w options st Hhost Hport). cbv zeta.
  change (send_try_patch_url options) with url. fold data.
  destruct (urlopen_result w url (Some data) (http_proxies options))
    as [args | e | [body|] | e] eqn:E; cbn.
  - http_case.
  - destruct e; cbn; http_case.
  - destruct (String.eqb body "OK") eqn:Hb; cbn.
    + apply String.eqb_eq in Hb as ->. http_case.
    + apply String.eqb_neq in Hb. http_case.
  - http_case.
  - http_case.
Qed.

Lemma C2_http_delivery_witness :
  (_SendChangeHTTP
     (demo_world no_settings (λ _, None) demo_now (UrlOpened (Some "OK")) no_git)
     demo_options (start_state "/src" ∅ ∅)).1 = Ok tt.
Proof.
  destruct (C2_http_delivery
              (demo_world no_settings (λ _, None) demo_now (UrlOpened (Some "OK")) no_git)
              demo_options (start_state "/src" ∅ ∅))
    as (proxies & _ & Hiff & _); [reflexivity | reflexivity |].
  apply Hiff. reflexivity.
Defined.

(** C2 as stated does not hold: with the host set and the port set to
    [abc], [urlopen] raises [httplib.InvalidURL], which is no [IOError];
    the [except] clause does not catch it and the delivery ends in that
    exception, not in [NoTryServerAccess]. *)
Lemma C2_counterexample :
  let w := demo_world no_settings (λ _, None) demo_now
             (UrlRaises (InvalidURL "nonnumeric port: 'abc'")) no_git in
  let options := set_port (Some "abc") demo_options in
  let st := start_state "/src" ∅ ∅ in
  truthy options.(host) = true ∧
  truthy options.(port) = true ∧
  _SendChangeHTTP w options st
  = (Raise (InvalidURL "nonnumeric port: 'abc'"),
     set_trace [EvUrlopen "http://tryserver:abc/send_try_patch"
                  (Some (w.(urlencode) (<["patch" := PyStr "Index: a.cc"]>
                                          (_ParseSendChangeOptions options))))
                  None] st) ∧
  (_SendChangeHTTP w options st).1 ≠ Ok tt ∧
  ∀ msg, (_SendChangeHTTP w options st).1 ≠ Raise (NoTryServerAccess msg).
Proof.
  cbv zeta. split_and!; [reflexivity | reflexivity | vm_compute; reflexivity | | ].
  - vm_compute. discriminate.
  - intros msg. vm_compute. discriminate.
Qed.

(** ** Detection of the version-control system *)

Ltac py_unfold :=
  unfold mbind, Py_bind, fmap, Py_fmap, mret, Py_ret, raise, lift, get_state,
    get_options, modify_options, emit, print, modify, try_except, try_finally in *.

Lemma SVN_kind (w : World) (st st' : State) (self : SCM) :
  SVN w st = (Ok self, st') → self.(scm_kind) = KindSVN.
Proof.
  unfold SVN. py_unfold. intros H.
  repeat case_match; simplify_eq; done.
Qed.

Lemma GIT_kind (w : World) (st st' : State) (self : SCM) :
  GIT w st = (Ok self, st') → self.(scm_kind) = KindGIT.
Proof.
  unfold GIT. py_unfold. intros H.
  repeat case_match; simplify_eq; done.
Qed.

Lemma CheckCall_run (w : World) (command : list string) (st : State) :
  (∀ prog args, command = prog :: args → String.eqb prog "svn" = false) →
  command ≠ [] →
  CheckCall w command st
  = match w.(run) command with
    | Done out => (Ok out, set_trace (st.(trace) ++ [EvCall command]) st)
    | Failed retcode out =>
        (Raise (CheckCallError command retcode out),
         set_trace (st.(trace) ++ [EvCall command]) st)
    end.
Proof.
  intros Hprog Hne. unfold CheckCall. py_unfold.
  destruct command as [|prog args]; [done|].
  rewrite (Hprog prog args eq_refl). by destruct (run w (prog :: args)).
Qed.

(** C4. [GuessVCS] returns what [SVN(options)] returns, a Subversion
    instance, whenever [.svn] is a directory, whatever the git probe would
    say; otherwise it runs the git probe: a probe that fails with code 2
    (git is not installed) ends in [NoTryServerAccess], a probe that fails
    with any other code propagates its [CheckCallError], and a probe that
    succeeds hands over to [GIT(options)], so that an instance returned
    then is a git one. *)
Theorem C4_GuessVCS (w : World) (st : State) :
  let probed := set_trace (st.(trace) ++ [EvCall GIT_PROBE]) st in
  (isdir st ".svn" = true →
     GuessVCS w st = SVN w st ∧
     ∀ self st', GuessVCS w st = (Ok self, st') → self.(scm_kind) = KindSVN) ∧
  (isdir st ".svn" = false →
     ∀ retcode out, w.(run) GIT_PROBE = Failed retcode out →
       GuessVCS w st
       = if retcode =? 2
         then (Raise (NoTryServerAccess
                 "Could not guess version control system. Are you in a working copy directory?"),
               probed)
         else (Raise (CheckCallError GIT_PROBE retcode out), probed)) ∧
  (isdir st ".svn" = false →
     ∀ out, w.(run) GIT_PROBE = Done out →
       (∀ self st', GIT w probed = (Ok self, st') → GuessVCS w st = (Ok self, st')) ∧
       (∀ self st', GuessVCS w st = (Ok self, st') → self.(scm_kind) = KindGIT)).
Proof.
  cbv zeta. split_and!.
  - intros Hsvn. assert (GuessVCS w st = SVN w st) as Heq.
    { unfold GuessVCS. unfold mbind at 1, Py_bind at 1, get_state. by rewrite Hsvn. }
    split; [done|]. rewrite Heq. intros self st'. apply SVN_kind.
  - intros Hsvn retcode out Hrun.
    unfold GuessVCS. unfold mbind at 1, Py_bind at 1, get_state. rewrite Hsvn.
    unfold try_except, mbind, Py_bind.
    rewrite CheckCall_run by (unfold GIT_PROBE; intros; simplify_eq; done).
    rewrite Hrun. cbn. by destruct (retcode =? 2).
  - intros Hsvn out Hrun.
    assert (∀ self st', GuessVCS w st = (Ok self, st') →
              GIT w (set_trace (trace st ++ [EvCall GIT_PROBE]) st) = (Ok self, st'))
      as Hinv.
    { intros self st'. unfold GuessVCS.
      unfold mbind at 1, Py_bind at 1, get_state. rewrite Hsvn.
      unfold try_except, mbind, Py_bind.
      rewrite CheckCall_run by (unfold GIT_PROBE; intros; simplify_eq; done).
      rewrite Hrun. unfold fmap, Py_fmap.
      destruct (GIT w _) as [[self'|e] st2]; cbn; [by intros; simplify_eq|].
      destruct e; cbn; try done. by destruct (negb _). }
    split.
    + intros self st' HGIT. unfold GuessVCS.
      unfold mbind at 1, Py_bind at 1, get_state. rewrite Hsvn.
      unfold try_except, mbind, Py_bind.
      rewrite CheckCall_run by (unfold GIT_PROBE; intros; simplify_eq; done).
      rewrite Hrun. unfold fmap, Py_fmap. by rewrite HGIT.
    + intros self st' HG. eapply GIT_kind, Hinv, HG.
Qed.

Lemma C4_GuessVCS_witness :
  ∃ self st',
    GuessVCS (demo_world no_settings (λ _, None) demo_now (UrlOpened None)
                (λ _, Done "true"))
             (start_state "/src" svn_checkout ∅) = (Ok self, st') ∧
    self.(scm_kind) = KindSVN.
Proof.
  destruct (C4_GuessVCS
              (demo_world no_settings (λ _, None) demo_now (UrlOpened None)
                 (λ _, Done "true"))
              (start_state "/src" svn_checkout ∅)) as [Hsvn _].
  destruct (Hsvn eq_refl) as [Heq Hkind].
  eexists _, _. split.
  - vm_compute. reflexivity.
  - eapply Hkind. vm_compute. reflexivity.
Defined.

(** ** The choice of the transport *)

Lemma GetTryServerSettings_ok (w : World) (settings : Settings) :
  GetTryServerSettings w = Ok settings →
  settings.(s_http_port) = w.(GetCodeReviewSetting) "TRYSERVER_HTTP_PORT" ∧
  settings.(s_http_host) = w.(GetCodeReviewSetting) "TRYSERVER_HTTP_HOST" ∧
  settings.(s_svn_repo) = w.(GetCodeReviewSetting) "TRYSERVER_SVN_URL" ∧
  transport_functions settings.(default_transport) = settings_transport w.
Proof.
  unfold GetTryServerSettings, settings_transport, _SafeResolve. cbv zeta.
  destruct (if truthy (GetCodeReviewSetting w "TRYSERVER_PATCHLEVEL") then _ else _)
    as [patchlevel|e]; [|done].
  cbn. intros [= <-]. cbn. split_and!; [done..|].
  destruct (_ && _); [done|]. by destruct (truthy _).
Qed.

(** C3, as the code has it. When the command line forces no transport
    and the settings can be read: the transport is HTTP if the settings
    give a port and a host and the host resolves; otherwise it is SVN if
    the settings give a repository URL; otherwise, the settings giving no
    default, it is HTTP if the port and host options are both set (from
    the command line or the settings, and with no name resolution), else
    SVN if the repository option is set, and else the run stops with
    [parser.error] (exit status 2) with nothing done but the error
    message. *)
Theorem C3_transport_resolution (w : World) (argv : Cli)
    (file_list : option (list string)) (swallow_exception : bool)
    (st : State) (settings : Settings) :
  GetTryServerSettings w = Ok settings →
  argv.(cli_send_patch) = None →
  let options :=
    parse_args w settings (transport_functions settings.(default_transport))
      file_list argv in
  match settings_transport w with
  | Some transport =>
      TryChange_options w argv file_list st = (Ok options, st) ∧
      options.(send_patch) = Some transport
  | None =>
      if truthy options.(port) && truthy options.(host) then
        TryChange_options w argv file_list st
        = (Ok (set_send_patch (Some SendChangeHTTP) options), st)
      else if truthy options.(svn_repo) then
        TryChange_options w argv file_list st
        = (Ok (set_send_patch (Some SendChangeSVN) options), st)
      else
        TryChange w argv file_list swallow_exception st
        = (Raise (SystemExit 2),
           set_trace (st.(trace) ++ [EvError "Please specify an access method."]) st)
  end.
Proof.
  intros Hsettings Hcli. cbv zeta.
  destruct (GetTryServerSettings_ok w settings Hsettings) as (_ & _ & _ & Htr).
  unfold TryChange, TryChange_setup, TryChange_options.
  unfold mbind, Py_bind, lift. rewrite Hsettings.
  set (options := parse_args w settings _ file_list argv).
  assert (send_patch options = settings_transport w) as Hsend.
  { unfold options, parse_args. cbn. by rewrite Hcli, Htr. }
  clearbody options. rewrite Hsend.
  destruct (settings_transport w) as [transport|]; cbn.
  - done.
  - destruct (truthy (port options) && truthy (host options)); [done|].
    destruct (truthy (svn_repo options)); done.
Qed.

Lemma C3_transport_resolution_witness :
  ∃ options,
    TryChange_options
      (demo_world svn_settings (λ _, None) demo_now (UrlOpened None) no_git)
      no_cli None (start_state "/src" svn_checkout ∅)
    = (Ok options, start_state "/src" svn_checkout ∅) ∧
    options.(send_patch) = Some SendChangeSVN.
Proof.
  eexists.
  refine (C3_transport_resolution
            (demo_world svn_settings (λ _, None) demo_now (UrlOpened None) no_git)
            no_cli None false (start_state "/src" svn_checkout ∅) _ _ _).
  - vm_compute. reflexivity.
  - reflexivity.
Defined.

(** C3 as stated does not hold: with a port and a host in the settings,
    a host name that does not resolve and no repository URL, neither
    transport is available in the sense of the claim, yet the run does not
    stop: the transport is HTTP and the patch is posted. *)
Lemma C3_counterexample :
  let w := demo_world http_settings (λ _, None) demo_now (UrlOpened (Some "OK")) no_git in
  let st := start_state "/src" svn_checkout ∅ in
  w.(getaddrinfo) "tryserver" = None ∧
  w.(GetCodeReviewSetting) "TRYSERVER_SVN_URL" = None ∧
  no_cli.(cli_send_patch) = None ∧
  (∃ options, TryChange_options w no_cli None st = (Ok options, st) ∧
              options.(send_patch) = Some SendChangeHTTP) ∧
  (∃ st' data, TryChange w no_cli None false st = (Ok 0, st') ∧
        EvUrlopen "http://tryserver:8018/send_try_patch" data None ∈ st'.(trace)).
Proof.
  cbv zeta. split_and!; [reflexivity..| |].
  - eexists. split; vm_compute; reflexivity.
  - eexists _, _. split; [vm_compute; reflexivity|].
    cbn [trace]. repeat first [apply list_elem_of_here | apply list_elem_of_further].
Qed.

(** ** The exit behaviour of TryChange *)

(** C9, as the code has it. When the [try] statement of [TryChange] ends
    in [InvalidScript] or [NoTryServerAccess]: with [swallow_exception]
    true, [TryChange] returns 1 and the [except] clause prints nothing,
    the run ends in the state in which the error was raised and its output
    is what had been printed until then; with [swallow_exception] false,
    the message of the error followed by [HELP_STRING] is printed after
    that output, and nothing else changes. *)
Theorem C9_classified_errors (w : World) (argv : Cli)
    (file_list : option (list string)) (swallow_exception : bool)
    (st st1 st2 : State) (e : exn) (msg : string) :
  TryChange_setup w argv file_list st = (Ok tt, st1) →
  TryChange_try w st1 = (Raise e, st2) →
  e = InvalidScript msg ∨ e = NoTryServerAccess msg →
  let run := TryChange w argv file_list swallow_exception st in
  if swallow_exception
  then run = (Ok 1, st2) ∧ printed run.2 = printed st2
  else run.2 = set_trace (st2.(trace) ++ [EvPrint (msg +:+ String LF HELP_STRING)]) st2 ∧
       printed run.2 = printed st2 ++ [msg +:+ String LF HELP_STRING].
Proof.
  intros Hsetup Htry He. cbv zeta.
  assert (TryChange w argv file_list swallow_exception st
          = (Ok 1, if swallow_exception then st2
                   else set_trace (st2.(trace) ++
                          [EvPrint (msg +:+ String LF HELP_STRING)]) st2)) as ->.
  { unfold TryChange. unfold mbind at 1, Py_bind at 1. rewrite Hsetup.
    unfold try_except, mbind, Py_bind. rewrite Htry.
    destruct He as [-> | ->]; by destruct swallow_exception. }
  destruct swallow_exception; cbn; [done|].
  split; [done|]. unfold printed. cbn. by rewrite omap_app.
Qed.

Lemma C9_classified_errors_witness :
  let w := demo_world http_settings (λ _, None) demo_now (UrlOpened None) no_git in
  let st := start_state "/src" svn_checkout ∅ in
  (TryChange w no_cli None true st).1 = Ok 1 ∧
  printed (TryChange w no_cli None true st).2
  = ["Note: use --name NAME to change the try job name.";
     "Results will be emailed to: joe@example.com"] ∧
  printed (TryChange w no_cli None false st).2
  = ["Note: use --name NAME to change the try job name.";
     "Results will be emailed to: joe@example.com";
     "http://tryserver:8018/send_try_patch is unaccessible."
     +:+ String LF "Sorry, Tryserver is not available."].
Proof.
  cbv zeta.
  set (w := demo_world http_settings (λ _, None) demo_now (UrlOpened None) no_git).
  set (st := start_state "/src" svn_checkout ∅).
  destruct (TryChange_setup w no_cli None st) as [r1 st1] eqn:Hsetup.
  destruct (TryChange_try w st1) as [r2 st2] eqn:Htry.
  assert (Hr1 : r1 = Ok tt) by (vm_compute in Hsetup; congruence).
  assert (Hr2 : r2 = Raise (NoTryServerAccess
                  "http://tryserver:8018/send_try_patch is unaccessible.")).
  { subst r1. vm_compute in Hsetup. injection Hsetup as <-.
    vm_compute in Htry. congruence. }
  subst r1 r2.
  assert (Hout : printed st2
                 = ["Note: use --name NAME to change the try job name.";
                    "Results will be emailed to: joe@example.com"]).
  { vm_compute in Hsetup. injection Hsetup as <-.
    vm_compute in Htry. injection Htry as <-. vm_compute. reflexivity. }
  pose proof (C9_classified_errors w no_cli None true st st1 st2 _ _
                Hsetup Htry (or_intror eq_refl)) as [Htrue Hquiet].
  pose proof (C9_classified_errors w no_cli None false st st1 st2 _ _
                Hsetup Htry (or_intror eq_refl)) as [_ Hloud].
  cbv zeta in *. split_and!.
  - by rewrite Htrue.
  - by rewrite Hquiet, Hout.
  - by rewrite Hloud, Hout.
Defined.

(** C9 as stated does not hold: outside a working copy, with no git
    and no diff, the run ends in [NoTryServerAccess]; with
    [swallow_exception] true [TryChange] returns 1 having printed nothing,
    and with [swallow_exception] false it returns 1 as well: in neither
    mode does the error reach the caller. *)
Lemma C9_counterexample :
  let w := demo_world svn_settings (λ _, None) demo_now (UrlOpened None) no_git in
  let st := start_state "/work" ∅ ∅ in
  ∃ st1 st2 msg,
    TryChange_setup w no_cli None st = (Ok tt, st1) ∧
    TryChange_try w st1 = (Raise (NoTryServerAccess msg), st2) ∧
    TryChange w no_cli None true st = (Ok 1, st2) ∧
    (∀ text, EvPrint text ∉ st2.(trace)) ∧
    (∃ st3, TryChange w no_cli None false st = (Ok 1, st3)).
Proof.
  cbv zeta. eexists _, _, _. split_and!.
  - vm_compute. reflexivity.
  - vm_compute. reflexivity.
  - vm_compute. reflexivity.
  - intros text Hin. cbn [trace] in Hin.
    repeat (apply elem_of_cons in Hin as [Hin | Hin]; [discriminate|]).
    by apply elem_of_nil in Hin.
  - eexists. vm_compute. reflexivity.
Qed.

(** ** Paths *)

Lemma prefix_app (a b : string) : String.prefix a (a +:+ b) = true.
Proof.
  induction a as [|c a IH]; [by destruct b|].
  rewrite append_cons. simpl. destruct (ascii_dec c c); [done | congruence].
Qed.

Lemma app_assoc_sep (d x : string) :
  (d +:+ String SEP "") +:+ x = d +:+ String SEP x.
Proof. induction d as [|c d IH]; [done|]. by rewrite !append_cons, IH. Qed.

Lemma length_app_str (a b : string) :
  String.length (a +:+ b) = (String.length a + String.length b)%nat.
Proof. induction a as [|c a IH]; [done|]. rewrite append_cons. simpl. by rewrite IH. Qed.

Lemma under_refl (d : string) : under d d = true.
Proof. unfold under. by rewrite String.eqb_refl. Qed.

(** A relative name joined to a directory name lies below it. *)
Lemma os_path_join_rel (d x : string) :
  dir_name d = true → relative x = true →
  os_path_join d x = d +:+ String SEP x.
Proof.
  unfold dir_name, relative, os_path_join. intros Hd Hx.
  apply andb_true_iff in Hd as [Hne Hend].
  apply negb_true_iff in Hne, Hend, Hx. by rewrite Hx, Hne, Hend.
Qed.

(** An absolute name replaces the directory. *)
Lemma os_path_join_abs (d x : string) :
  relative x = false → os_path_join d x = x.
Proof.
  unfold relative, os_path_join. intros Hx.
  apply negb_false_iff in Hx. by rewrite Hx.
Qed.

Lemma under_below (d x : string) : under d (d +:+ String SEP x) = true.
Proof.
  unfold under, startswith.
  rewrite <- (app_assoc_sep d x), prefix_app. apply orb_true_r.
Qed.

Lemma below_ne (d x : string) : d +:+ String SEP x ≠ d.
Proof.
  intros H. apply (f_equal String.length) in H.
  rewrite length_app_str in H. simpl in H. lia.
Qed.

Lemma under_join (d x : string) :
  dir_name d = true → relative x = true → under d (os_path_join d x) = true.
Proof. intros Hd Hx. rewrite os_path_join_rel by done. apply under_below. Qed.

Lemma join_ne (d x : string) :
  dir_name d = true → relative x = true → os_path_join d x ≠ d.
Proof. intros Hd Hx. rewrite os_path_join_rel by done. apply below_ne. Qed.

Lemma os_path_split_below (d f : string) :
  os_path_split (d +:+ String SEP f)
  = match os_path_split f with
    | Some (d2, b) => Some (d +:+ String SEP d2, b)
    | None => Some (d, f)
    end.
Proof.
  induction d as [|c d IH].
  - rewrite append_nil_l. simpl. by destruct (os_path_split f) as [[d2 b]|].
  - rewrite append_cons. simpl. rewrite IH.
    by destruct (os_path_split f) as [[d2 b]|].
Qed.

Lemma os_path_split_join (d f : string) :
  dir_name d = true → relative f = true →
  os_path_split (os_path_join d f)
  = match os_path_split f with
    | Some (d2, b) => Some (d +:+ String SEP d2, b)
    | None => Some (d, f)
    end.
Proof. intros Hd Hf. rewrite os_path_join_rel by done. apply os_path_split_below. Qed.

(** The submission file name is relative exactly when the user name is. *)
Lemma relative_submission_file_name (user_ name_ : string) (dt : datetime) :
  relative (submission_file_name user_ name_ dt) = relative user_.
Proof.
  unfold submission_file_name, relative, startswith, EscapeDot.
  destruct user_ as [|c user_]; [done|].
  cbn [replace]. rewrite append_cons. cbn [String.prefix].
  assert (Hnil : ∀ s, String.prefix "" s = true) by (by intros []).
  destruct (Ascii.eqb c "."%char) eqn:Hc.
  - apply Ascii.eqb_eq in Hc as ->. done.
  - destruct (ascii_dec SEP c); [by rewrite !Hnil | done].
Qed.

(** ** Names without a separator *)

Lemma contains_app (c : ascii) (a b : string) :
  contains c (a +:+ b) = contains c a || contains c b.
Proof.
  induction a as [|x a IH]; [done|].
  rewrite append_cons. cbn [contains]. by rewrite IH, orb_assoc.
Qed.

Lemma contains_replace (c a b : ascii) (s : string) :
  Ascii.eqb a c = false → Ascii.eqb b c = false →
  contains c (replace a b s) = contains c s.
Proof.
  intros Ha Hb. induction s as [|x s IH]; [done|].
  cbn [replace contains]. rewrite IH. f_equal.
  destruct (Ascii.eqb x a) eqn:Hx; [|done].
  apply Ascii.eqb_eq in Hx as ->. by rewrite Ha, Hb.
Qed.

Lemma os_path_split_None (s : string) :
  contains SEP s = false → os_path_split s = None.
Proof.
  induction s as [|x s IH]; [done|]. cbn [contains os_path_split].
  intros [Hx Hs]%orb_false_iff. by rewrite (IH Hs), Hx.
Qed.

Lemma relative_no_sep (s : string) : contains SEP s = false → relative s = true.
Proof.
  destruct s as [|x s]; [done|]. cbn [contains]. intros [Hx _]%orb_false_iff.
  unfold relative, startswith. cbn [String.prefix].
  destruct (ascii_dec SEP x) as [<-|]; [|done]. by rewrite Ascii.eqb_refl in Hx.
Qed.

Lemma contains_uint (u : Decimal.uint) :
  contains SEP (NilEmpty.string_of_uint u) = false.
Proof. induction u; cbn; done. Qed.

Lemma contains_str_of_nat (n : nat) : contains SEP (str_of_nat n) = false.
Proof.
  unfold str_of_nat, NilZero.string_of_uint.
  destruct (Nat.to_uint n); try done; apply (contains_uint (_ _)).
Qed.

Lemma contains_zfill (width n : nat) : contains SEP (zfill width n) = false.
Proof.
  unfold zfill. rewrite contains_app, contains_str_of_nat, orb_false_r.
  induction (width - String.length (str_of_nat n))%nat as [|k IH]; [done|].
  cbn. exact IH.
Qed.

Lemma contains_datetime_str (dt : datetime) :
  contains SEP (datetime_str dt) = false.
Proof.
  unfold datetime_str. rewrite !contains_app, !contains_zfill.
  destruct (microsecond dt =? 0)%nat; [done|].
  by rewrite contains_app, contains_zfill.
Qed.

(** The submission file name of a user and a job name without a
    separator has none. *)
Lemma submission_file_name_no_sep (user_ name_ : string) (dt : datetime) :
  contains SEP user_ = false → contains SEP name_ = false →
  contains SEP (submission_file_name user_ name_ dt) = false.
Proof.
  intros Hu Hn. unfold submission_file_name, EscapeDot.
  rewrite !contains_app, !contains_replace, Hu, Hn, contains_datetime_str by done.
  done.
Qed.

(** ** Invariants of computations *)

Section preserves.
Context {A B : Type} (I : State → Prop).

Lemma preserves_mret (a : A) : preserves I (mret a).
Proof. intros st r st' [= <- <-]. done. Qed.

Lemma preserves_raise (e : exn) : preserves I (raise e : Py A).
Proof. intros st r st' [= <- <-]. done. Qed.

Lemma preserves_lift (r : Res A) : preserves I (lift r).
Proof. intros st r' st' [= <- <-]. done. Qed.

Lemma preserves_bind (m : Py A) (f : A → Py B) :
  preserves I m → (∀ a, preserves I (f a)) → preserves I (m ≫= f).
Proof.
  intros Hm Hf st r st' Hrun HI. unfold mbind, Py_bind in Hrun.
  destruct (m st) as [[a|e] st1] eqn:E.
  - eapply Hf; [done|]. eapply Hm; done.
  - simplify_eq. eapply Hm; done.
Qed.

Lemma preserves_try_except (m : Py A) (handler : exn → option (Py A)) :
  preserves I m → (∀ e h, handler e = Some h → preserves I h) →
  preserves I (try_except m handler).
Proof.
  intros Hm Hh st r st' Hrun HI. unfold try_except in Hrun.
  destruct (m st) as [[a|e] st1] eqn:E.
  - simplify_eq. eapply Hm; done.
  - destruct (handler e) as [h|] eqn:Eh.
    + eapply Hh; [done..|]. eapply Hm; done.
    + simplify_eq. eapply Hm; done.
Qed.

Lemma preserves_modify (f : State → State) :
  (∀ st, I st → I (f st)) → preserves I (modify f).
Proof. intros Hf st r st' [= <- <-]. auto. Qed.

Lemma preserves_get_state : preserves I get_state.
Proof. intros st r st' [= <- <-]. done. Qed.
End preserves.

(** ** Mediated delivery: what stays outside the temporary files *)

Section outside.
Context (w : World) (d t : string)
  (fs0 : gmap string FsNode) (wcs0 : gmap string string).
Hypothesis Hd : dir_name d = true.
Local Abbreviation kept := (outside_kept d t fs0 wcs0).

Lemma kept_set_trace (tr : list Event) (st : State) :
  kept st → kept (set_trace tr st).
Proof. done. Qed.

Lemma kept_set_repo m l (st : State) : kept st → kept (set_repo m l st).
Proof. done. Qed.

Lemma kept_set_fs (p : string) (x : FsNode) (st : State) :
  under d p = true ∨ p = t →
  kept st → kept (set_fs (<[p := x]> st.(fs)) st).
Proof.
  intros Hp Hk q Hq. destruct (Hk q Hq) as [Hfs Hwcs]. split; [|done].
  intros Hne. cbn. rewrite lookup_insert_ne; [by apply Hfs|].
  intros ->. destruct Hp; congruence.
Qed.

Lemma kept_set_wcs (p u : string) (st : State) :
  under d p = true →
  kept st → kept (set_wcs (<[p := u]> st.(wcs)) st).
Proof.
  intros Hp Hk q Hq. destruct (Hk q Hq) as [Hfs Hwcs]. split; [done|].
  cbn. rewrite lookup_insert_ne; [done|]. intros ->. congruence.
Qed.

Lemma preserves_emit (e : Event) : preserves kept (emit e).
Proof. apply preserves_modify. intros st. apply kept_set_trace. Qed.

Lemma preserves_CheckCall (command : list string) :
  (∀ st out st', svn_run command st = (Done out, st') → kept st → kept st') →
  preserves kept (CheckCall w command).
Proof.
  intros Hrun st r st' Hcall Hk. unfold CheckCall in Hcall. py_unfold.
  destruct command as [|prog args]; [by simplify_eq|].
  destruct (String.eqb prog "svn").
  - destruct (svn_fault w (prog :: args)) as [[retcode out]|]; [by simplify_eq|].
    destruct (svn_run _ _) as [[out|retcode out] st1] eqn:E; simplify_eq; [|done].
    eapply Hrun; [exact E|]. by apply kept_set_trace.
  - destruct (run w (prog :: args)); by simplify_eq.
Qed.

Lemma preserves_checkout (options : Options) :
  preserves kept (CheckCall w (checkout_command options d)).
Proof.
  apply preserves_CheckCall. intros st out st' Hrun Hk.
  unfold checkout_command in Hrun.
  destruct (truthy (email options)); cbn in Hrun; simplify_eq;
    apply kept_set_wcs; auto using under_refl.
Qed.

Lemma preserves_ls (full_url : string) :
  preserves kept (CheckCall w ["svn"; "ls"; full_url]).
Proof.
  apply preserves_CheckCall. intros st out st' Hrun Hk. cbn in Hrun.
  destruct (repo st !! full_url); by simplify_eq.
Qed.

Lemma preserves_update (x : string) :
  relative x = true →
  preserves kept (CheckCall w ["svn"; "update"; os_path_join d x]).
Proof.
  intros Hx.
  apply preserves_CheckCall. intros st out st' Hrun Hk. cbn in Hrun.
  destruct (wc_url st _); [|by simplify_eq].
  destruct (repo st !! _); simplify_eq; [|done].
  apply kept_set_fs; auto using under_join.
Qed.

Lemma preserves_add (path : string) :
  preserves kept (CheckCall w ["svn"; "add"; path]).
Proof.
  apply preserves_CheckCall. intros st out st' Hrun Hk. cbn in Hrun.
  repeat case_match; by simplify_eq.
Qed.

Lemma preserves_commit (path message_file : string) :
  preserves kept (CheckCall w ["svn"; "commit"; path; "--file"; message_file]).
Proof.
  apply preserves_CheckCall. intros st out st' Hrun Hk. cbn in Hrun.
  repeat case_match; simplify_eq; by try apply kept_set_repo.
Qed.

Lemma preserves_file_write (f data : string) :
  under d f = true ∨ f = t → preserves kept (file_write f data).
Proof.
  intros Hf. unfold file_write.
  apply preserves_bind; [apply preserves_get_state|]. intros st0.
  apply preserves_bind; [|intros; apply preserves_emit].
  apply preserves_modify. intros st. by apply kept_set_fs.
Qed.

Lemma preserves_write_file (x : string) (data : option string) :
  relative x = true →
  preserves kept (write_file w (os_path_join d x) data).
Proof.
  intros Hrel st r st' Hrun Hk. unfold write_file, open_wb, file_write in Hrun.
  py_unfold. pose proof (under_join d x Hd Hrel) as Hx.
  repeat case_match; simplify_eq; try done;
    repeat first [apply kept_set_trace | apply kept_set_fs; [by left|]]; done.
Qed.

(** The body of the [try] statement of [_SendChangeSVN] touches nothing
    outside the temporary directory and the temporary file. *)
Lemma preserves_SendChangeSVN_try (options : Options) (description : string) :
  relative options.(user) = true →
  preserves kept (_SendChangeSVN_try w options description d t).
Proof.
  intros Hrel.
  assert (Hfile : ∀ name_, relative (submission_file_name options.(user) name_ w.(now))
                           = true).
  { intros name_. by rewrite relative_submission_file_name. }
  unfold _SendChangeSVN_try. cbv zeta.
  apply preserves_bind.
  { pose proof (preserves_checkout options) as H. unfold checkout_command in H.
    destruct (truthy (email options)); [done | by rewrite app_nil_r in H]. }
  intros _.
  apply preserves_bind;
    [destruct (name options); [apply preserves_mret | apply preserves_raise]|].
  intros name_. apply preserves_bind.
  { apply preserves_try_except.
    - apply preserves_bind; [apply preserves_ls | intros; apply preserves_mret].
    - intros e h Hh. destruct e; simplify_eq. apply preserves_mret. }
  intros [|].
  - apply preserves_bind.
    { apply preserves_bind; [by apply preserves_update|]. intros _.
      by apply preserves_write_file. }
    intros _. apply preserves_bind; [apply preserves_file_write; by right|].
    intros _. apply preserves_bind; [apply preserves_commit|].
    intros; apply preserves_mret.
  - apply preserves_bind.
    { apply preserves_bind; [by apply preserves_write_file|]. intros _.
      apply preserves_bind; [apply preserves_add|]. intros; apply preserves_mret. }
    intros _. apply preserves_bind; [apply preserves_file_write; by right|].
    intros _. apply preserves_bind; [apply preserves_commit|].
    intros; apply preserves_mret.
Qed.

Lemma preserves_SendChangeSVN_except :
  ∀ e h, _SendChangeSVN_except e = Some h → preserves kept h.
Proof. intros e h Hh. destruct e; simplify_eq/=. apply preserves_raise. Qed.
End outside.

(** A mediated delivery that has a repository URL: the temporary names
    are created, the [try] statement runs, and the [finally] clause
    removes them. *)
Lemma _SendChangeSVN_run (w : World) (options : Options) (st : State) :
  truthy options.(svn_repo) = true →
  w.(mkdtemp_fault) = None →
  w.(NamedTemporaryFile_fault) = None →
  let d := w.(mkdtemp_name) in
  let t := w.(NamedTemporaryFile_name) in
  let created := set_fs (<[t := File ""]> (<[d := Dir]> st.(fs))) st in
  let body := try_except
    (_SendChangeSVN_try w options (description_of (_ParseSendChangeOptions options)) d t)
    _SendChangeSVN_except created in
  _SendChangeSVN w options st
  = (body.1,
     set_wcs (filter (λ kv, under d kv.1 = false) body.2.(wcs))
       (set_fs (filter (λ kv, under d kv.1 = false) (delete t body.2.(fs))) body.2)).
Proof.
  intros Hrepo Hdir Hfile d t created body.
  assert (_SendChangeSVN w options st
          = try_finally (λ _, body) (_SendChangeSVN_finally d t) st) as ->.
  { unfold _SendChangeSVN, mkdtemp, NamedTemporaryFile.
    rewrite Hrepo, Hdir, Hfile. reflexivity. }
  unfold try_finally. by destruct body as [rb st1].
Qed.

(** A mediated delivery whose temporary directory cannot be created
    raises what [mkdtemp] raises and changes nothing. *)
Lemma _SendChangeSVN_no_directory (w : World) (options : Options) (st : State)
    (fault : TempFault) :
  truthy options.(svn_repo) = true →
  w.(mkdtemp_fault) = Some fault →
  _SendChangeSVN w options st = (Raise (temp_exn fault), st).
Proof.
  intros Hrepo Hdir. unfold _SendChangeSVN, mkdtemp. by rewrite Hrepo, Hdir.
Qed.

(** A mediated delivery whose temporary file cannot be created raises
    what [NamedTemporaryFile] raises; the temporary directory, created
    before the [try] statement, stays. *)
Lemma _SendChangeSVN_no_file (w : World) (options : Options) (st : State)
    (fault : TempFault) :
  truthy options.(svn_repo) = true →
  w.(mkdtemp_fault) = None →
  w.(NamedTemporaryFile_fault) = Some fault →
  _SendChangeSVN w options st
  = (Raise (temp_exn fault), set_fs (<[w.(mkdtemp_name) := Dir]> st.(fs)) st).
Proof.
  intros Hrepo Hdir Hfile. unfold _SendChangeSVN, mkdtemp, NamedTemporaryFile.
  by rewrite Hrepo, Hdir, Hfile.
Qed.

Lemma under_filter_None {V} (d p : string) (m : gmap string V) :
  under d p = true → filter (λ kv, under d kv.1 = false) m !! p = None.
Proof.
  intros Hp. apply map_lookup_filter_None. right. intros v _. cbn. congruence.
Qed.

Lemma under_filter_keep {V} (d p : string) (m : gmap string V) :
  under d p = false → filter (λ kv, under d kv.1 = false) m !! p = m !! p.
Proof.
  intros Hp. destruct (m !! p) as [v|] eqn:E.
  - by apply map_lookup_filter_Some.
  - apply map_lookup_filter_None. by left.
Qed.




(** ** Mediated delivery, step by step *)

Lemma bind_inv {A B : Type} (m : Py A) (f : A → Py B) st r st' :
  (m ≫= f) st = (r, st') →
  (∃ e, m st = (Raise e, st') ∧ r = Raise e) ∨
  (∃ a st1, m st = (Ok a, st1) ∧ f a st1 = (r, st')).
Proof.
  unfold mbind, Py_bind. destruct (m st) as [[a|e] st1]; intros H.
  - right. eauto.
  - left. simplify_eq. eauto.
Qed.

Lemma CheckCall_svn (w : World) (args : list string) (st : State) :
  CheckCall w ("svn" :: args) st
  = let st1 := set_trace (st.(trace) ++ [EvCall ("svn" :: args)]) st in
    match w.(svn_fault) ("svn" :: args) with
    | Some (retcode, out) => (Raise (CheckCallError ("svn" :: args) retcode out), st1)
    | None =>
        match svn_run ("svn" :: args) st1 with
        | (Done out, st2) => (Ok out, st2)
        | (Failed retcode out, _) =>
            (Raise (CheckCallError ("svn" :: args) retcode out), st1)
        end
    end.
Proof.
  unfold CheckCall. py_unfold. cbn [String.eqb Ascii.eqb Bool.eqb].
  destruct (svn_fault w ("svn" :: args)) as [[retcode out]|]; [done|].
  by destruct (svn_run _ _) as [[out|retcode out] st2].
Qed.

Lemma svn_run_checkout a b c repo_url dir rest (st : State) :
  svn_run ("svn" :: "checkout" :: a :: b :: c :: repo_url :: dir :: rest) st
  = (Done "", set_wcs (<[dir := repo_url]> st.(wcs)) st).
Proof. reflexivity. Qed.

Lemma svn_run_ls file_url (st : State) :
  svn_run ["svn"; "ls"; file_url] st
  = match st.(repo) !! file_url with
    | Some _ => (Done file_url, st)
    | None => (Failed 1 "", st)
    end.
Proof. reflexivity. Qed.

Lemma svn_run_update path (st : State) :
  svn_run ["svn"; "update"; path] st
  = match wc_url st path with
    | Some file_url =>
        match st.(repo) !! file_url with
        | Some content => (Done "", set_fs (<[path := File content]> st.(fs)) st)
        | None => (Done "", st)
        end
    | None => (Failed 1 "", st)
    end.
Proof. reflexivity. Qed.

Lemma svn_run_add path (st : State) :
  svn_run ["svn"; "add"; path] st
  = match wc_url st path, st.(fs) !! path with
    | Some _, Some (File _) => (Done "", st)
    | _, _ => (Failed 1 "", st)
    end.
Proof. reflexivity. Qed.

Lemma svn_run_commit path flag message_file (st : State) :
  svn_run ["svn"; "commit"; path; flag; message_file] st
  = match wc_url st path, st.(fs) !! path, st.(fs) !! message_file with
    | Some file_url, Some (File content), Some (File message) =>
        if decide (st.(repo) !! file_url = Some content)
        then (Done "", st)
        else (Done "", set_repo (<[file_url := content]> st.(repo))
                         (st.(revlog) ++ [(file_url, message)]) st)
    | _, _, _ => (Failed 1 "", st)
    end.
Proof. reflexivity. Qed.

(** The existence check never raises: it answers whether the file is
    there. *)
Lemma existence_check (w : World) (full_url : string) (st : State) :
  try_except (_ ← CheckCall w ["svn"; "ls"; full_url]; mret true)
    (λ e, match e with
          | CheckCallError _ _ _ => Some (mret false)
          | _ => None
          end) st
  = (Ok (file_found w st full_url),
     set_trace (st.(trace) ++ [EvCall ["svn"; "ls"; full_url]]) st).
Proof.
  unfold try_except, mbind, Py_bind, file_found. rewrite CheckCall_svn. cbv zeta.
  destruct (svn_fault w _) as [[retcode out]|]; [done|].
  rewrite svn_run_ls. cbn [repo set_trace].
  by destruct (repo st !! full_url).
Qed.

(** Writing [data] to a new or truncated file. *)
Lemma write_file_spec (w : World) (path data : string) (st : State) r st' :
  write_file w path (Some data) st = (r, st') →
  (∃ e, r = Raise e ∧ st' = st) ∨
  (r = Ok tt ∧
   st' = set_trace (st.(trace) ++ [EvWrite path data])
           (set_fs (<[path := File data]> st.(fs)) st)).
Proof.
  unfold write_file, open_wb, file_write. py_unfold. intros H.
  destruct (open_fault w path); [left; simplify_eq; eauto|].
  assert (∀ s : State,
    match <[path := File ""]> (fs s) !! path with
    | Some (File c) => c
    | _ => ""
    end = "") as Hold by (intros; by rewrite lookup_insert_eq).
  destruct (os_path_split path) as [[dd b]|].
  - destruct (fs st !! dd) as [[|]|]; simplify_eq; [left; eauto | | left; eauto].
    right. split; [done|]. cbn. rewrite Hold, insert_insert_eq. done.
  - simplify_eq. right. split; [done|]. cbn. rewrite Hold, insert_insert_eq. done.
Qed.

Lemma checkout_command_eq (options : Options) (d : string) :
  (if truthy options.(email)
   then ["svn"; "checkout"; "--depth"; "empty"; "-q"; default "" options.(svn_repo); d]
        ++ ["--username"; default "" options.(email)]
   else ["svn"; "checkout"; "--depth"; "empty"; "-q"; default "" options.(svn_repo); d])
  = checkout_command options d.
Proof. unfold checkout_command. destruct (truthy _); [done | by rewrite app_nil_r]. Qed.

Lemma CheckCall_checkout (w : World) (options : Options) (d : string) (st : State) :
  CheckCall w (checkout_command options d) st
  = let st1 := set_trace (st.(trace) ++ [EvCall (checkout_command options d)]) st in
    match w.(svn_fault) (checkout_command options d) with
    | Some (retcode, out) =>
        (Raise (CheckCallError (checkout_command options d) retcode out), st1)
    | None => (Ok "", set_wcs (<[d := default "" options.(svn_repo)]> st.(wcs)) st1)
    end.
Proof.
  unfold checkout_command.
  destruct (truthy (email options)); cbn [app]; rewrite CheckCall_svn; cbv zeta;
    by rewrite svn_run_checkout.
Qed.

Lemma not_add_event (p : string) (new : list Event) :
  Forall (λ ev, match ev with
                | EvCall (_ :: sub :: _) => String.eqb sub "add" = false
                | _ => True
                end) new →
  EvCall ["svn"; "add"; p] ∉ new.
Proof.
  intros Hall Hin. rewrite Forall_forall in Hall.
  specialize (Hall _ Hin). done.
Qed.

Lemma checkout_not_add options d :
  match checkout_command options d with
  | _ :: sub :: _ => String.eqb sub "add" = false
  | _ => True
  end.
Proof. done. Qed.

Lemma write_file_None_spec (w : World) (path : string) (st : State) r st' :
  write_file w path None st = (r, st') →
  (∃ e, r = Raise e) ∧ st'.(trace) = st.(trace) ∧
  st'.(repo) = st.(repo) ∧ st'.(revlog) = st.(revlog).
Proof.
  unfold write_file, open_wb. py_unfold. intros H.
  repeat case_match; simplify_eq; cbn; eauto.
Qed.

Lemma file_write_spec (f data : string) (st : State) :
  file_write f data st
  = (Ok tt,
     set_trace (st.(trace) ++ [EvWrite f data])
       (set_fs (<[f := File (match st.(fs) !! f with
                             | Some (File c) => c
                             | _ => ""
                             end +:+ data)]> st.(fs)) st)).
Proof. reflexivity. Qed.

Ltac st_simpl :=
  cbn [trace fs wcs repo revlog the_options cwd
       set_trace set_fs set_wcs set_repo set_options] in *.

Ltac delivery_leaf :=
  eexists; split;
    [ cbn; rewrite <- ?app_assoc; reflexivity
    | split; [ intros; apply not_add_event; repeat constructor | cbn; done ] ].

Ltac failed_delivery :=
  st_simpl; unfold raise, lift, mret, Py_ret in *; simplify_eq;
  try delivery_leaf.

Lemma bind_ok {A B : Type} (m : Py A) (f : A → Py B) (st st1 : State) (a : A) :
  m st = (Ok a, st1) → (m ≫= f) st = f a st1.
Proof. intros H. unfold mbind, Py_bind. by rewrite H. Qed.

(** Writing [data] to a file of an existing directory, when [open] does
    not fail. *)
Lemma write_file_ok (w : World) (path data dd b : string) (st : State) :
  w.(open_fault) path = None →
  os_path_split path = Some (dd, b) →
  st.(fs) !! dd = Some Dir →
  write_file w path (Some data) st
  = (Ok tt, set_trace (st.(trace) ++ [EvWrite path data])
              (set_fs (<[path := File data]> st.(fs)) st)).
Proof.
  intros Hfault Hsplit Hdir. unfold write_file, open_wb, file_write. py_unfold.
  rewrite Hfault, Hsplit, Hdir. cbn.
  by rewrite lookup_insert_eq, insert_insert_eq.
Qed.

Section delivery.
Context (w : World) (options : Options) (s : State).
Local Abbreviation d := (w.(mkdtemp_name)).
Local Abbreviation t := (w.(NamedTemporaryFile_name)).
Local Abbreviation description := (description_of (_ParseSendChangeOptions options)).
Hypothesis Hd : dir_name d = true.
Hypothesis Hrel : relative options.(user) = true.
Hypothesis Hwcs : ∀ p, under d p = true → s.(wcs) !! p = None.
Hypothesis Ht : s.(fs) !! t = Some (File "").
Hypothesis Htd : under d t = false.

Lemma wc_url_delivery (x : State) (file_name : string) :
  relative file_name = true →
  x.(wcs) = <[d := default "" options.(svn_repo)]> s.(wcs) →
  wc_url x (os_path_join d file_name)
  = match os_path_split file_name with
    | Some _ => None
    | None => Some (default "" options.(svn_repo) +:+ "/" +:+ file_name)
    end.
Proof.
  intros Hfile Hx. unfold wc_url. rewrite os_path_split_join, Hx by done.
  destruct (os_path_split file_name) as [[d2 b]|].
  - rewrite lookup_insert_ne by (intros Heq; symmetry in Heq; by apply below_ne in Heq).
    by rewrite Hwcs by apply under_below.
  - by rewrite lookup_insert_eq.
Qed.

(** The end of a delivery: the message is written and the file is
    committed. *)
Lemma commit_tail (x : State) (file_name diff_ : string) r s' :
  let full_path := os_path_join d file_name in
  let full_url := default "" options.(svn_repo) +:+ "/" +:+ file_name in
  relative file_name = true →
  x.(wcs) = <[d := default "" options.(svn_repo)]> s.(wcs) →
  x.(fs) !! full_path = Some (File diff_) →
  x.(fs) !! t = Some (File "") →
  x.(repo) = s.(repo) → x.(revlog) = s.(revlog) →
  (file_write t description
   ≫= λ _, CheckCall w ["svn"; "commit"; full_path; "--file"; t]
   ≫= λ _, mret tt) x = (r, s') →
  s'.(trace) = x.(trace) ++ [EvWrite t description;
                             EvCall ["svn"; "commit"; full_path; "--file"; t]] ∧
  match r with
  | Raise _ => s'.(repo) = s.(repo) ∧ s'.(revlog) = s.(revlog)
  | Ok _ =>
      os_path_split file_name = None ∧
      s'.(repo) = <[full_url := diff_]> s.(repo) ∧
      s'.(revlog) = if decide (s.(repo) !! full_url = Some diff_)
                    then s.(revlog)
                    else s.(revlog) ++ [(full_url, description)]
  end.
Proof.
  intros full_path full_url Hfn Hx Hfile Htmp Hre Hlog H.
  assert (Hpath : full_path ≠ t).
  { intros Heq. pose proof (under_join d file_name Hd Hfn) as Hu.
    fold full_path in Hu. rewrite Heq in Hu. congruence. }
  subst full_path.
  apply bind_inv in H as [(e & H & ->) | ([] & x1 & Hstep & H)];
    rewrite file_write_spec in *; [done|].
  injection Hstep as <-. rewrite Htmp in H.
  apply bind_inv in H as [(e & H & ->) | (out & x2 & Hstep & H)].
  - rewrite CheckCall_svn in H. cbv zeta in H.
    destruct (svn_fault w _) as [[rc o]|].
    { st_simpl. simplify_eq. cbn. rewrite <- app_assoc. done. }
    rewrite svn_run_commit, wc_url_delivery in H by done.
    st_simpl. destruct (os_path_split file_name).
    { simplify_eq. cbn. rewrite <- app_assoc. done. }
    rewrite lookup_insert_ne, Hfile, lookup_insert_eq in H by done.
    case_decide; simplify_eq.
  - unfold mret, Py_ret in H. injection H as <- <-.
    rewrite CheckCall_svn in Hstep. cbv zeta in Hstep.
    destruct (svn_fault w _) as [[rc o]|]; [done|].
    rewrite svn_run_commit, wc_url_delivery in Hstep by done.
    st_simpl. destruct (os_path_split file_name); [done|].
    rewrite lookup_insert_ne, Hfile, lookup_insert_eq in Hstep by done.
    rewrite Hre, Hlog in Hstep. fold full_url in Hstep.
    case_decide as Hsame; simplify_eq; cbn; rewrite <- app_assoc.
    + split_and!; [done..| |done]. by rewrite insert_id.
    + by split_and!.
Qed.

Lemma _SendChangeSVN_try_spec r s' :
  _SendChangeSVN_try w options description d t s = (r, s') →
  ∃ new, s'.(trace) = s.(trace) ++ new ∧
    (∀ name_, options.(name) = Some name_ →
       file_found w s (default "" options.(svn_repo) +:+ "/" +:+
                       submission_file_name options.(user) name_ w.(now)) = true →
       ∀ p, EvCall ["svn"; "add"; p] ∉ new) ∧
    match r with
    | Raise _ => s'.(repo) = s.(repo) ∧ s'.(revlog) = s.(revlog)
    | Ok _ =>
        ∃ name_ diff_,
          options.(name) = Some name_ ∧ options.(diff) = Some diff_ ∧
          let file_name := submission_file_name options.(user) name_ w.(now) in
          let full_url := default "" options.(svn_repo) +:+ "/" +:+ file_name in
          os_path_split file_name = None ∧
          new = delivery_events w options s name_ diff_ ∧
          s'.(repo) = <[full_url := diff_]> s.(repo) ∧
          s'.(revlog) = if decide (s.(repo) !! full_url = Some diff_)
                        then s.(revlog)
                        else s.(revlog) ++ [(full_url, description)]
    end.
Proof.
  unfold _SendChangeSVN_try. cbv zeta. rewrite checkout_command_eq. intros H.
  (* the checkout *)
  apply bind_inv in H as [(e & H & ->) | (out & s1 & Hstep & H)];
    rewrite CheckCall_checkout in *; cbv zeta in *;
    destruct (svn_fault w (checkout_command options d)) as [[rc o]|] eqn:Hf1;
    simplify_eq.
  { failed_delivery. }
  (* the job name *)
  destruct (name options) as [name_|] eqn:Hname.
  2:{ apply bind_inv in H as [(e & H & ->) | (? & ? & Hstep & H)]; simplify_eq.
      failed_delivery. }
  apply bind_inv in H as [(e & H & ->) | (? & ? & Hstep & H)]; [done|].
  injection Hstep as <- <-.
  (* the existence check *)
  apply bind_inv in H as [(e & H & ->) | (found & s2 & Hstep & H)];
    rewrite existence_check in *; [by simplify_eq|].
  injection Hstep as <- <-.
  set (file_name := submission_file_name (user options) name_ (now w)) in *.
  assert (Hfn : relative file_name = true).
  { unfold file_name. by rewrite relative_submission_file_name. }
  set (full_path := os_path_join d file_name) in *.
  set (full_url := default "" (svn_repo options) +:+ "/" +:+ file_name) in *.
  change (file_found w _ full_url) with (file_found w s full_url) in H.
  assert (Hpath : full_path ≠ t).
  { intros Heq. pose proof (under_join d file_name Hd Hfn) as Hu.
    fold full_path in Hu. rewrite Heq in Hu. congruence. }
  destruct (file_found w s full_url) eqn:Hfound.
  - (* the file is there: update, then write *)
    apply bind_inv in H as [(e & H & ->) | ([] & s3 & Hstep & H)].
    + apply bind_inv in H as [(e' & H & ?) | (? & s4 & Hstep & H)].
      * rewrite CheckCall_svn in H. cbv zeta in H.
        destruct (svn_fault w ["svn"; "update"; full_path]) as [[rc o]|];
          [failed_delivery|].
        rewrite svn_run_update in H.
        destruct (wc_url _ full_path); [|failed_delivery].
        st_simpl. destruct (repo s !! _); failed_delivery.
      * rewrite CheckCall_svn in Hstep. cbv zeta in Hstep.
        destruct (svn_fault w ["svn"; "update"; full_path]) as [[rc o]|]; [done|].
        rewrite svn_run_update in Hstep.
        destruct (wc_url _ full_path); [|done].
        st_simpl.
        destruct (diff options) as [diff_|].
        -- apply write_file_spec in H as [(e' & ? & ->) | [? ->]]; [|done].
           destruct (repo s !! _); failed_delivery.
        -- apply write_file_None_spec in H as ([e' ?] & Htr & Hre & Hlog).
           eexists. split; [|split];
             [ rewrite Htr | intros; apply not_add_event
             | simplify_eq; rewrite Hre, Hlog ];
             destruct (repo s !! _); simplify_eq; cbn;
             rewrite <- ?app_assoc; try reflexivity; try done; repeat constructor.
    + apply bind_inv in Hstep as [(e & Hs & ?) | (? & s4 & Hup & Hwr)]; [done|].
      rewrite CheckCall_svn in Hup. cbv zeta in Hup.
      destruct (svn_fault w ["svn"; "update"; full_path]) as [[rc o]|]; [done|].
      unfold full_path in Hup.
      rewrite svn_run_update, wc_url_delivery in Hup by done.
      destruct (os_path_split file_name) eqn:Hsplit; [done|]. st_simpl.
      assert (∃ content, repo s !! full_url = Some content) as [content Hc].
      { unfold file_found in Hfound.
        destruct (svn_fault w ["svn"; "ls"; full_url]); [done|].
        destruct (repo s !! full_url); [eauto | done]. }
      fold full_url in Hup. rewrite Hc in Hup. injection Hup as <- <-.
      destruct (diff options) as [diff_|];
        [|by apply write_file_None_spec in Hwr as ([? ?] & _)].
      apply write_file_spec in Hwr as [(? & ? & _) | [_ ->]]; [done|].
      eapply commit_tail in H as [Htr Hr];
        [| exact Hfn | done | st_simpl; apply lookup_insert_eq
         | st_simpl; by rewrite !lookup_insert_ne | done | done].
      st_simpl. eexists. split; [rewrite Htr, <- !app_assoc; reflexivity|].
      split; [intros; apply not_add_event; repeat constructor|].
      destruct r as [[]|e]; [|done].
      destruct Hr as (_ & Hrepo & Hlog).
      exists name_, diff_. split_and!; [done..| |done|done].
      unfold delivery_events. fold file_name full_url full_path.
      by rewrite Hfound.
  - (* the file is not there: write, then add *)
    assert (Hvac : ∀ (new : list Event) name_0, Some name_ = Some name_0 →
      file_found w s (default "" (svn_repo options) +:+ "/" +:+
                      submission_file_name (user options) name_0 (now w)) = true →
      ∀ p, EvCall ["svn"; "add"; p] ∉ new).
    { intros new ? [= <-] Hf'. change (file_found w s full_url = true) in Hf'.
      congruence. }
    apply bind_inv in H as [(e & H & ->) | ([] & s3 & Hstep & H)].
    + apply bind_inv in H as [(e' & H & ?) | ([] & s4 & Hwr & H)].
      * destruct (diff options) as [diff_|].
        -- apply write_file_spec in H as [(? & ? & ->) | [? ->]]; [|done].
           eexists. split; [cbn; rewrite <- ?app_assoc; reflexivity|].
           split; [apply Hvac | done].
        -- apply write_file_None_spec in H as ([? ?] & Htr & Hre & Hlog).
           eexists. split; [rewrite Htr; cbn; rewrite <- ?app_assoc; reflexivity|].
           split; [apply Hvac | by rewrite Hre, Hlog].
      * destruct (diff options) as [diff_|];
          [|by apply write_file_None_spec in Hwr as ([? ?] & _)].
        apply write_file_spec in Hwr as [(? & ? & _) | [_ ->]]; [done|].
        apply bind_inv in H as [(e2 & H & ?) | (? & ? & ? & H)];
          [|unfold mret, Py_ret in H; simplify_eq].
        rewrite CheckCall_svn in H. cbv zeta in H.
        destruct (svn_fault w ["svn"; "add"; full_path]) as [[rc o]|].
        { st_simpl. simplify_eq.
          eexists. split; [cbn; rewrite <- ?app_assoc; reflexivity|].
          split; [apply Hvac | done]. }
        rewrite svn_run_add in H. unfold full_path in H.
        rewrite wc_url_delivery in H by done.
        destruct (os_path_split file_name).
        { st_simpl. simplify_eq.
          eexists. split; [cbn; rewrite <- ?app_assoc; reflexivity|].
          split; [apply Hvac | done]. }
        st_simpl. rewrite lookup_insert_eq in H. simplify_eq.
    + apply bind_inv in Hstep as [(e & Hs & ?) | ([] & s4 & Hwr & Hadd)]; [done|].
      destruct (diff options) as [diff_|];
        [|by apply write_file_None_spec in Hwr as ([? ?] & _)].
      apply write_file_spec in Hwr as [(? & ? & _) | [_ ->]]; [done|].
      apply bind_inv in Hadd as [(e2 & ? & ?) | (? & s5 & Hadd & Hret)]; [done|].
      unfold mret, Py_ret in Hret. injection Hret as <-.
      rewrite CheckCall_svn in Hadd. cbv zeta in Hadd.
      destruct (svn_fault w ["svn"; "add"; full_path]) as [[rc o]|]; [done|].
      rewrite svn_run_add in Hadd. unfold full_path in Hadd.
      rewrite wc_url_delivery in Hadd by done.
      destruct (os_path_split file_name) eqn:Hsplit; [done|].
      st_simpl. rewrite lookup_insert_eq in Hadd.
      injection Hadd as <- <-. fold full_path in H |- *.
      eapply commit_tail in H as [Htr Hr];
        [| exact Hfn | done | st_simpl; apply lookup_insert_eq
         | st_simpl; by rewrite lookup_insert_ne | done | done].
      st_simpl. eexists. split; [rewrite Htr, <- !app_assoc; reflexivity|].
      split; [apply Hvac|].
      destruct r as [[]|e]; [|done].
      destruct Hr as (? & Hrepo & Hlog).
      exists name_, diff_. split_and!; [done..| |done|done].
      unfold delivery_events. fold file_name full_url full_path.
      by rewrite Hfound.
Qed.
(** With a name and a diff, a file name without a separator and no
    failure of [svn] or [open], the body of the [try] statement returns. *)
Lemma _SendChangeSVN_try_ok (name_ diff_ : string) :
  options.(name) = Some name_ →
  options.(diff) = Some diff_ →
  let file_name := submission_file_name options.(user) name_ w.(now) in
  os_path_split file_name = None →
  (∀ command, w.(svn_fault) command = None) →
  w.(open_fault) (os_path_join d file_name) = None →
  s.(fs) !! d = Some Dir →
  ∃ s', _SendChangeSVN_try w options description d t s = (Ok tt, s').
Proof.
  intros Hname Hdiff file_name Hsplit Hnofault Hopen Hdir.
  assert (Hfn : relative file_name = true).
  { unfold file_name. by rewrite relative_submission_file_name. }
  assert (Hparent : os_path_split (os_path_join d file_name) = Some (d, file_name)).
  { by rewrite os_path_split_join, Hsplit. }
  assert (Hne : os_path_join d file_name ≠ d) by (by apply join_ne).
  assert (Hpath : os_path_join d file_name ≠ t).
  { intros Heq. pose proof (under_join d file_name Hd Hfn) as Hu.
    rewrite Heq in Hu. congruence. }
  unfold _SendChangeSVN_try. cbv zeta. rewrite checkout_command_eq, Hname, Hdiff.
  fold file_name.
  erewrite bind_ok
    by (rewrite CheckCall_checkout; cbv zeta; rewrite Hnofault; reflexivity).
  erewrite bind_ok by reflexivity.
  erewrite bind_ok by apply existence_check.
  change (submission_file_name (user options) name_ (now w)) with file_name.
  set (full_url := default "" (svn_repo options) +:+ "/" +:+ file_name).
  match goal with
  | |- context [file_found w ?x full_url] =>
      destruct (file_found w x full_url) eqn:Hfound
  end.
  - assert (∃ content, repo s !! full_url = Some content) as [content Hc].
    { unfold file_found in Hfound. st_simpl.
      destruct (svn_fault w _); [done|].
      destruct (repo s !! full_url); [eauto | done]. }
    erewrite bind_ok; cycle 1.
    { erewrite bind_ok; cycle 1.
      { rewrite CheckCall_svn. cbv zeta. rewrite Hnofault, svn_run_update.
        rewrite wc_url_delivery, Hsplit by done. st_simpl.
        fold full_url. rewrite Hc. reflexivity. }
      eapply write_file_ok; [done | done |]. st_simpl.
      by rewrite lookup_insert_ne. }
    erewrite bind_ok by apply file_write_spec.
    unfold mbind, Py_bind.
    rewrite CheckCall_svn. cbv zeta. rewrite Hnofault, svn_run_commit.
    rewrite wc_url_delivery, Hsplit by done. st_simpl.
    rewrite lookup_insert_ne, !lookup_insert_eq by done.
    case_decide; eexists; reflexivity.
  - erewrite bind_ok; cycle 1.
    { erewrite bind_ok; cycle 1.
      { eapply write_file_ok; [done | done |]. st_simpl. exact Hdir. }
      erewrite bind_ok; cycle 1.
      { rewrite CheckCall_svn. cbv zeta. rewrite Hnofault, svn_run_add.
        rewrite wc_url_delivery, Hsplit by done. st_simpl.
        rewrite lookup_insert_eq. reflexivity. }
      reflexivity. }
    erewrite bind_ok by apply file_write_spec.
    unfold mbind, Py_bind.
    rewrite CheckCall_svn. cbv zeta. rewrite Hnofault, svn_run_commit.
    rewrite wc_url_delivery, Hsplit by done. st_simpl.
    rewrite lookup_insert_ne, !lookup_insert_eq by done.
    case_decide; eexists; reflexivity.
Qed.
End delivery.

(** A mediated delivery as a whole, the temporary names being new. *)
Lemma _SendChangeSVN_spec (w : World) (options : Options) (st : State) r st' :
  fresh_temp w st →
  relative options.(user) = true →
  _SendChangeSVN w options st = (r, st') →
  ∃ new, st'.(trace) = st.(trace) ++ new ∧
    (∀ name_, options.(name) = Some name_ →
       file_found w st (default "" options.(svn_repo) +:+ "/" +:+
                        submission_file_name options.(user) name_ w.(now)) = true →
       ∀ p, EvCall ["svn"; "add"; p] ∉ new) ∧
    match r with
    | Raise _ => st'.(repo) = st.(repo) ∧ st'.(revlog) = st.(revlog)
    | Ok _ =>
        ∃ name_ diff_,
          options.(name) = Some name_ ∧ options.(diff) = Some diff_ ∧
          let file_name := submission_file_name options.(user) name_ w.(now) in
          let full_url := default "" options.(svn_repo) +:+ "/" +:+ file_name in
          os_path_split file_name = None ∧
          new = delivery_events w options st name_ diff_ ∧
          st'.(repo) = <[full_url := diff_]> st.(repo) ∧
          st'.(revlog) = if decide (st.(repo) !! full_url = Some diff_)
                         then st.(revlog)
                         else st.(revlog) ++
                              [(full_url, description_of (_ParseSendChangeOptions options))]
    end.
Proof.
  intros (Hd & Hfresh & Htmp & Htd) Hrel Hrun.
  assert (Hnothing : ∀ x : State, trace x = trace st → repo x = repo st →
    revlog x = revlog st →
    ∃ new, trace x = trace st ++ new ∧
      (∀ name_, options.(name) = Some name_ →
         file_found w st (default "" options.(svn_repo) +:+ "/" +:+
                          submission_file_name options.(user) name_ w.(now)) = true →
         ∀ p, EvCall ["svn"; "add"; p] ∉ new) ∧
      repo x = repo st ∧ revlog x = revlog st).
  { intros x Htr Hre Hlog. exists []. rewrite app_nil_r. split; [done|].
    split; [|done]. intros ? _ _ p Hin. by apply elem_of_nil in Hin. }
  destruct (truthy (svn_repo options)) eqn:Hrepo.
  2:{ unfold _SendChangeSVN in Hrun. rewrite Hrepo in Hrun.
      unfold raise in Hrun. simplify_eq/=. by apply Hnothing. }
  destruct (mkdtemp_fault w) as [fault|] eqn:Hdir.
  { rewrite (_SendChangeSVN_no_directory w options st fault Hrepo Hdir) in Hrun.
    simplify_eq. by apply Hnothing. }
  destruct (NamedTemporaryFile_fault w) as [fault|] eqn:Hfile.
  { rewrite (_SendChangeSVN_no_file w options st fault Hrepo Hdir Hfile) in Hrun.
    simplify_eq. by apply Hnothing. }
  rewrite (_SendChangeSVN_run w options st Hrepo Hdir Hfile) in Hrun.
  cbv zeta in Hrun.
  unfold try_except in Hrun.
  destruct (_SendChangeSVN_try w options _ _ _ _) as [rb s1] eqn:Htry in Hrun.
  apply _SendChangeSVN_try_spec in Htry as (new & Htr & Hadd & Hr).
  - exists new.
    assert (trace st' = trace s1 ∧ repo st' = repo s1 ∧ revlog st' = revlog s1 ∧
            (match rb with Ok _ => r = rb | Raise _ => ∃ e, r = Raise e end))
      as (-> & -> & -> & Hres).
    { destruct rb as [[]|e]; [by simplify_eq/=|].
      destruct e; simplify_eq/=; eauto 10. }
    split_and!; [done..|].
    destruct rb as [[]|e]; [by subst r|]. by destruct Hres as [e' ->].
  - done.
  - done.
  - intros p Hp. by apply Hfresh.
  - cbn. apply lookup_insert_eq.
  - done.
Qed.

(** A mediated delivery returns when the temporary names are new, the
    options have a repository URL, a job name and a diff, the user and
    the job name have no separator, and nothing fails: neither [tempfile],
    nor [svn], nor [open]. *)
Lemma _SendChangeSVN_ok (w : World) (options : Options) (st : State)
    (name_ diff_ : string) :
  fresh_temp w st →
  truthy options.(svn_repo) = true →
  options.(name) = Some name_ →
  options.(diff) = Some diff_ →
  contains SEP options.(user) = false →
  contains SEP name_ = false →
  w.(mkdtemp_fault) = None →
  w.(NamedTemporaryFile_fault) = None →
  (∀ command, w.(svn_fault) command = None) →
  (∀ path, w.(open_fault) path = None) →
  ∃ st', _SendChangeSVN w options st = (Ok tt, st').
Proof.
  intros (Hd & Hfresh & Htmp & Htd) Hrepo Hname Hdiff Huser Hjob Hdir Hfile
    Hsvn Hopen.
  rewrite (_SendChangeSVN_run w options st Hrepo Hdir Hfile). cbv zeta.
  unfold try_except.
  edestruct (_SendChangeSVN_try_ok w options
    (set_fs (<[NamedTemporaryFile_name w := File ""]>
               (<[mkdtemp_name w := Dir]> (fs st))) st)) as [s' Hs'];
    [exact Hd | by apply relative_no_sep | | exact Htd | exact Hname | exact Hdiff
    | by apply os_path_split_None, submission_file_name_no_sep
    | exact Hsvn | apply Hopen | | ].
  - intros p Hp. by apply Hfresh.
  - cbn. rewrite lookup_insert_ne, lookup_insert_eq; [done|].
    intros Heq. rewrite <- Heq, under_refl in Htd. done.
  - rewrite Hs'. eexists. reflexivity.
Qed.

(** ** Mediated delivery: the commands it issues *)

Lemma svn_run_trace (command : list string) (st : State) :
  (svn_run command st).2.(trace) = st.(trace) ∧
  (svn_run command st).2.(the_options) = st.(the_options).
Proof. unfold svn_run. repeat case_match; done. Qed.

Lemma CheckCall_trace (w : World) (command : list string) (st : State) r st' :
  CheckCall w command st = (r, st') →
  st'.(trace) = st.(trace) ++ [EvCall command].
Proof.
  intros H. unfold CheckCall in H. py_unfold.
  destruct command as [|prog args]; [by simplify_eq|].
  destruct (String.eqb prog "svn").
  - destruct (svn_fault w (prog :: args)) as [[retcode out]|]; [by simplify_eq|].
    destruct (svn_run _ _) as [[out|retcode out] st1] eqn:E; simplify_eq; [|done].
    pose proof (svn_run_trace (prog :: args)
                  (set_trace (trace st ++ [EvCall (prog :: args)]) st)) as [Htr _].
    by rewrite E in Htr.
  - destruct (run w (prog :: args)); by simplify_eq.
Qed.

Section added.
Context (w : World) (tr0 : list Event) (P : list Event → Prop).
Hypothesis HP : ∀ new ev, P new → not_add ev → P (new ++ [ev]).

Lemma added_event (ev : Event) (st st' : State) :
  not_add ev → st'.(trace) = st.(trace) ++ [ev] →
  added tr0 P st → added tr0 P st'.
Proof.
  intros Hev Htr (new & Hnew & HPnew). exists (new ++ [ev]).
  split; [by rewrite Htr, Hnew, app_assoc | by apply HP].
Qed.

Lemma added_CheckCall (command : list string) :
  not_add (EvCall command) → preserves (added tr0 P) (CheckCall w command).
Proof.
  intros Hev st r st' Hrun. apply added_event with (EvCall command); [done|].
  by eapply CheckCall_trace.
Qed.

Lemma added_file_write (f data : string) :
  preserves (added tr0 P) (file_write f data).
Proof.
  intros st r st' Hrun. rewrite file_write_spec in Hrun. simplify_eq.
  by apply added_event with (EvWrite f data).
Qed.

Lemma added_write_file (path : string) (data : option string) :
  preserves (added tr0 P) (write_file w path data).
Proof.
  intros st r st' Hrun Hst. destruct data as [data|].
  - apply write_file_spec in Hrun as [(e & _ & ->) | [_ ->]]; [done|].
    destruct Hst as (new & Hnew & HPnew). exists (new ++ [EvWrite path data]).
    split; [cbn; by rewrite Hnew, app_assoc | by apply HP].
  - apply write_file_None_spec in Hrun as (_ & Htr & _).
    destruct Hst as (new & Hnew & HPnew). exists new. by rewrite Htr.
Qed.

(** What follows the update of a file that was found: the diff is
    written and committed. *)
Lemma added_found_tail (options : Options) (description d t full_path : string) :
  preserves (added tr0 P)
    (_ ← write_file w full_path options.(diff);
     _ ← file_write t description;
     _ ← CheckCall w ["svn"; "commit"; full_path; "--file"; t];
     mret tt).
Proof.
  apply preserves_bind; [apply added_write_file|]. intros _.
  apply preserves_bind; [apply added_file_write|]. intros _.
  apply preserves_bind; [by apply added_CheckCall|]. intros _.
  apply preserves_mret.
Qed.
End added.

Lemma no_add_closed (new : list Event) (ev : Event) :
  no_add new → not_add ev → no_add (new ++ [ev]).
Proof.
  intros Hnew Hev p Hin. apply elem_of_app in Hin as [Hin | Hin].
  - by apply (Hnew p).
  - apply list_elem_of_singleton in Hin. by apply (Hev p).
Qed.

(** When the existence check finds the file, the body of the [try]
    statement issues no [svn add], whatever the names are, and when it
    returns it has issued the [svn update] of the file. *)
Lemma _SendChangeSVN_try_found (w : World) (options : Options)
    (description d t : string) (s : State) r s' (name_ : string) :
  options.(name) = Some name_ →
  let file_name := submission_file_name options.(user) name_ w.(now) in
  let full_url := default "" options.(svn_repo) +:+ "/" +:+ file_name in
  file_found w s full_url = true →
  _SendChangeSVN_try w options description d t s = (r, s') →
  ∃ new, s'.(trace) = s.(trace) ++ new ∧ no_add new ∧
         (r = Ok tt → EvCall ["svn"; "update"; os_path_join d file_name] ∈ new).
Proof.
  intros Hname file_name full_url Hfound H.
  unfold _SendChangeSVN_try in H. cbv zeta in H.
  rewrite checkout_command_eq, Hname in H.
  subst full_url file_name.
  assert (Hcheckout : not_add (EvCall (checkout_command options d))).
  { intros p. unfold checkout_command. by destruct (truthy _). }
  assert (Hstart : added (trace s) no_add s).
  { exists []. rewrite app_nil_r. split; [done|]. intros p Hin.
    by apply elem_of_nil in Hin. }
  (* the checkout *)
  apply bind_inv in H as [(e & H & ->) | (out & s1 & Hstep & H)].
  { destruct (added_CheckCall w _ no_add no_add_closed _ Hcheckout _ _ _ H Hstart)
      as (new & Hnew & Hno).
    exists new. by split_and!. }
  assert (added (trace s) no_add s1 ∧ repo s1 = repo s) as [Hadded1 Hrepo1].
  { split.
    - by eapply (added_CheckCall w _ no_add no_add_closed _ Hcheckout).
    - rewrite CheckCall_checkout in Hstep. cbv zeta in Hstep.
      destruct (svn_fault w _) as [[rc o]|]; by simplify_eq. }
  (* the job name *)
  apply bind_inv in H as [(e & H & ->) | (? & ? & Hstep2 & H)]; [done|].
  unfold mret, Py_ret in Hstep2. injection Hstep2 as <- <-.
  set (file_name := submission_file_name (user options) name_ (now w)) in *.
  set (full_url := default "" (svn_repo options) +:+ "/" +:+ file_name) in *.
  set (full_path := os_path_join d file_name) in *.
  set (P1 := no_add) in *.
  set (P2 := λ new, no_add new ∧ EvCall ["svn"; "update"; full_path] ∈ new).
  assert (HP2 : ∀ new ev, P2 new → not_add ev → P2 (new ++ [ev])).
  { intros new ev [Hno Hin] Hev. split; [by apply no_add_closed|].
    apply elem_of_app. by left. }
  assert (Hend1 : ∀ x : State, added (trace s) P1 x → ∀ e,
    ∃ new, trace x = trace s ++ new ∧ no_add new ∧
           (Raise e = Ok tt → EvCall ["svn"; "update"; full_path] ∈ new)).
  { intros x (new & Hnew & Hno) e. exists new. by split_and!. }
  (* the existence check *)
  apply bind_inv in H as [(e & H & ->) | (found & s2 & Hstep3 & H)];
    rewrite existence_check in *; [by simplify_eq|].
  injection Hstep3 as <- <-.
  assert (file_found w s1 full_url = true) as Hfound1.
  { unfold file_found in *. by rewrite Hrepo1. }
  rewrite Hfound1 in H.
  assert (Hadded2 : added (trace s) P1
            (set_trace (trace s1 ++ [EvCall ["svn"; "ls"; full_url]]) s1)).
  { by apply (added_event _ _ no_add_closed (EvCall ["svn"; "ls"; full_url]) s1). }
  (* the update, and what follows it *)
  apply bind_inv in H as [(e & H & ->) | ([] & s3 & Hblock & H)].
  - apply Hend1. revert H Hadded2.
    apply (preserves_bind (added (trace s) P1));
      [apply added_CheckCall; [apply no_add_closed | done] | intros _].
    apply added_write_file. apply no_add_closed.
  - apply bind_inv in Hblock as [(e & _ & ?) | (? & s2' & Hup & Hwr)]; [done|].
    assert (added (trace s) P2 s2') as Hadded3.
    { destruct Hadded2 as (new & Hnew & Hno).
      exists (new ++ [EvCall ["svn"; "update"; full_path]]).
      apply CheckCall_trace in Hup. rewrite Hup, Hnew, app_assoc.
      split; [done|]. split; [by apply no_add_closed|].
      apply elem_of_app. right. apply list_elem_of_here. }
    assert (added (trace s) P2 s') as (new & Hnew & Hno & Hin).
    { eapply (preserves_bind (added (trace s) P2)
                (write_file w full_path (diff options))
                (λ _, _ ← file_write t description;
                      _ ← CheckCall w ["svn"; "commit"; full_path; "--file"; t];
                      mret tt));
        [by apply added_write_file | intros _ | | exact Hadded3].
      - apply preserves_bind; [by apply added_file_write|]. intros _.
        apply preserves_bind; [by apply added_CheckCall|]. intros _.
        apply preserves_mret.
      - unfold mbind at 1, Py_bind at 1. rewrite Hwr. exact H. }
    exists new. by split_and!.
Qed.

(** The same for the delivery as a whole. *)
Lemma _SendChangeSVN_found (w : World) (options : Options) (st : State) r st'
    (name_ : string) :
  options.(name) = Some name_ →
  let file_name := submission_file_name options.(user) name_ w.(now) in
  let full_url := default "" options.(svn_repo) +:+ "/" +:+ file_name in
  file_found w st full_url = true →
  _SendChangeSVN w options st = (r, st') →
  ∃ new, st'.(trace) = st.(trace) ++ new ∧ no_add new ∧
         (r = Ok tt →
          EvCall ["svn"; "update"; os_path_join w.(mkdtemp_name) file_name] ∈ new).
Proof.
  intros Hname file_name full_url Hfound Hrun.
  assert (Hnothing : ∀ (x : State) e, r = Raise e → trace x = trace st →
    ∃ new, trace x = trace st ++ new ∧ no_add new ∧
      (r = Ok tt →
       EvCall ["svn"; "update"; os_path_join w.(mkdtemp_name) file_name] ∈ new)).
  { intros x e -> Htr. exists []. rewrite app_nil_r. split_and!; [done| |done].
    intros p Hin. by apply elem_of_nil in Hin. }
  destruct (truthy (svn_repo options)) eqn:Hrepo.
  2:{ unfold _SendChangeSVN in Hrun. rewrite Hrepo in Hrun.
      unfold raise in Hrun. simplify_eq/=. by eapply Hnothing. }
  destruct (mkdtemp_fault w) as [fault|] eqn:Hdir.
  { rewrite (_SendChangeSVN_no_directory w options st fault Hrepo Hdir) in Hrun.
    simplify_eq. by eapply Hnothing. }
  destruct (NamedTemporaryFile_fault w) as [fault|] eqn:Hfile.
  { rewrite (_SendChangeSVN_no_file w options st fault Hrepo Hdir Hfile) in Hrun.
    simplify_eq. by eapply Hnothing. }
  rewrite (_SendChangeSVN_run w options st Hrepo Hdir Hfile) in Hrun.
  cbv zeta in Hrun. unfold try_except in Hrun.
  destruct (_SendChangeSVN_try w options _ _ _ _) as [rb s1] eqn:Htry in Hrun.
  eapply (_SendChangeSVN_try_found _ _ _ _ _ _ _ _ name_ Hname) in Htry
    as (new & Htr & Hno & Hup); [|exact Hfound].
  exists new.
  assert (trace st' = trace s1 ∧ (r = Ok tt → rb = Ok tt)) as [-> Hr].
  { destruct rb as [[]|e]; [by simplify_eq/=|].
    destruct e; simplify_eq/=; done. }
  split_and!; [done..|]. intros Hok. by apply Hup, Hr.
Qed.

(** ** The name of the submission file and the commit message *)

Lemma EscapeDot_spec (s : string) :
  String.length (EscapeDot s) = String.length s ∧
  contains "."%char (EscapeDot s) = false ∧
  ∀ i, String.get i (EscapeDot s)
       = (λ c, if Ascii.eqb c "."%char then "-"%char else c) <$> String.get i s.
Proof.
  unfold EscapeDot. induction s as [|c s (IHlen & IHdot & IHget)]; [done|].
  simpl. split_and!.
  - by rewrite IHlen.
  - rewrite IHdot. destruct (Ascii.eqb c "."%char) eqn:E; [done|].
    by rewrite E.
  - intros [|i]; [done|]. apply IHget.
Qed.

Lemma description_of_lines (values : gmap string PyVal) :
  description_of values
  = foldr String.append "" (description_line <$> map_to_list values).
Proof.
  unfold description_of.
  assert (∀ l acc,
    foldl (λ description kv, description +:+ description_line kv) acc l
    = acc +:+ foldr String.append "" (description_line <$> l)) as H.
  { induction l as [|kv l IH]; intros acc; simpl.
    - by rewrite append_nil_r.
    - by rewrite IH, append_assoc. }
  by rewrite H.
Qed.
(** ** Mediated delivery: the claims *)

(** C6, as the code has it. When the user and the job name have no
    separator and nothing fails (the temporary names are new, [tempfile],
    [svn] and [open] meet no error), a mediated delivery of a diff under a
    job name returns; it writes the diff to the file
    [<user>.<jobname>.<timestamp>.diff] of the checkout, where the user and
    the job name have every [.] replaced by [-] and are otherwise
    unchanged, writes to the temporary file one line [key=value] per field
    of the payload, and commits the one with the other as its message, so
    that the repository holds the diff under that name. *)
Theorem C6_submission_file (w : World) (options : Options) (st : State)
    (name_ diff_ : string) :
  fresh_temp w st →
  truthy options.(svn_repo) = true →
  options.(name) = Some name_ →
  options.(diff) = Some diff_ →
  contains "/"%char options.(user) = false →
  contains "/"%char name_ = false →
  w.(mkdtemp_fault) = None →
  w.(NamedTemporaryFile_fault) = None →
  (∀ command, w.(svn_fault) command = None) →
  (∀ path, w.(open_fault) path = None) →
  let dash := λ c : ascii, if Ascii.eqb c "."%char then "-"%char else c in
  let timestamp := replace ":"%char "."%char (datetime_str w.(now)) in
  let file_name := EscapeDot options.(user) +:+ "." +:+ EscapeDot name_ +:+
                   "." +:+ timestamp +:+ ".diff" in
  let full_path := w.(mkdtemp_name) +:+ "/" +:+ file_name in
  let full_url := default "" options.(svn_repo) +:+ "/" +:+ file_name in
  let values := _ParseSendChangeOptions options in
  let line := λ kv : string * PyVal,
                kv.1 +:+ "=" +:+ py_str kv.2 +:+ String LF "" in
  let message := foldr String.append "" (line <$> map_to_list values) in
  ∃ st',
    _SendChangeSVN w options st = (Ok tt, st') ∧
    contains "."%char (EscapeDot options.(user)) = false ∧
    contains "."%char (EscapeDot name_) = false ∧
    (∀ i, String.get i (EscapeDot options.(user)) = dash <$> String.get i options.(user)) ∧
    (∀ i, String.get i (EscapeDot name_) = dash <$> String.get i name_) ∧
    (∃ before,
       st'.(trace) = st.(trace) ++ before ++
         [EvWrite w.(NamedTemporaryFile_name) message;
          EvCall ["svn"; "commit"; full_path; "--file"; w.(NamedTemporaryFile_name)]] ∧
       EvWrite full_path diff_ ∈ before) ∧
    st'.(repo) !! full_url = Some diff_ ∧
    (st.(repo) !! full_url ≠ Some diff_ →
       st'.(revlog) = st.(revlog) ++ [(full_url, message)]) ∧
    (∀ k v, (k, v) ∈ map_to_list values ↔ values !! k = Some v) ∧
    NoDup (map_to_list values).*1.
Proof.
  intros Hfresh Hrepo_ Hname Hdiff Huser Hjob Hdir Hfile Hsvn Hopen.
  destruct (_SendChangeSVN_ok w options st name_ diff_) as [st' Hrun]; [done..|].
  pose proof (relative_no_sep _ Huser) as Hrel.
  destruct (_SendChangeSVN_spec w options st _ _ Hfresh Hrel Hrun)
    as (new & Htr & _ & name' & diff' & Hname' & Hdiff' & _ & Hnew & Hrepo & Hlog).
  assert (name' = name_) as -> by congruence.
  assert (diff' = diff_) as -> by congruence.
  exists st'. cbv zeta.
  change (λ kv : string * PyVal, kv.1 +:+ "=" +:+ py_str kv.2 +:+ String LF "")
    with description_line.
  rewrite <- description_of_lines.
  destruct (EscapeDot_spec (user options)) as (_ & Hu1 & Hu2).
  destruct (EscapeDot_spec name_) as (_ & Hn1 & Hn2).
  assert (Hpath : os_path_join (mkdtemp_name w)
                    (submission_file_name (user options) name_ (now w))
                  = mkdtemp_name w +:+ "/" +:+
                    submission_file_name (user options) name_ (now w)).
  { apply os_path_join_rel; [by destruct Hfresh|].
    by rewrite relative_submission_file_name. }
  split_and!; try done.
  - rewrite Htr, Hnew. unfold delivery_events. rewrite Hpath.
    eexists (_ ++ _). rewrite <- (app_assoc _ _ [_; _]). split; [reflexivity|].
    destruct (file_found w st _); set_solver.
  - rewrite Hrepo. apply lookup_insert_eq.
  - intros Hne. rewrite Hlog. by case_decide.
  - intros k v. apply elem_of_map_to_list.
  - apply NoDup_fst_map_to_list.
Qed.

Lemma C6_submission_file_witness :
  let w := demo_world no_settings (λ _, None) demo_now (UrlOpened None) no_git in
  let st := start_state "/src" ∅ ∅ in
  ∃ st', _SendChangeSVN w demo_options st = (Ok tt, st') ∧
    st'.(repo) !! "svn://svn/try/joe-smith.fix-1.2009-10-05 14.23.11.diff"
      = Some "Index: a.cc" ∧
    st'.(revlog)
      = [("svn://svn/try/joe-smith.fix-1.2009-10-05 14.23.11.diff",
          demo_message)].
Proof.
  cbv zeta.
  destruct (C6_submission_file
              (demo_world no_settings (λ _, None) demo_now (UrlOpened None) no_git)
              demo_options (start_state "/src" ∅ ∅) "fix.1" "Index: a.cc")
    as (st' & Hrun & _ & _ & _ & _ & _ & Hrepo & Hlog & _);
    try reflexivity.
  - split_and!; [reflexivity| |reflexivity|reflexivity].
    intros p _. split; apply lookup_empty.
  - exists st'. split; [done|]. split; [exact Hrepo|].
    rewrite Hlog by done. vm_compute. reflexivity.
Defined.

(** C6 as stated does not hold for every job name: under the job name
    [feature/foo] the submission file would lie in a directory
    [joe-smith.feature] of the checkout, which does not exist; [open]
    fails, the delivery ends in an [IOError], nothing is written and
    nothing is committed. *)
Lemma C6_counterexample :
  let w := demo_world no_settings (λ _, None) demo_now (UrlOpened None) no_git in
  let st := start_state "/src" ∅ ∅ in
  let options := set_name (Some "feature/foo") demo_options in
  fresh_temp w st ∧
  submission_file_name options.(user) "feature/foo" w.(now)
  = "joe-smith.feature/foo.2009-10-05 14.23.11.diff" ∧
  (_SendChangeSVN w options st).1
  = Raise (IOError [PyInt 2; PyStr "No such file or directory"]) ∧
  (_SendChangeSVN w options st).2.(repo) = st.(repo) ∧
  (_SendChangeSVN w options st).2.(revlog) = [] ∧
  ∀ path data, EvWrite path data ∉ (_SendChangeSVN w options st).2.(trace).
Proof.
  cbv zeta. split_and!; try (vm_compute; reflexivity).
  - split_and!; [reflexivity| |reflexivity|reflexivity].
    intros p _. split; apply lookup_empty.
  - intros path data Hin. vm_compute in Hin.
    repeat (apply elem_of_cons in Hin as [Hin | Hin]; [discriminate|]).
    by apply elem_of_nil in Hin.
Qed.

(** C5, as the code has it. If the existence check finds the file name in
    the repository, a mediated delivery never issues [svn add] (it updates
    the file and writes over it) and, for a user name that does not begin
    with the separator, the repository holds the same names after it as
    before and, when the delivery succeeds, the diff under that name. The
    file name carries the whole clock reading, microseconds included: for
    such a user name, a second delivery with the same options whose clock
    reading is identical in every field, made after one that succeeded,
    leaves the repository and its log as they are, and issues no [svn add]
    when its existence check runs without a fault. *)
Theorem C5_update_in_place (w : World) (options : Options) (st : State) r st' :
  fresh_temp w st →
  _SendChangeSVN w options st = (r, st') →
  (∀ name_,
     options.(name) = Some name_ →
     let file_name := submission_file_name options.(user) name_ w.(now) in
     let full_url := default "" options.(svn_repo) +:+ "/" +:+ file_name in
     file_found w st full_url = true →
     (∃ new, st'.(trace) = st.(trace) ++ new ∧
             (∀ p, EvCall ["svn"; "add"; p] ∉ new) ∧
             (r = Ok tt →
              EvCall ["svn"; "update"; os_path_join w.(mkdtemp_name) file_name] ∈ new)) ∧
     (relative options.(user) = true →
      dom st'.(repo) = dom st.(repo) ∧
      (r = Ok tt → ∃ diff_, options.(diff) = Some diff_ ∧
                    st'.(repo) = <[full_url := diff_]> st.(repo)))) ∧
  (relative options.(user) = true →
   r = Ok tt →
   ∀ w2 r2 st2,
     w2.(now) = w.(now) →
     fresh_temp w2 st' →
     _SendChangeSVN w2 options st' = (r2, st2) →
     st2.(repo) = st'.(repo) ∧ st2.(revlog) = st'.(revlog) ∧
     (∀ name_, options.(name) = Some name_ →
        w2.(svn_fault) ["svn"; "ls"; default "" options.(svn_repo) +:+ "/" +:+
                         submission_file_name options.(user) name_ w.(now)] = None →
        ∃ new, st2.(trace) = st'.(trace) ++ new ∧
               ∀ p, EvCall ["svn"; "add"; p] ∉ new)).
Proof.
  intros Hfresh Hrun. split.
  - intros name_ Hname file_name full_url Hfound. split.
    { exact (_SendChangeSVN_found w options st r st' name_ Hname Hfound Hrun). }
    intros Hrel.
    destruct (_SendChangeSVN_spec w options st _ _ Hfresh Hrel Hrun)
      as (new & Htr & Hadd & Hr).
    destruct r as [[]|e].
    2:{ destruct Hr as [-> _]. by split. }
    destruct Hr as (name' & diff_ & Hname' & Hdiff & _ & Hnew & Hrepo & _).
    assert (name' = name_) as -> by congruence.
    fold file_name full_url in Hnew, Hrepo. split.
    + rewrite Hrepo, dom_insert_L.
      apply subseteq_union_1_L, singleton_subseteq_l.
      apply elem_of_dom. unfold file_found in Hfound.
      destruct (svn_fault w _); [done|]. by destruct (repo st !! full_url).
    + eauto.
  - intros Hrel -> w2 r2 st2 Hnow Hfresh2 Hrun2.
    destruct (_SendChangeSVN_spec w options st _ _ Hfresh Hrel Hrun)
      as (new & Htr & Hadd & Hr).
    destruct Hr as (name_ & diff_ & Hname & Hdiff & _ & _ & Hrepo & _).
    assert (repo st' !! (default "" (svn_repo options) +:+ "/" +:+
              submission_file_name (user options) name_ (now w)) = Some diff_) as Hthere.
    { rewrite Hrepo. apply lookup_insert_eq. }
    destruct (_SendChangeSVN_spec w2 options st' _ _ Hfresh2 Hrel Hrun2)
      as (new2 & Htr2 & Hadd2 & Hr2).
    rewrite Hnow in Hadd2, Hr2.
    split_and!.
    + destruct r2 as [[]|e]; [|by destruct Hr2].
      destruct Hr2 as (name' & diff' & Hname' & Hdiff' & _ & _ & -> & _).
      assert (name' = name_) as -> by congruence.
      assert (diff' = diff_) as -> by congruence.
      by apply insert_id.
    + destruct r2 as [[]|e]; [|by destruct Hr2].
      destruct Hr2 as (name' & diff' & Hname' & Hdiff' & _ & _ & _ & ->).
      assert (name' = name_) as -> by congruence.
      assert (diff' = diff_) as -> by congruence.
      by case_decide.
    + intros name' Hname' Hfault. exists new2. split; [done|].
      apply (Hadd2 name' Hname'). unfold file_found. rewrite Hfault.
      assert (name' = name_) as -> by congruence. by rewrite Hthere.
Qed.

Lemma C5_update_in_place_witness :
  let w := demo_world no_settings (λ _, None) demo_now (UrlOpened None) no_git in
  let st := start_state "/src" ∅ ∅ in
  let st1 := (_SendChangeSVN w demo_options st).2 in
  let st2 := (_SendChangeSVN w demo_options st1).2 in
  (_SendChangeSVN w demo_options st).1 = Ok tt ∧
  st2.(repo) = st1.(repo) ∧ st2.(revlog) = st1.(revlog).
Proof.
  cbv zeta. split; [vm_compute; reflexivity|].
  set (w := demo_world no_settings (λ _, None) demo_now (UrlOpened None) no_git).
  set (st := start_state "/src" ∅ ∅).
  set (st1 := (_SendChangeSVN w demo_options st).2).
  assert (Hfs : fs st1 = ∅) by (vm_compute; reflexivity).
  assert (Hwcs : wcs st1 = ∅) by (vm_compute; reflexivity).
  destruct (C5_update_in_place w demo_options st (Ok tt) st1) as [_ Hagain].
  - split_and!; [reflexivity| |reflexivity|reflexivity].
    intros p _. split; apply lookup_empty.
  - vm_compute. reflexivity.
  - destruct (Hagain eq_refl eq_refl w (_SendChangeSVN w demo_options st1).1
                (_SendChangeSVN w demo_options st1).2) as (Hrepo & Hlog & _).
    + reflexivity.
    + split_and!; [reflexivity| |by rewrite Hfs|reflexivity].
      intros p _. rewrite Hfs, Hwcs. split; apply lookup_empty.
    + by destruct (_SendChangeSVN w demo_options st1).
    + by split.
Defined.

(** C5 as stated does not hold. The file name carries the
    microseconds of the clock reading, so two deliveries of the same diff
    by the same user under the same job name whose clock readings agree to
    the second, but not in the microseconds, go to two different file names:
    the second delivery issues [svn add] and the repository holds one
    object more. And a file name found in the repository is not always
    the one written: for the user name [/wc/joe] the submission file is
    [/wc/joe.fix-1.<timestamp>.diff], outside the checkout; when [/wc] is
    a working copy of another directory of the repository that has a file
    of that name, the delivery succeeds, it is that file which is updated
    and committed, and the name that was found keeps its old content. *)
Lemma C5_counterexample :
  let w1 := demo_world no_settings (λ _, None) clock_a (UrlOpened None) no_git in
  let w2 := demo_world no_settings (λ _, None) clock_b (UrlOpened None) no_git in
  let st := start_state "/src" ∅ ∅ in
  let st1 := (_SendChangeSVN w1 demo_options st).2 in
  let st2 := (_SendChangeSVN w2 demo_options st1).2 in
  let w := demo_world no_settings (λ _, None) demo_now (UrlOpened None) no_git in
  let options := set_user "/wc/joe" demo_options in
  let full_url := "svn://svn/try//wc/joe.fix-1.2009-10-05 14.23.11.diff" in
  let other_url := "svn://svn/other/joe.fix-1.2009-10-05 14.23.11.diff" in
  let st3 := set_wcs (<["/wc" := "svn://svn/other"]> ∅)
               (start_state "/src" (<["/wc" := Dir]> ∅)
                  (<[full_url := "old"]> (<[other_url := "theirs"]> ∅))) in
  ((clock_a.(year), clock_a.(month), clock_a.(day),
    clock_a.(hour), clock_a.(minute), clock_a.(second))
   = (clock_b.(year), clock_b.(month), clock_b.(day),
      clock_b.(hour), clock_b.(minute), clock_b.(second)) ∧
   submission_file_name "joe.smith" "fix.1" clock_a
   = "joe-smith.fix-1.2009-10-05 14.23.11.000001.diff" ∧
   (_SendChangeSVN w1 demo_options st).1 = Ok tt ∧
   (_SendChangeSVN w2 demo_options st1).1 = Ok tt ∧
   size st1.(repo) = 1%nat ∧
   size st2.(repo) = 2%nat ∧
   EvCall ["svn"; "add";
           "/tmp/tmpXk2/joe-smith.fix-1.2009-10-05 14.23.11.000002.diff"]
     ∈ drop (length st1.(trace)) st2.(trace)) ∧
  (fresh_temp w st3 ∧
   default "" options.(svn_repo) +:+ "/" +:+
     submission_file_name options.(user) "fix.1" w.(now) = full_url ∧
   file_found w st3 full_url = true ∧
   (_SendChangeSVN w options st3).1 = Ok tt ∧
   (_SendChangeSVN w options st3).2.(repo) !! full_url = Some "old" ∧
   (_SendChangeSVN w options st3).2.(repo) !! other_url = Some "Index: a.cc").
Proof.
  cbv zeta. split.
  - split_and!; try (vm_compute; reflexivity).
    vm_compute. repeat first [apply list_elem_of_here | apply list_elem_of_further].
  - unfold fresh_temp. split_and!; try (vm_compute; reflexivity).
    intros p Hp. split; [|].
    + cbn. apply lookup_insert_None. split; [apply lookup_empty|].
      intros <-. vm_compute in Hp. discriminate.
    + cbn. apply lookup_insert_None. split; [apply lookup_empty|].
      intros <-. vm_compute in Hp. discriminate.
Qed.

(** * Further properties of the code *)

(** ** Direct delivery: errors and proxies *)

(** Without a host, or with a host and without a port,
    [_SendChangeHTTP] raises [NoTryServerAccess] naming the missing option
    and does nothing else: no request is made and the state is untouched. *)
Lemma http_needs_host_and_port (w : World) (options : Options) (st : State) :
  (truthy options.(host) = false →
   _SendChangeHTTP w options st
   = (Raise (NoTryServerAccess
        "Please use the --host option to specify the try server host to connect to."),
      st)) ∧
  (truthy options.(host) = true → truthy options.(port) = false →
   _SendChangeHTTP w options st
   = (Raise (NoTryServerAccess
        "Please use the --port option to specify the try server port to connect to."),
      st)).
Proof.
  split.
  - intros Hhost. unfold _SendChangeHTTP. by rewrite Hhost.
  - intros Hhost Hport. unfold _SendChangeHTTP. by rewrite Hhost, Hport.
Qed.

Lemma http_needs_host_and_port_witness :
  ∃ msg,
    _SendChangeHTTP
      (demo_world no_settings (λ _, None) demo_now (UrlOpened (Some "OK")) no_git)
      (set_send_patch None
         (parse_args
            (demo_world no_settings (λ _, None) demo_now (UrlOpened (Some "OK")) no_git)
            {| s_http_port := None; s_http_host := None; s_svn_repo := None;
               default_project := None; default_root := None;
               default_patchlevel := 0; default_transport := None |}
            None None no_cli))
      (start_state "/src" ∅ ∅)
    = (Raise (NoTryServerAccess msg), start_state "/src" ∅ ∅).
Proof.
  eexists.
  apply (proj1 (http_needs_host_and_port
           (demo_world no_settings (λ _, None) demo_now (UrlOpened (Some "OK")) no_git)
           _ _)).
  reflexivity.
Defined.

(** X1. The one request of [_SendChangeHTTP] carries no proxy mapping when
    [--proxy] is absent or empty, an empty mapping (which disables the
    ambient proxies) when it is [none] in any letter case, and otherwise
    the given proxy for both [http] and [https]. *)
Theorem http_proxy_choice (w : World) (options : Options) (st : State) :
  truthy options.(host) = true →
  truthy options.(port) = true →
  ∃ url data proxies,
    (_SendChangeHTTP w options st).2.(trace)
      = st.(trace) ++ [EvUrlopen url data proxies] ∧
    (truthy options.(proxy) = false → proxies = None) ∧
    (∀ p, options.(proxy) = Some p → truthy p = true →
          (lower p = "none" → proxies = Some ∅) ∧
          (lower p ≠ "none" →
             proxies = Some (<["http" := p]> (<["https" := p]> ∅)) ∧
             ∀ scheme, scheme = "http" ∨ scheme = "https" →
                       proxies ≫= (.!! scheme) = Some p)).
Proof.
  intros Hhost Hport. rewrite http_request by done. cbv zeta.
  eexists _, _, (http_proxies options). split_and!.
  - by repeat case_match.
  - unfold http_proxies. by destruct (proxy options) as [[|c p]|].
  - intros p Hp Htruthy. unfold http_proxies. rewrite Hp.
    destruct p as [|c p]; [done|]. split.
    + intros Hnone. by rewrite Hnone.
    + intros Hnone. apply String.eqb_neq in Hnone. rewrite Hnone.
      split; [done|]. by intros scheme [-> | ->].
Qed.

Lemma http_proxy_choice_witness :
  lower "NoNe" = "none" ∧
  ∃ url data,
    (_SendChangeHTTP
       (demo_world no_settings (λ _, None) demo_now (UrlOpened (Some "OK")) no_git)
       demo_options (start_state "/src" ∅ ∅)).2.(trace)
    = [EvUrlopen url data None].
Proof.
  split; [reflexivity|].
  destruct (http_proxy_choice
              (demo_world no_settings (λ _, None) demo_now (UrlOpened (Some "OK")) no_git)
              demo_options (start_state "/src" ∅ ∅) eq_refl eq_refl)
    as (url & data & proxies & Htrace & Hnone & _).
  exists url, data. rewrite Htrace, (Hnone eq_refl). reflexivity.
Defined.

Lemma Raise_NoTryServerAccess_inj {A : Type} (a b : string) :
  (Raise (NoTryServerAccess a) : Res A) = Raise (NoTryServerAccess b) → a = b.
Proof. intros H. by injection H. Qed.

Lemma payload_bot_truthy (options : Options) :
  truthy ((<["patch" := to_py options.(diff)]> (_ParseSendChangeOptions options)) !! "bot")
  = truthy (join "," (default [] options.(bot))).
Proof.
  rewrite lookup_insert_ne by done. rewrite payload_bot.
  destruct (bot options) as [[|b l]|]; done.
Qed.

(** X2. When the connection fails with an [IOError], the message of the
    [NoTryServerAccess] raised suggests a bad [--bot] argument exactly when
    the comma-joined bot list is not empty and the third argument of the
    error is [got a bad status line]; in every other case it gives the
    reason. *)
Theorem http_bad_status_line (w : World) (options : Options) (st : State)
    (args : list PyVal) :
  truthy options.(host) = true →
  truthy options.(port) = true →
  w.(urlopen_result) (send_try_patch_url options)
    (Some (w.(urlencode) (<["patch" := to_py options.(diff)]>
                            (_ParseSendChangeOptions options))))
    (http_proxies options) = UrlIOError args →
  let hint := send_try_patch_url options +:+ " is unaccessible. Bad --bot argument?" in
  ((_SendChangeHTTP w options st).1 = Raise (NoTryServerAccess hint) ↔
     join "," (default [] options.(bot)) ≠ "" ∧
     args !! 2%nat = Some (PyStr "got a bad status line")) ∧
  ((_SendChangeHTTP w options st).1 ≠ Raise (NoTryServerAccess hint) →
     ∃ reason, (_SendChangeHTTP w options st).1
               = Raise (NoTryServerAccess
                   (send_try_patch_url options +:+ " is unaccessible. Reason: " +:+ reason))).
Proof.
  intros Hhost Hport Hres hint. rewrite http_request by done. cbv zeta.
  rewrite Hres, payload_bot_truthy. cbn [fst].
  assert (Hne : ∀ reason,
    send_try_patch_url options +:+ " is unaccessible. Reason: " +:+ reason ≠ hint).
  { intros reason Heq. apply String.app_inj in Heq. discriminate. }
  destruct (truthy (join "," (default [] (bot options)))) eqn:Hbot.
  - destruct (2 <? length args)%nat eqn:Hlen.
    + destruct (decide (args !! 2%nat = Some (PyStr "got a bad status line"))) as [Harg|Harg].
      * rewrite bool_decide_true by done. cbn. split; [|done].
        split; [|done]. intros _. split; [|done].
        intros Hj. by rewrite Hj in Hbot.
      * rewrite bool_decide_false by done. cbn. split; [|eauto].
        split; [intros Heq%Raise_NoTryServerAccess_inj; by apply Hne in Heq | tauto].
    + cbn. split; [|eauto].
      split; [intros Heq%Raise_NoTryServerAccess_inj; by apply Hne in Heq|].
      intros [_ Harg]. apply Nat.ltb_ge in Hlen.
      apply lookup_lt_Some in Harg. lia.
  - cbn. split; [|eauto].
    split; [intros Heq%Raise_NoTryServerAccess_inj; by apply Hne in Heq|].
    intros [Hj _]. destruct (join "," _); done.
Qed.

Lemma http_bad_status_line_witness :
  (_SendChangeHTTP
     (demo_world no_settings (λ _, None) demo_now
        (UrlIOError [PyStr "http protocol error"; PyInt 0;
                     PyStr "got a bad status line"; PyNone]) no_git)
     demo_options (start_state "/src" ∅ ∅)).1
  = Raise (NoTryServerAccess
      "http://tryserver:8018/send_try_patch is unaccessible. Bad --bot argument?").
Proof.
  apply (http_bad_status_line
           (demo_world no_settings (λ _, None) demo_now
              (UrlIOError [PyStr "http protocol error"; PyInt 0;
                           PyStr "got a bad status line"; PyNone]) no_git)
           demo_options (start_state "/src" ∅ ∅)
           [PyStr "http protocol error"; PyInt 0;
            PyStr "got a bad status line"; PyNone]);
    [reflexivity | reflexivity | reflexivity |].
  split; [discriminate | reflexivity].
Defined.

(** ** Which exceptions a computation raises *)

Section raises_only.
Context {A B : Type} (P : exn → Prop).

Lemma raises_only_mret (a : A) : raises_only P (mret a).
Proof. intros st e st' H. done. Qed.

Lemma raises_only_raise (e : exn) : P e → raises_only P (raise e : Py A).
Proof. intros He st e' st' [= <- <-]. done. Qed.

Lemma raises_only_modify (f : State → State) : raises_only P (modify f).
Proof. intros st e st' H. done. Qed.

Lemma raises_only_get_state : raises_only P get_state.
Proof. intros st e st' H. done. Qed.

Lemma raises_only_bind (m : Py A) (f : A → Py B) :
  raises_only P m → (∀ a, raises_only P (f a)) → raises_only P (m ≫= f).
Proof.
  intros Hm Hf st e st' Hrun. unfold mbind, Py_bind in Hrun.
  destruct (m st) as [[a|e'] st1] eqn:E.
  - by eapply Hf.
  - simplify_eq. by eapply Hm.
Qed.

Lemma raises_only_try_except (Q : exn → Prop) (m : Py A)
    (handler : exn → option (Py A)) :
  raises_only Q m →
  (∀ e, Q e → match handler e with
              | Some h => raises_only P h
              | None => P e
              end) →
  raises_only P (try_except m handler).
Proof.
  intros Hm Hh st e st' Hrun. unfold try_except in Hrun.
  destruct (m st) as [[a|e'] st1] eqn:E; [done|].
  specialize (Hh e' (Hm _ _ _ E)).
  destruct (handler e') as [h|]; [by eapply Hh | by simplify_eq].
Qed.

Lemma raises_only_try_finally (m : Py A) (fin : Py unit) :
  raises_only P m → raises_only P fin → raises_only P (try_finally m fin).
Proof.
  intros Hm Hfin st e st' Hrun. unfold try_finally in Hrun.
  destruct (m st) as [r st1] eqn:E.
  destruct (fin st1) as [[[]|e'] st2] eqn:E'; simplify_eq.
  - by eapply Hm.
  - by eapply Hfin.
Qed.
End raises_only.

Lemma raises_only_emit (P : exn → Prop) (ev : Event) : raises_only P (emit ev).
Proof. apply raises_only_modify. Qed.

Lemma raises_only_CheckCall (w : World) (command : list string) :
  raises_only (λ e, ∃ c retcode out, e = CheckCallError c retcode out)
    (CheckCall w command).
Proof.
  intros st e st' H. unfold CheckCall in H. py_unfold.
  repeat case_match; simplify_eq; eauto.
Qed.

Lemma raises_only_weaken {A : Type} (P Q : exn → Prop) (m : Py A) :
  (∀ e, P e → Q e) → raises_only P m → raises_only Q m.
Proof. intros HPQ Hm st e st' H. eapply HPQ, Hm, H. Qed.

Lemma raises_only_file_write (P : exn → Prop) (f data : string) :
  raises_only P (file_write f data).
Proof. intros st e st' H. by rewrite file_write_spec in H. Qed.

Lemma raises_only_write_file (w : World) (path : string) (data : option string) :
  raises_only (λ e, (∃ args, e = IOError args) ∨ (e = TypeError ∧ data = None))
    (write_file w path data).
Proof.
  intros st e st' H. unfold write_file, open_wb, file_write in H. py_unfold.
  repeat case_match; simplify_eq; eauto.
Qed.

(** ** Mediated delivery: errors *)

Lemma raises_only_SendChangeSVN_try (w : World) (options : Options)
    (description temp_dir temp_file : string) :
  raises_only (λ e, (∃ c retcode out, e = CheckCallError c retcode out) ∨
                    svn_delivery_error options e)
    (_SendChangeSVN_try w options description temp_dir temp_file).
Proof.
  unfold _SendChangeSVN_try, svn_delivery_error. cbv zeta.
  pose proof (λ c, raises_only_weaken _
    (λ e, (∃ c retcode out, e = CheckCallError c retcode out) ∨
          svn_delivery_error options e) _
    (λ e H, or_introl H) (raises_only_CheckCall w c)) as Hcall.
  assert (Hwrite : ∀ path, raises_only
    (λ e, (∃ c retcode out, e = CheckCallError c retcode out) ∨
          svn_delivery_error options e) (write_file w path (diff options))).
  { intros path. eapply raises_only_weaken; [|apply raises_only_write_file].
    unfold svn_delivery_error. intros e [H|H]; eauto 10. }
  unfold svn_delivery_error in *.
  apply raises_only_bind; [apply Hcall|]. intros _.
  apply raises_only_bind.
  { destruct (name options) eqn:Hn; [apply raises_only_mret|].
    apply raises_only_raise. eauto 10. }
  intros name_. apply raises_only_bind.
  { eapply raises_only_try_except.
    - apply raises_only_bind; [apply raises_only_CheckCall|].
      intros; apply raises_only_mret.
    - intros e (c & rc & o & ->). apply raises_only_mret. }
  intros [|].
  - apply raises_only_bind.
    { apply raises_only_bind; [apply Hcall | intros; apply Hwrite]. }
    intros _. apply raises_only_bind; [apply raises_only_file_write|].
    intros _. apply raises_only_bind; [apply Hcall | intros; apply raises_only_mret].
  - apply raises_only_bind.
    { apply raises_only_bind; [apply Hwrite|]. intros _.
      apply raises_only_bind; [apply Hcall | intros; apply raises_only_mret]. }
    intros _. apply raises_only_bind; [apply raises_only_file_write|].
    intros _. apply raises_only_bind; [apply Hcall | intros; apply raises_only_mret].
Qed.

Lemma raises_only_SendChangeSVN (w : World) (options : Options) :
  raises_only (svn_delivery_error options) (_SendChangeSVN w options).
Proof.
  unfold _SendChangeSVN.
  destruct (negb (truthy (svn_repo options))).
  { apply raises_only_raise. left. eauto. }
  cbv zeta. unfold mkdtemp, NamedTemporaryFile.
  assert (Hfault : ∀ fault, svn_delivery_error options (temp_exn fault)).
  { intros [args|args]; unfold svn_delivery_error; cbn; eauto 10. }
  apply raises_only_bind.
  { destruct (mkdtemp_fault w); [by apply raises_only_raise|].
    apply raises_only_bind; [apply raises_only_modify | intros; apply raises_only_mret]. }
  intros temp_dir. apply raises_only_bind.
  { destruct (NamedTemporaryFile_fault w); [by apply raises_only_raise|].
    apply raises_only_bind; [apply raises_only_modify | intros; apply raises_only_mret]. }
  intros temp_file. apply raises_only_try_finally.
  - eapply raises_only_try_except; [apply raises_only_SendChangeSVN_try|].
    intros e0 [(c & rc & o & ->) | H0]; cbn.
    + apply raises_only_raise. left. eauto.
    + destruct H0 as [[msg ->] | [[args ->] | [[-> ?] | [[-> ?] | [args ->]]]]]; cbn;
        unfold svn_delivery_error; eauto 10.
  - unfold _SendChangeSVN_finally, temp_file_close, rmtree.
    apply raises_only_bind; [apply raises_only_modify|].
    intros; apply raises_only_modify.
Qed.

(** X3. A mediated delivery never ends in a [CheckCallError]: a failing
    command surfaces as [NoTryServerAccess]. The only other exceptions it
    can end in are an [IOError] from opening the diff file or from
    [tempfile], an [OSError] from [tempfile], an [AttributeError] when the
    job name is [None] and a [TypeError] when the diff is [None]. *)
Theorem svn_delivery_errors (w : World) (options : Options) (st st' : State)
    (e : exn) :
  _SendChangeSVN w options st = (Raise e, st') →
  svn_delivery_error options e ∧
  ∀ command retcode out, e ≠ CheckCallError command retcode out.
Proof.
  intros Hrun.
  pose proof (raises_only_SendChangeSVN w options _ _ _ Hrun) as He.
  split; [done|]. intros command retcode out ->.
  destruct He as [[msg ?] | [[args ?] | [[? _] | [[? _] | [args ?]]]]]; done.
Qed.

Lemma svn_delivery_errors_witness :
  svn_delivery_error (set_diff None demo_options) TypeError.
Proof.
  eapply (proj1 (svn_delivery_errors
    (demo_world no_settings (λ _, None) demo_now (UrlOpened None) no_git)
    (set_diff None demo_options) (start_state "/src" ∅ ∅) _ TypeError _)).
  Unshelve. 2: vm_compute; reflexivity.
Defined.

(** X4. When the temporary directory and file have been made and the
    checkout fails, the delivery raises [NoTryServerAccess]
    whose message is the command line, [Ouput:] and the captured output;
    the checkout is the only command run and the repository is untouched. *)
Theorem svn_checkout_failure (w : World) (options : Options) (st : State)
    (retcode : Z) (out : string) :
  truthy options.(svn_repo) = true →
  w.(mkdtemp_fault) = None →
  w.(NamedTemporaryFile_fault) = None →
  w.(svn_fault) (checkout_command options w.(mkdtemp_name)) = Some (retcode, out) →
  let command := checkout_command options w.(mkdtemp_name) in
  (_SendChangeSVN w options st).1
  = Raise (NoTryServerAccess
      (join " " command +:+ String LF "Ouput:" +:+ String LF out)) ∧
  (_SendChangeSVN w options st).2.(trace) = st.(trace) ++ [EvCall command] ∧
  (_SendChangeSVN w options st).2.(repo) = st.(repo) ∧
  (_SendChangeSVN w options st).2.(revlog) = st.(revlog).
Proof.
  intros Hrepo Hdir Hfile Hfault command.
  rewrite (_SendChangeSVN_run w options st Hrepo Hdir Hfile). cbv zeta.
  match goal with
  | |- context [try_except ?m ?h ?s] =>
      assert (try_except m h s
              = (Raise (NoTryServerAccess
                   (join " " command +:+ String LF "Ouput:" +:+ String LF out)),
                 set_trace (s.(trace) ++ [EvCall command]) s)) as ->
  end.
  { unfold try_except, _SendChangeSVN_try. cbv zeta.
    rewrite checkout_command_eq. unfold mbind at 1, Py_bind at 1.
    rewrite CheckCall_checkout. cbv zeta. by rewrite Hfault. }
  done.
Qed.

Lemma svn_checkout_failure_witness :
  (_SendChangeSVN
     {| GetCodeReviewSetting := no_settings; GetCachedFile := λ _, None;
        getaddrinfo := λ _, None; getuser := "joe"; environ := λ _, None;
        now := demo_now; mkdtemp_name := "/tmp/t"; mkdtemp_fault := None;
        NamedTemporaryFile_name := "/tmp/f"; NamedTemporaryFile_fault := None;
        run := no_git; svn_fault := λ _, Some (1, "svn: E170013");
        open_fault := λ _, None; urlencode := λ _, "";
        urlopen_result := λ _ _ _, UrlOpened None; FileRead := λ _, Ok "";
        abspath := λ _ p, p; SVN_GetCheckoutRoot := λ d, Ok d;
        SVN_CaptureStatus := λ _, Ok []; SVN_DiffItem := λ _ _, Ok None;
        SVN_GetEmail := λ _, Ok None; GIT_GetEmail := λ _, Ok None;
        DoGetTrySlaves := λ _ _ _, Ok []; print_help_text := "" |}
     demo_options (start_state "/src" ∅ ∅)).1
  = Raise (NoTryServerAccess
      ("svn checkout --depth empty -q svn://svn/try /tmp/t --username joe@example.com"
       +:+ String LF "Ouput:" +:+ String LF "svn: E170013")).
Proof.
  refine (proj1 (svn_checkout_failure _ demo_options (start_state "/src" ∅ ∅)
                   1 "svn: E170013" _ _ _ _)); reflexivity.
Defined.

(** ** Lines, names and the git post-processing *)

Lemma rewrite_lines_id (diff : list string) :
  (∀ line, line ∈ diff → startswith line DEV_NULL = false) →
  rewrite_lines diff = Ok diff.
Proof.
  induction diff as [|line rest IH]; intros Hno; [done|].
  cbn [rewrite_lines]. rewrite (Hno line) by apply list_elem_of_here.
  rewrite IH; [done|]. intros l Hl. apply Hno. by apply list_elem_of_further.
Qed.

(** X5. When no line of the [git diff-tree] output is a null-device header
    (the change adds no file), [GIT._GenerateDiff] returns that output
    byte for byte, having run exactly the two git commands. *)
Theorem git_diff_unchanged (w : World) (st : State) (branch out : string) :
  w.(run) ["git"; "cl"; "upstream"] = Done branch →
  w.(run) ["git"; "diff-tree"; "-p"; "--no-prefix"; strip branch; "HEAD"] = Done out →
  (∀ line, line ∈ splitlines out → startswith line DEV_NULL = false) →
  GIT__GenerateDiff w st
  = (Ok out,
     set_trace (st.(trace) ++
                [EvCall ["git"; "cl"; "upstream"];
                 EvCall ["git"; "diff-tree"; "-p"; "--no-prefix"; strip branch; "HEAD"]])
       st).
Proof.
  intros Hbranch Hout Hno.
  rewrite (GIT__GenerateDiff_run w st branch out Hbranch Hout).
  rewrite GIT_GenerateDiff_loop_rewrite_lines, rewrite_lines_id by done.
  cbn. by rewrite splitlines_join.
Qed.

Lemma git_diff_unchanged_witness :
  (GIT__GenerateDiff
     (demo_world no_settings (λ _, None) demo_now (UrlOpened None)
        (λ command, if bool_decide (command = ["git"; "cl"; "upstream"])
                    then Done ("origin/master" +:+ String LF "")
                    else Done ("--- a.cc" +:+ String LF ("+++ a.cc" +:+ String LF ""))))
     (start_state "/src" ∅ ∅)).1
  = Ok ("--- a.cc" +:+ String LF ("+++ a.cc" +:+ String LF "")).
Proof.
  erewrite git_diff_unchanged; [reflexivity | reflexivity | reflexivity |].
  intros line Hin. vm_compute in Hin.
  repeat (apply elem_of_cons in Hin as [-> | Hin]; [reflexivity|]).
  by apply elem_of_nil in Hin.
Defined.

Lemma prefix_slice (p s : string) :
  String.prefix p s = true → s = p +:+ slice_from (String.length p) s.
Proof.
  revert s. induction p as [|a p IH]; intros s Hp; [done|].
  destruct s as [|b s]; [done|]. simpl in Hp.
  destruct (ascii_dec a b) as [->|]; [|done].
  rewrite append_cons. simpl. by rewrite <- IH.
Qed.

(** X6. [GIT._GetPatchName] runs [git symbolic-ref HEAD]; when the
    stripped output starts with [refs/heads/] it returns the rest, so that
    [refs/heads/] followed by the name returned is that output; otherwise
    (a detached head) it raises [NoTryServerAccess]. *)
Theorem git_patch_name (w : World) (st : State) (out : string) :
  w.(run) ["git"; "symbolic-ref"; "HEAD"] = Done out →
  let st' := set_trace (st.(trace) ++ [EvCall ["git"; "symbolic-ref"; "HEAD"]]) st in
  (startswith (strip out) "refs/heads/" = true →
     ∃ branch, GIT__GetPatchName w st = (Ok branch, st') ∧
               "refs/heads/" +:+ branch = strip out) ∧
  (startswith (strip out) "refs/heads/" = false →
     GIT__GetPatchName w st
     = (Raise (NoTryServerAccess "Couldn't figure out branch name"), st')).
Proof.
  intros Hrun. cbv zeta.
  assert (GIT__GetPatchName w st
          = if negb (startswith (strip out) "refs/heads/")
            then (Raise (NoTryServerAccess "Couldn't figure out branch name"),
                  set_trace (st.(trace) ++ [EvCall ["git"; "symbolic-ref"; "HEAD"]]) st)
            else (Ok (slice_from (String.length "refs/heads/") (strip out)),
                  set_trace (st.(trace) ++ [EvCall ["git"; "symbolic-ref"; "HEAD"]]) st))
    as ->.
  { unfold GIT__GetPatchName, CheckCall.
    unfold mbind, Py_bind, fmap, Py_fmap, emit, modify, get_state, mret, Py_ret, raise.
    cbn [String.eqb Ascii.eqb Bool.eqb]. rewrite Hrun.
    by destruct (startswith (strip out) "refs/heads/"). }
  split; intros Hp; rewrite Hp; cbn [negb]; [|done].
  eexists. split; [done|]. symmetry. by apply prefix_slice.
Qed.

Lemma git_patch_name_witness :
  GIT__GetPatchName
    (demo_world no_settings (λ _, None) demo_now (UrlOpened None)
       (λ _, Done ("refs/heads/my-fix" +:+ String LF "")))
    (start_state "/src" ∅ ∅)
  = (Ok "my-fix",
     set_trace [EvCall ["git"; "symbolic-ref"; "HEAD"]] (start_state "/src" ∅ ∅)).
Proof.
  destruct (git_patch_name
    (demo_world no_settings (λ _, None) demo_now (UrlOpened None)
       (λ _, Done ("refs/heads/my-fix" +:+ String LF "")))
    (start_state "/src" ∅ ∅) ("refs/heads/my-fix" +:+ String LF "") eq_refl)
    as [Hnamed _].
  destruct (Hnamed eq_refl) as (branch & -> & Hbranch).
  vm_compute in Hbranch. by injection Hbranch as <-.
Defined.

Lemma split_first_dot (a a' b b' : string) :
  contains "."%char a = false → contains "."%char a' = false →
  a +:+ String "."%char b = a' +:+ String "."%char b' → a = a' ∧ b = b'.
Proof.
  revert a'. induction a as [|c a IH]; intros [|c' a'] Ha Ha' Heq.
  - rewrite !append_nil_l in Heq. by injection Heq as <-.
  - rewrite append_nil_l, append_cons in Heq. injection Heq as <- _.
    simpl in Ha'. done.
  - rewrite append_nil_l, append_cons in Heq. injection Heq as -> _.
    simpl in Ha. done.
  - rewrite !append_cons in Heq. injection Heq as <- Heq.
    simpl in Ha, Ha'. apply orb_false_iff in Ha as [_ Ha].
    apply orb_false_iff in Ha' as [_ Ha'].
    destruct (IH a' Ha Ha' Heq) as [-> ->]. done.
Qed.

Lemma append_inj_r (a b c : string) : a +:+ c = b +:+ c → a = b.
Proof.
  revert b. induction a as [|x a IH]; intros [|y b] Heq.
  - done.
  - apply (f_equal String.length) in Heq.
    rewrite append_nil_l, append_cons in Heq. simpl in Heq.
    rewrite length_app_str in Heq. lia.
  - apply (f_equal String.length) in Heq.
    rewrite append_nil_l, append_cons in Heq. simpl in Heq.
    rewrite length_app_str in Heq. lia.
  - rewrite !append_cons in Heq. injection Heq as <- Heq. by rewrite (IH b Heq).
Qed.

(** X7. Escaping the dots makes the file name unambiguous: two submission
    file names are equal only if the escaped users are equal, the escaped
    job names are equal and the timestamps are equal. *)
Theorem submission_file_name_inj (user1 name1 user2 name2 : string)
    (dt1 dt2 : datetime) :
  submission_file_name user1 name1 dt1 = submission_file_name user2 name2 dt2 →
  EscapeDot user1 = EscapeDot user2 ∧
  EscapeDot name1 = EscapeDot name2 ∧
  replace ":"%char "."%char (datetime_str dt1)
  = replace ":"%char "."%char (datetime_str dt2).
Proof.
  unfold submission_file_name. cbv zeta. intros Heq.
  destruct (EscapeDot_spec user1) as (_ & Hu1 & _).
  destruct (EscapeDot_spec user2) as (_ & Hu2 & _).
  destruct (EscapeDot_spec name1) as (_ & Hn1 & _).
  destruct (EscapeDot_spec name2) as (_ & Hn2 & _).
  apply (split_first_dot _ _ _ _ Hu1 Hu2) in Heq as [Hu Heq].
  apply (split_first_dot _ _ _ _ Hn1 Hn2) in Heq as [Hn Heq].
  split_and!; [done..|]. by apply append_inj_r in Heq.
Qed.

Lemma submission_file_name_inj_witness :
  EscapeDot "joe.smith" = EscapeDot "joe-smith" ∧
  EscapeDot "fix.1" = EscapeDot "fix-1".
Proof.
  destruct (submission_file_name_inj "joe.smith" "fix.1" "joe-smith" "fix-1"
              demo_now demo_now eq_refl) as (Hu & Hn & _).
  by split.
Defined.

(** ** Detection and the exit of TryChange: what gets through *)

Lemma GuessVCS_no_svn (w : World) (st : State) :
  isdir st ".svn" = false →
  GuessVCS w st
  = let probed := set_trace (st.(trace) ++ [EvCall GIT_PROBE]) st in
    match w.(run) GIT_PROBE with
    | Failed retcode out =>
        if retcode =? 2
        then (Raise (NoTryServerAccess
                "Could not guess version control system. Are you in a working copy directory?"),
              probed)
        else (Raise (CheckCallError GIT_PROBE retcode out), probed)
    | Done _ =>
        match GIT w probed with
        | (Ok self, st') => (Ok self, st')
        | (Raise (CheckCallError command retcode out), st') =>
            if retcode =? 2
            then (Raise (NoTryServerAccess
                    "Could not guess version control system. Are you in a working copy directory?"),
                  st')
            else (Raise (CheckCallError command retcode out), st')
        | (Raise e, st') => (Raise e, st')
        end
    end.
Proof.
  intros Hsvn. unfold GuessVCS. unfold mbind at 1, Py_bind at 1, get_state.
  rewrite Hsvn. unfold try_except, mbind, Py_bind.
  rewrite CheckCall_run by (unfold GIT_PROBE; intros; simplify_eq; done).
  cbv zeta. destruct (run w GIT_PROBE) as [out|retcode out]; cbn.
  - unfold fmap, Py_fmap. destruct (GIT w _) as [[self|e] st']; cbn; [done|].
    destruct e; cbn; try done. by destruct (retcode =? 2).
  - by destruct (retcode =? 2).
Qed.

(** X8. [GIT(options)] runs inside the [try] of [GuessVCS]: when the git
    probe succeeds and the constructor then fails with a [CheckCallError]
    of return code 2, [GuessVCS] reports [NoTryServerAccess] ("Could not
    guess version control system") in its place; every other exception of
    the constructor, the [NoTryServerAccess] of a detached head included,
    goes through unchanged. *)
Theorem GuessVCS_git_constructor_errors (w : World) (st st' : State)
    (out : string) (e : exn) :
  isdir st ".svn" = false →
  w.(run) GIT_PROBE = Done out →
  GIT w (set_trace (st.(trace) ++ [EvCall GIT_PROBE]) st) = (Raise e, st') →
  GuessVCS w st
  = (Raise (match e with
            | CheckCallError _ 2 _ =>
                NoTryServerAccess
                  "Could not guess version control system. Are you in a working copy directory?"
            | _ => e
            end), st').
Proof.
  intros Hsvn Hrun HGIT. rewrite GuessVCS_no_svn by done. cbv zeta.
  rewrite Hrun, HGIT. destruct e as [| |command retcode o| | | | | | | |]; try done.
  destruct (retcode =? 2) eqn:Hrc.
  - apply Z.eqb_eq in Hrc as ->. done.
  - apply Z.eqb_neq in Hrc. destruct retcode as [|[p|p|]|]; try done.
    destruct p; done.
Qed.

Lemma GuessVCS_git_constructor_errors_witness :
  ∃ st',
    GuessVCS
      (demo_world no_settings (λ _, None) demo_now (UrlOpened None)
         (λ command, if bool_decide (command = GIT_PROBE) then Done "true"
                     else Failed 2 ""))
      (start_state "/work" ∅ ∅)
    = (Raise (NoTryServerAccess
         "Could not guess version control system. Are you in a working copy directory?"),
       st').
Proof.
  eexists.
  apply (GuessVCS_git_constructor_errors
           (demo_world no_settings (λ _, None) demo_now (UrlOpened None)
              (λ command, if bool_decide (command = GIT_PROBE) then Done "true"
                          else Failed 2 ""))
           (start_state "/work" ∅ ∅) _ "true"
           (CheckCallError ["git"; "rev-parse"; "--show-cdup"] 2 ""));
    [reflexivity | reflexivity |].
  vm_compute. reflexivity.
Defined.

Lemma int_raises (s : string) (e : exn) : int s = Raise e → e = ValueError.
Proof.
  unfold int. cbv zeta.
  match goal with |- match ?number with _ => _ end = _ → _ => destruct number end;
    intros H; by simplify_eq.
Qed.

Lemma GetTryServerSettings_raises (w : World) (e : exn) :
  GetTryServerSettings w = Raise e → e = ValueError.
Proof.
  unfold GetTryServerSettings. cbv zeta. intros H.
  destruct (truthy (GetCodeReviewSetting w "TRYSERVER_PATCHLEVEL")); [|done].
  destruct (int _) eqn:Hint; [done|]. apply int_raises in Hint. by simplify_eq/=.
Qed.

(** X9. [TryChange] never lets [InvalidScript] or [NoTryServerAccess]
    out, whatever the value of [swallow_exception]: it either returns a
    status or ends in an exception of another kind. *)
Theorem TryChange_raises_no_classified_error (w : World) (argv : Cli)
    (file_list : option (list string)) (swallow_exception : bool)
    (st st' : State) (e : exn) :
  TryChange w argv file_list swallow_exception st = (Raise e, st') →
  ¬ classified e.
Proof.
  revert st e st'.
  change (raises_only (λ e, ¬ classified e)
            (TryChange w argv file_list swallow_exception)).
  assert (Hexit : ∀ A msg, raises_only (λ e, ¬ classified e) (@parser_error A msg)).
  { intros A msg. unfold parser_error.
    apply raises_only_bind; [apply raises_only_emit|]. intros _.
    apply raises_only_raise. by intros [[? ?] | [? ?]]. }
  unfold TryChange. apply raises_only_bind.
  - unfold TryChange_setup. apply raises_only_bind.
    { unfold TryChange_options. apply raises_only_bind.
      - intros st e st' [= He _]. apply GetTryServerSettings_raises in He as ->.
        by intros [[? ?] | [? ?]].
      - intros settings. repeat case_match;
          first [apply raises_only_mret | apply Hexit]. }
    intros options. apply raises_only_bind; [apply raises_only_modify|]. intros _.
    apply raises_only_bind.
    { case_match; [apply raises_only_emit | apply raises_only_mret]. }
    intros _. case_match; [apply Hexit | apply raises_only_mret].
  - intros _. apply (raises_only_try_except _ (λ _, True)); [done|].
    intros e _. destruct e; try (by intros [[? ?] | [? ?]]).
    + destruct swallow_exception; [apply raises_only_mret|].
      apply raises_only_bind; [apply raises_only_emit | intros; apply raises_only_mret].
    + destruct swallow_exception; [apply raises_only_mret|].
      apply raises_only_bind; [apply raises_only_emit | intros; apply raises_only_mret].
Qed.

Lemma TryChange_raises_no_classified_error_witness :
  ¬ classified (SystemExit 2).
Proof.
  eapply (TryChange_raises_no_classified_error
            (demo_world no_settings (λ _, None) demo_now (UrlOpened None) no_git)
            no_cli None false (start_state "/work" ∅ ∅)).
  vm_compute. reflexivity.
Defined.

(** X10. Only an unavailable git counts as "not detected": outside a
    Subversion checkout, with neither a diff nor a URL given, a git probe
    that fails with any return code other than 2 makes [TryChange] end in
    that [CheckCallError]; it is neither reported as a try-server error nor
    turned into a return status, in either mode. *)
Theorem TryChange_probe_failure_escapes (w : World) (argv : Cli)
    (file_list : option (list string)) (swallow_exception : bool)
    (st st1 : State) (retcode : Z) (out : string) :
  TryChange_setup w argv file_list st = (Ok tt, st1) →
  truthy st1.(the_options).(url) = false →
  truthy st1.(the_options).(diff) = false →
  isdir st1 ".svn" = false →
  w.(run) GIT_PROBE = Failed retcode out →
  retcode ≠ 2 →
  TryChange w argv file_list swallow_exception st
  = (Raise (CheckCallError GIT_PROBE retcode out),
     set_trace (st1.(trace) ++ [EvCall GIT_PROBE]) st1).
Proof.
  intros Hsetup Hurl Hdiff Hsvn Hrun Hrc. unfold TryChange.
  unfold mbind at 1, Py_bind at 1. rewrite Hsetup.
  unfold try_except at 1. unfold mbind at 1, Py_bind at 1.
  assert (TryChange_try w st1
          = (Raise (CheckCallError GIT_PROBE retcode out),
             set_trace (st1.(trace) ++ [EvCall GIT_PROBE]) st1)) as ->; [|done].
  unfold TryChange_try.
  unfold mbind at 1, Py_bind at 1, get_options at 1. rewrite Hurl, Hdiff.
  unfold mbind at 1, Py_bind at 1, mret at 1, Py_ret at 1.
  unfold mbind at 1, Py_bind at 1, try_except at 1.
  unfold mbind at 1, Py_bind at 1.
  rewrite GuessVCS_no_svn by done. cbv zeta. rewrite Hrun.
  apply Z.eqb_neq in Hrc. by rewrite Hrc.
Qed.

Lemma TryChange_probe_failure_escapes_witness :
  ∃ st',
    TryChange
      (demo_world svn_settings (λ _, None) demo_now (UrlOpened None)
         (λ _, Failed 128 "fatal: Not a git repository"))
      no_cli None true (start_state "/work" ∅ ∅)
    = (Raise (CheckCallError GIT_PROBE 128 "fatal: Not a git repository"), st').
Proof.
  eexists.
  eapply (TryChange_probe_failure_escapes
            (demo_world svn_settings (λ _, None) demo_now (UrlOpened None)
               (λ _, Failed 128 "fatal: Not a git repository"))
            no_cli None true (start_state "/work" ∅ ∅));
    [vm_compute; reflexivity | reflexivity | reflexivity | reflexivity
    | reflexivity | done].
Defined.

(** ** The Subversion diff *)

Lemma for_each_lift {A B : Type} (g : A → Res B) (l : list A) (st : State) :
  for_each (λ x, lift (g x)) l st = (mapM g l, st).
Proof.
  induction l as [|x l IH]; [done|].
  cbn [for_each]. unfold mbind at 1, Py_bind at 1, lift at 1.
  destruct (g x) as [y|e] eqn:Hg; simpl; rewrite Hg; [|done].
  unfold mbind at 1, Py_bind at 1. rewrite IH.
  by destruct (mapM g l).
Qed.

Lemma join_filter_None (items : list (option string)) :
  join "" (filter_None items) = join "" (default "" <$> items).
Proof.
  rewrite !join_empty. unfold filter_None.
  induction items as [|[[|c s]|] items IH]; cbn; by rewrite ?append_nil_l, ?IH.
Qed.

Lemma set_options_same (st : State) : set_options st.(the_options) st = st.
Proof. by destruct st. Qed.

(** [SVN._GenerateDiff], outcome by outcome. *)
Lemma SVN__GenerateDiff_inv (w : World) (self : SCM) (st st' : State)
    (r : Res string) :
  SVN__GenerateDiff w self st = (r, st') →
  let root := self.(checkout_root) in
  let o := st.(the_options) in
  match r with
  | Ok d =>
      ∃ paths items,
        svn_diff_paths w self o = Ok paths ∧
        mapM (w.(SVN_DiffItem) root) paths = Ok items ∧
        d = join "" (default "" <$> items) ∧
        st' = set_options (if truthy o.(files) then o else set_files (Some paths) o) st
  | Raise e =>
      st'.(cwd) = root ∧
      st'.(the_options) = (if truthy o.(files) then o
                           else match svn_diff_paths w self o with
                                | Ok paths => set_files (Some paths) o
                                | Raise _ => o
                                end) ∧
      (svn_diff_paths w self o = Raise e ∨
       ∃ paths, svn_diff_paths w self o = Ok paths ∧
                mapM (w.(SVN_DiffItem) root) paths = Raise e)
  end.
Proof.
  unfold SVN__GenerateDiff, svn_diff_paths, chdir. cbv zeta.
  unfold mbind at 1 2 3, Py_bind at 1 2 3, get_state, modify at 1, get_options at 1.
  cbn [the_options set_cwd].
  destruct (truthy (files (the_options st))) eqn:Hfiles; cbn [negb].
  - unfold mbind at 1, Py_bind at 1, mret at 1, Py_ret at 1.
    unfold mbind at 1, Py_bind at 1, get_options at 1. cbn [the_options set_cwd].
    unfold mbind at 1, Py_bind at 1. rewrite for_each_lift.
    destruct (mapM _ _) as [items|e] eqn:Hitems; intros H.
    + unfold mbind, Py_bind, modify, mret, Py_ret in H. simplify_eq/=.
      exists (default [] (files (the_options st))), items.
      split_and!; [done..| apply join_filter_None | by destruct st].
    + simplify_eq/=. split_and!; [done..|]. right. eauto.
  - unfold mbind at 1 2, Py_bind at 1 2, lift at 1.
    destruct (SVN_CaptureStatus w (checkout_root self)) as [status|e] eqn:Hstatus.
    2:{ intros H. simplify_eq/=. split_and!; [done..|]. by left. }
    unfold modify_options, modify. cbn [fmap Res_fmap].
    unfold mbind at 1, Py_bind at 1, get_options at 1.
    cbn [the_options set_cwd set_options set_files files].
    unfold mbind at 1, Py_bind at 1. rewrite for_each_lift.
    destruct (mapM _ _) as [items|e] eqn:Hitems; intros H.
    + unfold mbind, Py_bind, modify, mret, Py_ret in H. simplify_eq/=.
      exists (snd <$> status), items.
      split_and!; [done..| apply join_filter_None | by destruct st].
    + simplify_eq/=. split_and!; [done..|]. right. eauto.
Qed.

(** X11. [SVN._GenerateDiff] diffs the files of the options, or else the
    paths of the status, which it then stores in [options.files]; a diff
    it returns is the concatenation of the fragments in that order, an
    item without fragment (a directory) adding nothing, and the current
    directory is then the one of before. When the status or a fragment
    raises, the exception goes through and the current directory is left
    at the checkout root. *)
Theorem svn_generate_diff (w : World) (self : SCM) (st st' : State)
    (r : Res string) :
  SVN__GenerateDiff w self st = (r, st') →
  let root := self.(checkout_root) in
  let o := st.(the_options) in
  match r with
  | Ok d =>
      ∃ paths items,
        svn_diff_paths w self o = Ok paths ∧
        mapM (w.(SVN_DiffItem) root) paths = Ok items ∧
        d = join "" (default "" <$> items) ∧
        st'.(cwd) = st.(cwd) ∧
        st' = set_options (if truthy o.(files) then o else set_files (Some paths) o) st
  | Raise e =>
      st'.(cwd) = root ∧
      (svn_diff_paths w self o = Raise e ∨
       ∃ paths, svn_diff_paths w self o = Ok paths ∧
                mapM (w.(SVN_DiffItem) root) paths = Raise e)
  end.
Proof.
  intros H. apply SVN__GenerateDiff_inv in H. cbv zeta in *.
  destruct r as [d|e].
  - destruct H as (paths & items & ? & ? & ? & ->). eauto 10.
  - destruct H as (? & _ & ?). done.
Qed.

Lemma svn_generate_diff_witness :
  ∃ st',
    SVN__GenerateDiff
      (demo_world no_settings (λ _, None) demo_now (UrlOpened None) no_git)
      {| scm_kind := KindSVN; checkout_root := "/src" |}
      (start_state "/src/sub" ∅ ∅)
    = (Ok "Index: a.cc", st') ∧ st'.(cwd) = "/src/sub" ∧
    st'.(the_options).(files) = Some ["a.cc"].
Proof.
  eexists. split; [vm_compute; reflexivity|].
  pose proof (svn_generate_diff
    (demo_world no_settings (λ _, None) demo_now (UrlOpened None) no_git)
    {| scm_kind := KindSVN; checkout_root := "/src" |}
    (start_state "/src/sub" ∅ ∅) _ (Ok "Index: a.cc") ltac:(vm_compute; reflexivity))
    as (paths & items & Hpaths & _ & _ & Hcwd & Hst).
  by split.
Defined.

(** ** What the transports and the git class leave alone *)

Section frame.
Context (st0 : State).

Lemma preserves_fmap {A B : Type} (I : State → Prop) (f : A → B) (m : Py A) :
  preserves I m → preserves I (f <$> m).
Proof.
  intros Hm st r st' Hrun HI. unfold fmap, Py_fmap in Hrun.
  destruct (m st) as [[a|e] st1] eqn:E; simplify_eq; eapply Hm; done.
Qed.

Lemma preserves_try_finally {A : Type} (I : State → Prop) (m : Py A) (fin : Py unit) :
  preserves I m → preserves I fin → preserves I (try_finally m fin).
Proof.
  intros Hm Hfin st r st' Hrun HI. unfold try_finally in Hrun.
  destruct (m st) as [r1 st1] eqn:E.
  destruct (fin st1) as [[[]|e] st2] eqn:E2; simplify_eq;
    (eapply Hfin; [done|]; eapply Hm; done).
Qed.

Lemma same_svn_run (command : list string) (st : State) :
  same_options st0 st → same_options st0 (svn_run command st).2.
Proof.
  intros H. unfold svn_run. repeat case_match; done.
Qed.

Lemma same_emit (e : Event) : preserves (same_options st0) (emit e).
Proof. by apply preserves_modify. Qed.

Lemma same_CheckCall (w : World) (command : list string) :
  preserves (same_options st0) (CheckCall w command).
Proof.
  intros st r st' Hcall Hk. unfold CheckCall in Hcall. py_unfold.
  destruct command as [|prog args]; [by simplify_eq|].
  destruct (String.eqb prog "svn").
  - destruct (svn_fault w (prog :: args)) as [[retcode out]|]; [by simplify_eq|].
    destruct (svn_run _ _) as [[out|retcode out] st1] eqn:E; simplify_eq; [|done].
    pose proof (same_svn_run (prog :: args)
                  (set_trace (trace st ++ [EvCall (prog :: args)]) st) Hk) as H.
    by rewrite E in H.
  - destruct (run w (prog :: args)); by simplify_eq.
Qed.

Lemma same_urlopen (w : World) url data proxies :
  preserves (same_options st0) (urlopen w url data proxies).
Proof.
  unfold urlopen. apply preserves_bind; [apply same_emit|]. intros _.
  destruct (urlopen_result w url data proxies);
    first [apply preserves_raise | apply preserves_mret].
Qed.

Lemma same_read (connection : Connection) :
  preserves (same_options st0) (read connection).
Proof.
  intros st r st' H HI. unfold read, lift in H. destruct connection; by simplify_eq.
Qed.

Lemma same_SendChangeHTTP (w : World) (options : Options) :
  preserves (same_options st0) (_SendChangeHTTP w options).
Proof.
  unfold _SendChangeHTTP.
  destruct (negb (truthy (host options))); [apply preserves_raise|].
  destruct (negb (truthy (port options))); [apply preserves_raise|].
  cbv zeta. apply preserves_bind.
  - apply preserves_try_except; [apply same_urlopen|].
    intros e h Hh. destruct e; simplify_eq.
    case_match; apply preserves_raise.
  - intros [connection|]; [|apply preserves_raise].
    apply preserves_bind; [apply same_read|]. intros body.
    destruct (negb (String.eqb body "OK"));
      [apply preserves_raise | apply preserves_mret].
Qed.

Lemma same_file_write (f data : string) :
  preserves (same_options st0) (file_write f data).
Proof.
  intros st r st' H HI. unfold file_write in H. py_unfold. by simplify_eq.
Qed.

Lemma same_open_wb (w : World) (path : string) :
  preserves (same_options st0) (open_wb w path).
Proof.
  intros st r st' H HI. unfold open_wb in H. py_unfold.
  repeat case_match; py_unfold; by simplify_eq.
Qed.

Lemma same_write_file (w : World) (path : string) (data : option string) :
  preserves (same_options st0) (write_file w path data).
Proof.
  unfold write_file. apply preserves_bind; [apply same_open_wb|]. intros f.
  destruct data; [apply same_file_write | apply preserves_raise].
Qed.

Lemma same_SendChangeSVN_try (w : World) (options : Options)
    (description temp_dir temp_file : string) :
  preserves (same_options st0)
    (_SendChangeSVN_try w options description temp_dir temp_file).
Proof.
  unfold _SendChangeSVN_try. cbv zeta.
  apply preserves_bind; [apply same_CheckCall|]. intros _.
  apply preserves_bind;
    [destruct (name options); [apply preserves_mret | apply preserves_raise]|].
  intros name_. apply preserves_bind.
  { apply preserves_try_except.
    - apply preserves_bind; [apply same_CheckCall | intros; apply preserves_mret].
    - intros e h Hh. destruct e; simplify_eq. apply preserves_mret. }
  intros [].
  - apply preserves_bind.
    { apply preserves_bind; [apply same_CheckCall|]. intros _.
      apply same_write_file. }
    intros _. apply preserves_bind; [apply same_file_write|].
    intros _. apply preserves_bind; [apply same_CheckCall|].
    intros; apply preserves_mret.
  - apply preserves_bind.
    { apply preserves_bind; [apply same_write_file|]. intros _.
      apply preserves_bind; [apply same_CheckCall|]. intros; apply preserves_mret. }
    intros _. apply preserves_bind; [apply same_file_write|].
    intros _. apply preserves_bind; [apply same_CheckCall|].
    intros; apply preserves_mret.
Qed.

Lemma same_SendChangeSVN (w : World) (options : Options) :
  preserves (same_options st0) (_SendChangeSVN w options).
Proof.
  unfold _SendChangeSVN.
  destruct (negb (truthy (svn_repo options))); [apply preserves_raise|].
  cbv zeta.
  apply preserves_bind.
  { unfold mkdtemp. destruct (mkdtemp_fault w); [apply preserves_raise|].
    apply preserves_bind; [by apply preserves_modify|].
    intros; apply preserves_mret. }
  intros temp_dir. apply preserves_bind.
  { unfold NamedTemporaryFile.
    destruct (NamedTemporaryFile_fault w); [apply preserves_raise|].
    apply preserves_bind; [by apply preserves_modify|].
    intros; apply preserves_mret. }
  intros temp_file. apply preserves_try_finally.
  - apply preserves_try_except; [apply same_SendChangeSVN_try|].
    intros e h Hh. destruct e; cbn in Hh; simplify_eq. apply preserves_raise.
  - unfold _SendChangeSVN_finally, temp_file_close, rmtree.
    apply preserves_bind; [by apply preserves_modify|].
    intros _. by apply preserves_modify.
Qed.

Lemma same_GIT__GenerateDiff (w : World) :
  preserves (same_options st0) (GIT__GenerateDiff w).
Proof.
  unfold GIT__GenerateDiff.
  apply preserves_bind; [apply preserves_fmap, same_CheckCall|]. intros branch.
  apply preserves_bind; [apply same_CheckCall|]. intros out.
  apply preserves_bind; [apply preserves_lift|]. intros; apply preserves_mret.
Qed.

Lemma same_GIT__GetPatchName (w : World) :
  preserves (same_options st0) (GIT__GetPatchName w).
Proof.
  unfold GIT__GetPatchName.
  apply preserves_bind; [apply preserves_fmap, same_CheckCall|]. intros branch.
  destruct (negb _); [apply preserves_raise | apply preserves_mret].
Qed.

End frame.

Lemma same_options_refl (st : State) : same_options st st.
Proof. done. Qed.

(** A conditional assignment [if not options.x: options.x = compute()]:
    it does nothing when the option is set, it ends where the computation
    fails, and otherwise it assigns the result. *)
Lemma fill_inv {X : Type} (c : bool) (compute : Py X)
    (upd : X → Options → Options) (s s' : State) (r : Res unit) :
  (if negb c then x ← compute; modify_options (upd x) else mret tt) s = (r, s') →
  if c then r = Ok tt ∧ s' = s
  else (∃ e, r = Raise e ∧ compute s = (Raise e, s')) ∨
       (∃ x s1, compute s = (Ok x, s1) ∧ r = Ok tt ∧
                s' = set_options (upd x (the_options s1)) s1).
Proof.
  destruct c; cbn [negb]; intros H.
  - unfold mret, Py_ret in H. by simplify_eq.
  - apply bind_inv in H as [(e & Hc & ->)|(x & s1 & Hc & H)]; [eauto|].
    right. exists x, s1. unfold modify_options, modify in H. by simplify_eq.
Qed.

Lemma set_diff_same (o : Options) : set_diff o.(diff) o = o.
Proof. by destruct o. Qed.
Lemma set_name_same (o : Options) : set_name o.(name) o = o.
Proof. by destruct o. Qed.
Lemma set_email_same (o : Options) : set_email o.(email) o = o.
Proof. by destruct o. Qed.

(** X12. Neither transport touches the options object or the current
    directory: however [options.send_patch(options)] ends, normally or with
    an exception, both are what they were before the call. *)
Theorem transports_keep_options (w : World) (options : Options) (st : State) :
  same_options st (call_send_patch w options st).2.
Proof.
  destruct (call_send_patch w options st) as [r st'] eqn:H. cbn [snd].
  unfold call_send_patch in H.
  destruct (send_patch options) as [[]|].
  - eapply same_SendChangeHTTP; [exact H | done].
  - eapply same_SendChangeSVN; [exact H | done].
  - unfold raise in H. by simplify_eq.
Qed.

(** A conditional assignment whose computation leaves the options and the
    directory alone, followed by the rest of the block. *)
Lemma block_inv {X B : Type} (c : bool) (compute : Py X)
    (upd : X → Options → Options) (rest : Py B) (s s' : State) (r : Res B) :
  (∀ st0, preserves (same_options st0) compute) →
  ((if negb c then x ← compute; modify_options (upd x) else mret tt) ≫= λ _, rest) s
    = (r, s') →
  ∃ s1, s1.(cwd) = s.(cwd) ∧
        (s1.(the_options) = s.(the_options) ∨
         c = false ∧ ∃ x, s1.(the_options) = upd x s.(the_options)) ∧
        ((∃ e, r = Raise e ∧ s' = s1) ∨ rest s1 = (r, s')).
Proof.
  intros Hsame H.
  apply bind_inv in H as [(e & Hb & ->)|([] & s1 & Hb & H)];
    apply fill_inv in Hb; destruct c.
  - by destruct Hb.
  - destruct Hb as [(e' & _ & Hc)|(x & s1 & _ & ? & _)]; [|done].
    destruct (Hsame s _ _ _ Hc (same_options_refl s)) as [Ho Hcwd].
    exists s'. split; [done|]. split; [by left|]. left. by exists e.
  - destruct Hb as [_ ->]. exists s. split; [done|]. split; [by left|]. by right.
  - destruct Hb as [(e' & ? & _)|(x & s0 & Hc & _ & ->)]; [done|].
    destruct (Hsame s _ _ _ Hc (same_options_refl s)) as [Ho Hcwd].
    exists (set_options (upd x (the_options s0)) s0). cbn.
    split; [done|]. split; [|by right].
    right. split; [done|]. exists x. by rewrite Ho.
Qed.

(** X13. [GIT(options)] assigns nothing but the diff, the job name and the
    email address of the options, each of them only when it was not given:
    a diff, a name or an email address the caller supplied is what the
    options carry afterwards, however the constructor ends, and the current
    directory is the one it started in. *)
Theorem git_constructor_keeps_given (w : World) (st st' : State) (r : Res SCM) :
  GIT w st = (r, st') →
  let o := st.(the_options) in
  st'.(cwd) = st.(cwd) ∧
  ∃ d n e,
    st'.(the_options) = set_email e (set_name n (set_diff d o)) ∧
    (truthy o.(diff) = true → d = o.(diff)) ∧
    (truthy o.(name) = true → n = o.(name)) ∧
    (truthy o.(email) = true → e = o.(email)).
Proof.
  intros H o. unfold GIT in H.
  apply bind_inv in H as [(e & Hc & ->)|(out & s1 & Hc & H)];
    destruct (same_CheckCall st w _ _ _ _ Hc (same_options_refl st)) as [Ho1 Hc1].
  { split; [done|]. exists (diff o), (name o), (email o).
    by rewrite set_diff_same, set_name_same, set_email_same. }
  apply bind_inv in H as [(e & Hg & _)|(s & s1' & Hg & H)];
    unfold get_state in Hg; simplify_eq.
  apply bind_inv in H as [(e & Hg & _)|(o1 & s1' & Hg & H)];
    unfold get_options in Hg; simplify_eq.
  (* the diff *)
  apply block_inv in H as (s2 & Hc2 & Ho2 & H); [|intros; apply same_GIT__GenerateDiff].
  assert (∃ d, the_options s2 = set_diff d o ∧
               (truthy (diff o) = true → d = diff o)) as (d & Hd & Hdk).
  { rewrite Ho1 in Ho2. fold o in Ho2. destruct Ho2 as [->|[Hf [x ->]]].
    - exists (diff o). by rewrite set_diff_same.
    - exists (Some x). split; [done|]. fold o in Hf. congruence. }
  clear Ho2. destruct H as [(e & -> & ->)|H].
  { split; [congruence|]. exists d, (name o), (email o). rewrite Hd.
    split_and!; [|done..].
    by rewrite <- (set_name_same (set_diff d o)), <- (set_email_same (set_name _ _)). }
  apply bind_inv in H as [(e & Hg & _)|(o2 & s2' & Hg & H)];
    unfold get_options in Hg; simplify_eq.
  (* the name *)
  apply block_inv in H as (s3 & Hc3 & Ho3 & H); [|intros; apply same_GIT__GetPatchName].
  assert (∃ n, the_options s3 = set_name n (set_diff d o) ∧
               (truthy (name o) = true → n = name o)) as (n & Hn & Hnk).
  { rewrite Hd in Ho3. destruct Ho3 as [->|[Hf [x ->]]].
    - exists (name o). split; [|done]. symmetry. apply (set_name_same (set_diff d o)).
    - exists (Some x). split; [done|]. cbn in Hf. congruence. }
  clear Ho3. destruct H as [(e & -> & ->)|H].
  { split; [congruence|]. exists d, n, (email o). rewrite Hn.
    split_and!; [|done..]. symmetry. apply (set_email_same (set_name n (set_diff d o))). }
  apply bind_inv in H as [(e & Hg & _)|(o3 & s3' & Hg & H)];
    unfold get_options in Hg; simplify_eq.
  (* the email address *)
  apply block_inv in H as (s4 & Hc4 & Ho4 & H); [|intros; apply preserves_lift].
  assert (∃ e, the_options s4 = set_email e (set_name n (set_diff d o)) ∧
               (truthy (email o) = true → e = email o)) as (e & He & Hek).
  { rewrite Hn in Ho4. destruct Ho4 as [->|[Hf [x ->]]].
    - exists (email o). split; [|done]. symmetry.
      apply (set_email_same (set_name n (set_diff d o))).
    - exists x. split; [done|]. cbn in Hf. congruence. }
  clear Ho4.
  assert (st' = s4) as ->.
  { destruct H as [(? & _ & ->)|H]; [done|].
    unfold mret, Py_ret in H. by simplify_eq. }
  split; [congruence|]. by exists d, n, e.
Qed.

Lemma git_constructor_keeps_given_witness :
  let w := demo_world no_settings (λ _, None) demo_now (UrlOpened None)
             (λ _, Done ("refs/heads/my-fix" +:+ String LF "")) in
  let st := set_options (set_email None demo_options) (start_state "/src" ∅ ∅) in
  ∃ r st', GIT w st = (r, st') ∧
    st'.(the_options).(diff) = Some "Index: a.cc" ∧
    st'.(the_options).(name) = Some "fix.1".
Proof.
  intros w st. destruct (GIT w st) as [r st'] eqn:H.
  exists r, st'. split; [done|].
  destruct (git_constructor_keeps_given w st st' r H)
    as (_ & d & n & e & -> & Hd & Hn & _).
  cbn. by rewrite (Hd eq_refl), (Hn eq_refl).
Defined.

Lemma set_files_same (o : Options) : set_files o.(files) o = o.
Proof. by destruct o. Qed.

(** What the diff block of [SVN(options)] does to the options. *)
Lemma SVN_diff_block (w : World) (self : SCM) (s s' : State) (r : Res unit) :
  (if negb (truthy s.(the_options).(diff))
   then d ← SVN__GenerateDiff w self; modify_options (set_diff (Some d))
   else mret tt) s = (r, s') →
  let o := s.(the_options) in
  (∃ f d, s'.(the_options) = set_diff d (set_files f o) ∧
          (truthy o.(diff) = true → f = o.(files) ∧ d = o.(diff)) ∧
          (truthy o.(files) = true → f = o.(files))) ∧
  (r = Ok tt → s'.(cwd) = s.(cwd)).
Proof.
  intros H o. apply fill_inv in H. fold o in H.
  destruct (truthy (diff o)) eqn:Hdiff.
  - destruct H as [-> ->]. split; [|done].
    exists (files o), (diff o). by rewrite set_files_same, set_diff_same.
  - destruct H as [(e & -> & Hc)|(x & s1 & Hc & -> & ->)];
      apply SVN__GenerateDiff_inv in Hc; cbv zeta in Hc; fold o in Hc.
    + split; [|done]. destruct Hc as (_ & -> & _).
      destruct (truthy (files o)) eqn:Hfiles.
      * exists (files o), (diff o). by rewrite set_files_same, set_diff_same.
      * destruct (svn_diff_paths w self o) as [paths|e'].
        -- exists (Some paths), (diff o). split; [|done].
           symmetry. apply (set_diff_same (set_files (Some paths) o)).
        -- exists (files o), (diff o). by rewrite set_files_same, set_diff_same.
    + destruct Hc as (paths & items & _ & _ & _ & ->). cbn. split; [|done].
      destruct (truthy (files o)) eqn:Hfiles.
      * exists (files o), (Some x). by rewrite set_files_same.
      * by exists (Some paths), (Some x).
Qed.

(** X14. [SVN(options)] assigns nothing but the file list, the diff and
    the email address of the options: with a diff given, the file list and
    the diff are left as they are; a file list given is the one that is
    diffed and kept; an email address given is kept.  When the constructor
    returns, the current directory is the one it started in. *)
Theorem svn_constructor_keeps_given (w : World) (st st' : State) (r : Res SCM) :
  SVN w st = (r, st') →
  let o := st.(the_options) in
  (∃ f d e,
     st'.(the_options) = set_email e (set_diff d (set_files f o)) ∧
     (truthy o.(diff) = true → f = o.(files) ∧ d = o.(diff)) ∧
     (truthy o.(files) = true → f = o.(files)) ∧
     (truthy o.(email) = true → e = o.(email))) ∧
  (∀ self, r = Ok self → st'.(cwd) = st.(cwd)).
Proof.
  intros H o. unfold SVN in H.
  apply bind_inv in H as [(e & Hg & _)|(s & s0 & Hg & H)];
    unfold get_state in Hg; simplify_eq.
  apply bind_inv in H as [(e & Hg & ->)|(root_dir & s0' & Hg & H)];
    unfold lift in Hg; simplify_eq.
  { split; [|done]. exists (files o), (diff o), (email o).
    by rewrite set_files_same, set_diff_same, set_email_same. }
  apply bind_inv in H as [(e & Hg & _)|(o1 & s1 & Hg & H)];
    unfold get_options in Hg; simplify_eq.
  apply bind_inv in H as [(e & Hb & ->)|([] & s2 & Hb & H)];
    apply SVN_diff_block in Hb as [(f & d & Hfd & Hdk & Hfk) Hcwd]; fold o in Hfd, Hdk, Hfk.
  { split; [|done]. exists f, d, (email o). rewrite Hfd.
    split_and!; [|done..].
    symmetry. apply (set_email_same (set_diff d (set_files f o))). }
  specialize (Hcwd eq_refl).
  apply bind_inv in H as [(e & Hg & _)|(o2 & s2' & Hg & H)];
    unfold get_options in Hg; simplify_eq.
  apply block_inv in H as (s3 & Hc3 & Ho3 & H); [|intros; apply preserves_lift].
  assert (∃ e, the_options s3 = set_email e (set_diff d (set_files f o)) ∧
               (truthy (email o) = true → e = email o)) as (e & He & Hek).
  { rewrite Hfd in Ho3. destruct Ho3 as [->|[Hf [x ->]]].
    - exists (email o). split; [|done]. symmetry.
      apply (set_email_same (set_diff d (set_files f o))).
    - exists x. split; [done|]. cbn in Hf. congruence. }
  clear Ho3.
  assert (st' = s3) as ->.
  { destruct H as [(? & _ & ->)|H]; [done|].
    unfold mret, Py_ret in H. by simplify_eq. }
  split; [by exists f, d, e|]. intros; congruence.
Qed.

Lemma svn_constructor_keeps_given_witness :
  let w := demo_world no_settings (λ _, None) demo_now (UrlOpened None) no_git in
  let st := set_options (set_files (Some ["b.cc"]) (set_diff None demo_options))
              (start_state "/src" ∅ ∅) in
  ∃ r st', SVN w st = (r, st') ∧
    st'.(the_options).(files) = Some ["b.cc"] ∧
    st'.(the_options).(email) = Some "joe@example.com".
Proof.
  intros w st. destruct (SVN w st) as [r st'] eqn:H.
  exists r, st'. split; [done|].
  destruct (svn_constructor_keeps_given w st st' r H)
    as [(f & d & e & -> & _ & Hf & He) _].
  cbn. by rewrite (Hf eq_refl), (He eq_refl).
Defined.

(** ** The [try] body of [TryChange]: what reaches the delivery *)

Lemma Py_bind_assoc {A B C : Type} (m : Py A) (f : A → Py B) (g : B → Py C)
    (st : State) :
  ((m ≫= f) ≫= g) st = (m ≫= λ x, f x ≫= g) st.
Proof. unfold mbind, Py_bind. by destruct (m st) as [[a|e] st1]. Qed.

Lemma Py_bind_ext {A B : Type} (m : Py A) (f g : A → Py B) (st : State) :
  (∀ a s, f a s = g a s) → (m ≫= f) st = (m ≫= g) st.
Proof. intros H. unfold mbind, Py_bind. by destruct (m st) as [[a|e] st1]. Qed.

(** The [try] body is its preparation followed by the delivery. *)
Lemma TryChange_try_split (w : World) (st : State) :
  TryChange_try w st = (TryChange_prepare w ≫= λ _, TryChange_send w) st.
Proof.
  symmetry. unfold TryChange_try, TryChange_prepare.
  repeat (etrans; [apply Py_bind_assoc|]; apply Py_bind_ext; intros ? ?).
  reflexivity.
Qed.

(** An invariant of the options alone is kept by what keeps the options. *)
Lemma same_preserves {A : Type} (P : Options → Prop) (m : Py A) :
  (∀ st0, preserves (same_options st0) m) →
  preserves (λ s, P s.(the_options)) m.
Proof.
  intros H st r st' Hrun HP.
  destruct (H st st r st' Hrun (same_options_refl st)) as [-> _]. done.
Qed.

Lemma preserves_get_options (I : State → Prop) : preserves I get_options.
Proof. intros st r st' [= <- <-]. done. Qed.

Lemma preserves_modify_options (P : Options → Prop) (f : Options → Options) :
  (∀ o, P o → P (f o)) →
  preserves (λ s, P s.(the_options)) (modify_options f).
Proof. intros Hf. apply preserves_modify. intros st. cbn. apply Hf. Qed.

Lemma preserves_print (P : Options → Prop) (text : string) :
  preserves (λ s, P s.(the_options)) (print text).
Proof. by apply preserves_modify. Qed.

Lemma truthy_has_diff (o : Options) : truthy o.(diff) = true → has_diff o.
Proof. unfold has_diff. by destruct (diff o). Qed.

(** After the diff block of a constructor the options carry a diff. *)
Lemma diff_block_has_diff (compute : Py string) (s s' : State) :
  (if negb (truthy s.(the_options).(diff))
   then d ← compute; modify_options (set_diff (Some d))
   else mret tt) s = (Ok tt, s') →
  has_diff s'.(the_options).
Proof.
  intros H. apply fill_inv in H.
  destruct (truthy (diff (the_options s))) eqn:Hd.
  - destruct H as [_ ->]. by apply truthy_has_diff.
  - destruct H as [(e & ? & _)|(x & s1 & _ & _ & ->)]; done.
Qed.

Lemma GIT_has_diff (w : World) (st st' : State) (self : SCM) :
  GIT w st = (Ok self, st') → has_diff st'.(the_options).
Proof.
  intros H. unfold GIT in H.
  apply bind_inv in H as [(e & _ & ?)|(out & s1 & _ & H)]; [done|].
  apply bind_inv in H as [(e & _ & ?)|(s & s1' & Hg & H)]; [done|];
    unfold get_state in Hg; simplify_eq.
  apply bind_inv in H as [(e & _ & ?)|(o1 & s1 & Hg & H)]; [done|];
    unfold get_options in Hg; simplify_eq.
  apply bind_inv in H as [(e & _ & ?)|([] & s2 & Hb & H)]; [done|].
  apply diff_block_has_diff in Hb. revert H Hb.
  apply (preserves_bind (λ s, has_diff (the_options s)));
    [apply preserves_get_options|]. intros o2.
  apply preserves_bind.
  { destruct (negb _); [|apply preserves_mret].
    apply preserves_bind;
      [apply (same_preserves has_diff); intros; apply same_GIT__GetPatchName|].
    intros n. by apply (preserves_modify_options has_diff). }
  intros _. apply preserves_bind; [apply preserves_get_options|]. intros o3.
  apply preserves_bind; [|intros; apply preserves_mret].
  destruct (negb _); [|apply preserves_mret].
  apply preserves_bind; [apply preserves_lift|].
  intros e. by apply (preserves_modify_options has_diff).
Qed.

Lemma SVN_has_diff (w : World) (st st' : State) (self : SCM) :
  SVN w st = (Ok self, st') → has_diff st'.(the_options).
Proof.
  intros H. unfold SVN in H.
  apply bind_inv in H as [(e & _ & ?)|(s & s1' & Hg & H)]; [done|];
    unfold get_state in Hg; simplify_eq.
  apply bind_inv in H as [(e & _ & ?)|(root_dir & s1 & Hg & H)]; [done|];
    unfold lift in Hg; simplify_eq.
  apply bind_inv in H as [(e & _ & ?)|(o1 & s1' & Hg & H)]; [done|];
    unfold get_options in Hg; simplify_eq.
  apply bind_inv in H as [(e & _ & ?)|([] & s2 & Hb & H)]; [done|].
  apply diff_block_has_diff in Hb. revert H Hb.
  apply (preserves_bind (λ s, has_diff (the_options s)));
    [apply preserves_get_options|]. intros o2.
  apply preserves_bind; [|intros; apply preserves_mret].
  destruct (negb _); [|apply preserves_mret].
  apply preserves_bind; [apply preserves_lift|].
  intros e. by apply (preserves_modify_options has_diff).
Qed.

Lemma GuessVCS_has_diff (w : World) (st st' : State) (self : SCM) :
  GuessVCS w st = (Ok self, st') → has_diff st'.(the_options).
Proof.
  intros H. unfold GuessVCS in H.
  apply bind_inv in H as [(e & _ & ?)|(s & s1' & Hg & H)]; [done|];
    unfold get_state in Hg; simplify_eq.
  destruct (isdir s ".svn"); [by eapply SVN_has_diff|].
  apply bind_inv in H as [(e & _ & ?)|(guessed & s1 & Hg & H)]; [done|].
  destruct guessed as [self'|]; [|done].
  unfold mret, Py_ret in H. simplify_eq.
  unfold try_except in Hg.
  destruct ((CheckCall w GIT_PROBE ≫= λ _, Some <$> GIT w) s)
    as [[a|e] s2] eqn:Hbody.
  - simplify_eq.
    apply bind_inv in Hbody as [(e & _ & ?)|(out & s3 & _ & H)]; [done|].
    unfold fmap, Py_fmap in H.
    destruct (GIT w s3) as [[self''|e] s4] eqn:HG; simplify_eq.
    by eapply GIT_has_diff.
  - destruct e; simplify_eq. destruct (negb _); by simplify_eq.
Qed.

Lemma raises_only_SendChangeHTTP (w : World) (options : Options) :
  raises_only (http_delivery_error w) (_SendChangeHTTP w options).
Proof.
  unfold _SendChangeHTTP, http_delivery_error.
  destruct (negb (truthy (host options))); [apply raises_only_raise; eauto|].
  destruct (negb (truthy (port options))); [apply raises_only_raise; eauto|].
  cbv zeta. intros st e st' H.
  apply bind_inv in H as [(e' & H & [= <-])|(connection & s1 & H & Hread)].
  - unfold try_except, urlopen, mbind, Py_bind, emit, modify, raise in H.
    destruct (urlopen_result w _ _ _) as [args|e0|connection|e0] eqn:Hres;
      cbn in H; try done.
    + left. case_match; unfold raise in H; simplify_eq; eauto.
    + destruct e0; unfold raise in H; cbn in H;
        try (simplify_eq; right; do 3 eexists; left; split; [exact Hres | done]).
      left. case_match; unfold raise in H; simplify_eq; eauto.
  - destruct connection as [connection|];
      [|unfold raise in Hread; simplify_eq; eauto].
    apply bind_inv in Hread as [(e' & Hr & [= <-])|(body & s2 & _ & Hbody)].
    + unfold try_except, urlopen, mbind, Py_bind, emit, modify, raise in H.
      destruct (urlopen_result w _ _ _) as [args|e0|c|e0] eqn:Hres; cbn in H.
      * case_match; simplify_eq.
      * destruct e0; cbn in H; try done. case_match; simplify_eq.
      * destruct c; unfold mret, Py_ret in H; cbn in H; simplify_eq.
      * unfold mret, Py_ret in H. simplify_eq. unfold read, lift in Hr.
        simplify_eq. right. do 3 eexists. right. exact Hres.
    + destruct (negb (String.eqb body "OK")); unfold raise in Hbody;
        simplify_eq; eauto.
Qed.

(** When the preparation returns, the options carry a diff and a name. *)
Lemma TryChange_prepare_ready (w : World) (st s : State) :
  TryChange_prepare w st = (Ok tt, s) →
  has_diff s.(the_options) ∧ s.(the_options).(name) ≠ None.
Proof.
  intros H. unfold TryChange_prepare in H.
  apply bind_inv in H as [(e & _ & ?)|(o0 & s0 & _ & H)]; [done|].
  apply bind_inv in H as [(e & _ & ?)|([] & s1 & _ & H)]; [done|].
  apply bind_inv in H as [(e & _ & ?)|([] & s2 & Hvcs & H)]; [done|].
  assert (has_diff (the_options s2)) as Hdiff.
  { clear H. unfold try_except in Hvcs.
    destruct ((GuessVCS w ≫= λ self, modify_options (set_scm (Some self))) s1)
      as [[[]|e] s1'] eqn:Hbody.
    - simplify_eq.
      apply bind_inv in Hbody as [(e & _ & ?)|(self & s3 & HG & H)]; [done|].
      apply GuessVCS_has_diff in HG.
      unfold modify_options, modify in H. by simplify_eq.
    - destruct e; simplify_eq. unfold mbind, Py_bind, get_options in Hvcs.
      destruct (truthy (diff (the_options s1'))) eqn:Hd; cbn in Hvcs;
        [|done].
      unfold mret, Py_ret in Hvcs. simplify_eq. by apply truthy_has_diff. }
  clear Hvcs.
  apply bind_inv in H as [(e & _ & ?)|(o2 & s2' & Hg & H)]; [done|];
    unfold get_options in Hg; simplify_eq.
  apply bind_inv in H as [(e & _ & ?)|([] & s3 & Hbot & H)]; [done|].
  assert (has_diff (the_options s3)) as Hdiff3.
  { clear H. revert Hbot Hdiff.
    destruct (negb _);
      [|apply (preserves_mret (λ s, has_diff (the_options s)))].
    apply (preserves_bind (λ s, has_diff (the_options s))).
    { destruct (truthy _); [|apply preserves_mret].
      unfold parser_error. apply preserves_bind; [by apply preserves_modify|].
      intros; apply preserves_raise. }
    intros _. cbv zeta. destruct (scm _) as [self|]; [|apply preserves_raise].
    apply preserves_bind.
    { unfold GetFileNames. apply preserves_bind; [apply preserves_get_options|].
      intros; apply preserves_mret. }
    intros file_names. apply preserves_bind; [apply preserves_lift|].
    intros slaves. by apply (preserves_modify_options has_diff). }
  clear Hbot Hdiff.
  apply bind_inv in H as [(e & _ & ?)|(o3 & s3' & Hg & H)]; [done|];
    unfold get_options in Hg; simplify_eq.
  apply bind_inv in H as [(e & _ & ?)|([] & s4 & Hname & H)]; [done|].
  assert (has_diff (the_options s4) ∧ name (the_options s4) ≠ None) as [Hd4 Hn4].
  { clear H. destruct (name (the_options s3')) as [n|] eqn:Hn.
    - unfold mret, Py_ret in Hname. simplify_eq. split; [done | by rewrite Hn].
    - unfold has_diff in *.
      destruct (truthy (issue (the_options s3'))); py_unfold; cbn in Hname;
        unfold emit, modify in Hname; simplify_eq; cbn; by split. }
  apply bind_inv in H as [(e & _ & ?)|(o4 & s4' & Hg & H)]; [done|];
    unfold get_options in Hg; simplify_eq.
  clear Hname. destruct (negb _); unfold print, emit, modify in H; by simplify_eq.
Qed.

(** X15. Every run of the [try] body of [TryChange] either ends before
    the delivery, with the exception the preparation raised, or reaches the
    delivery with options that carry a diff and a job name.  A mediated
    delivery so reached ends, when it fails, in [NoTryServerAccess], in an
    [IOError] from opening the submission file or from [tempfile], or in
    an [OSError] from [tempfile]: the [AttributeError] and the [TypeError]
    it raises for a missing name or diff cannot occur. A direct delivery
    ends, when it fails, in [NoTryServerAccess] or in the exception that
    [urllib.urlopen] (no [IOError]) or [read] raised. Without a transport
    the call is a [TypeError]. *)
Theorem TryChange_try_delivery (w : World) (st st' : State) (r : Res unit) :
  TryChange_try w st = (r, st') →
  (∃ e, r = Raise e ∧ TryChange_prepare w st = (Raise e, st')) ∨
  (∃ s d n,
     TryChange_prepare w st = (Ok tt, s) ∧
     s.(the_options).(diff) = Some d ∧
     s.(the_options).(name) = Some n ∧
     TryChange_send w s = (r, st') ∧
     ∀ e, r = Raise e →
          match s.(the_options).(send_patch) with
          | Some SendChangeSVN => delivery_error e
          | Some SendChangeHTTP => http_delivery_error w e
          | None => e = TypeError
          end).
Proof.
  intros H. rewrite TryChange_try_split in H.
  apply bind_inv in H as [(e & Hp & ->)|([] & s & Hp & Hs)]; [left; eauto|].
  right. destruct (TryChange_prepare_ready w st s Hp) as [Hd Hn].
  unfold has_diff in Hd.
  destruct (diff (the_options s)) as [d|] eqn:Ed; [|done].
  destruct (name (the_options s)) as [n|] eqn:En; [|done].
  exists s, d, n. split_and!; [done..|].
  intros e ->. unfold TryChange_send in Hs.
  apply bind_inv in Hs as [(e' & Hg & _)|(o & s' & Hg & Hs)];
    unfold get_options in Hg; simplify_eq.
  apply bind_inv in Hs as [(e' & Hc & ?)|([] & s1 & _ & Hs)];
    [|py_unfold; by simplify_eq].
  simplify_eq. unfold call_send_patch in Hc.
  destruct (send_patch (the_options s')) as [[]|].
  - by eapply raises_only_SendChangeHTTP.
  - apply raises_only_SendChangeSVN in Hc. unfold delivery_error.
    destruct Hc as [[msg ->] | [[args ->] | [[_ ?] | [[_ ?] | [args ->]]]]];
      [eauto | eauto | congruence | congruence | eauto].
  - unfold raise in Hc. by simplify_eq.
Qed.

Lemma TryChange_try_delivery_witness :
  let w := demo_world http_settings (λ _, None) demo_now
             (UrlOpened (Some "OK")) no_git in
  let st := set_options (set_send_patch (Some SendChangeHTTP) demo_options)
              (start_state "/src" ∅ ∅) in
  ∃ s, TryChange_prepare w st = (Ok tt, s) ∧
       s.(the_options).(diff) = Some "Index: a.cc" ∧
       s.(the_options).(name) = Some "fix.1".
Proof.
  intros w st. destruct (TryChange_try w st) as [r st'] eqn:H.
  destruct (TryChange_try_delivery w st st' r H)
    as [(e & _ & Hp)|(s & d & n & Hp & Hd & Hn & _)].
  - vm_compute in Hp. discriminate Hp.
  - exists s. split; [done|].
    vm_compute in Hp. injection Hp as <-. by vm_compute.
Defined.
